(** * wiii_analytics: the analytics computation layer

    A shallow embedding of the analyzers under [src/analyzers]
    (signal, time, execution, risk, regime and symbol analyzers) and the
    properties of their reports.

    Numbers.  Python's [float] values are taken as exact rationals ([Q]);
    [float('inf')] is a separate constructor.  Integers that the code only
    counts with ([len], [+= 1]) are [nat]; epoch milliseconds are [Z].
    A dict read with [d.get(key, default)] is a record of [option] fields,
    [None] standing for an absent key. *)

From Stdlib Require Import ZArith QArith Qround Qabs Lia Lqa String List.
From Stdlib Require Import Sorted Permutation.
From stdpp Require Import base option list gmap strings.
Import ListNotations.

Local Open Scope Q_scope.

(** ** Python primitives *)

Module Py.

(** [d.get(key, dflt)] *)
Definition get {A : Type} (field : option A) (dflt : A) : A :=
  match field with
  | Some v => v
  | None => dflt
  end.

Definition ltb (x y : Q) : bool := negb (Qle_bool y x).
Definition leb (x y : Q) : bool := Qle_bool x y.
Definition gtb (x y : Q) : bool := ltb y x.

Definition of_nat (n : nat) : Q := inject_Z (Z.of_nat n).

(** [sum(xs)] *)
Definition sum (xs : list Q) : Q := fold_left Qplus xs 0.

(** Round to the nearest integer, ties to the even one. *)
Definition round_half_even (q : Q) : Z :=
  let f := Qfloor q in
  match Qcompare (q - inject_Z f) (1 # 2) with
  | Lt => f
  | Gt => (f + 1)%Z
  | Eq => if Z.even f then f else (f + 1)%Z
  end.

(** [round(q, ndigits)] *)
Definition round (q : Q) (ndigits : nat) : Q :=
  let scale := inject_Z (10 ^ Z.of_nat ndigits) in
  inject_Z (round_half_even (q * scale)) / scale.

(** [a / b]: [None] is ZeroDivisionError. *)
Definition div (a b : Q) : option Q :=
  if Qeq_bool b 0 then None else Some (a / b).

(** A float that may be [float('inf')]. *)
Inductive float : Type :=
| Fin (q : Q)
| Inf.

(** [min(x, bound)] for a finite [bound]. *)
Definition min_fin (x : float) (bound : Q) : Q :=
  match x with
  | Fin q => if ltb bound q then bound else q
  | Inf => bound
  end.

(** The body of a [for] statement that may raise: the state is threaded
    through the items, the first exception ends the loop. *)
Fixpoint for_each {A S : Type} (body : S -> A -> option S)
    (items : list A) (s : S) : option S :=
  match items with
  | [] => Some s
  | x :: rest =>
      match body s x with
      | Some s' => for_each body rest s'
      | None => None
      end
  end.

(** [l[:n]] and [l[n:]]: a negative [n] counts from the end, and an [n]
    beyond either end stops there. *)
Definition slice_to {A : Type} (l : list A) (n : Z) : list A :=
  if (0 <=? n)%Z then firstn (Z.to_nat n) l
  else firstn (length l - Z.to_nat (- n)) l.

Definition slice_from {A : Type} (l : list A) (n : Z) : list A :=
  if (0 <=? n)%Z then skipn (Z.to_nat n) l
  else skipn (length l - Z.to_nat (- n)) l.

(** [sorted(l, key=key, reverse=reverse)]: the sort is stable, also when
    it is reversed.  [x] is put into a sorted list behind the elements whose
    key goes strictly before its own. *)
Definition goes_before (reverse : bool) (ky kx : Q) : bool :=
  if reverse then ltb kx ky else ltb ky kx.

Fixpoint insert_by {A : Type} (key : A -> Q) (reverse : bool) (x : A)
    (sorted : list A) : list A :=
  match sorted with
  | [] => [x]
  | y :: rest =>
      if goes_before reverse (key y) (key x)
      then y :: insert_by key reverse x rest
      else x :: y :: rest
  end.

Definition sorted {A : Type} (key : A -> Q) (reverse : bool) (l : list A)
    : list A :=
  fold_right (insert_by key reverse) [] l.

End Py.

(** ** Input records *)

Module Trade.
Record t : Type := mk {
  quantity : option Q;
  price : option Q;
  realized_pnl : option Q;
  commission : option Q;
  timestamp : option Z;
  confidence : option Q
}.

(** A trade that carries only a pnl and, possibly, a confidence. *)
Definition signal (pnl : Q) (conf : option Q) : t :=
  mk None None (Some pnl) None None conf.
End Trade.

Module Income.
Record t : Type := mk {
  symbol : option string;
  income_type : option string;
  income : option Q;
  timestamp : option Z
}.
End Income.

Module EquityPoint.
Record t : Type := mk {
  time : option Z;
  balance : option Q
}.
End EquityPoint.

Module DailyPnL.
Record t : Type := mk {
  net_pnl : option Q
}.
End DailyPnL.

Module Order.
Record t : Type := mk {
  status : option string;
  create_time : option Z;
  update_time : option Z
}.
End Order.

(** A trade dict with the keys that the attribution of signals reads
    beside those of [Trade.t]. *)
Module TaggedTrade.
Record t : Type := mk {
  trade : Trade.t;
  side : option string;
  exit_reason : option string;
  strategy : option string;
  signal_source : option string
}.

Definition realized_pnl (x : t) : Q := Py.get (Trade.realized_pnl (trade x)) 0.
End TaggedTrade.

(** ** signal_analyzer.py *)

Module SignalAnalyzer.

Record Bucket : Type := mkBucket {
  bmin : Q;
  bmax : Q;
  btrades : list Trade.t;
  bpnl : Q
}.

Record BucketStats : Type := mkBucketStats {
  trade_count : nat;
  win_count : nat;
  win_rate : Q;
  total_pnl : Q;
  avg_pnl : Q
}.

Record Report : Type := mkReport {
  by_confidence : list (string * BucketStats);
  confidence_correlation_valid : bool;
  recommendation : string
}.

Definition buckets0 : list (string * Bucket) :=
  [ ("low"%string, mkBucket 0 (4 # 10) [] 0);
    ("medium"%string, mkBucket (4 # 10) (7 # 10) [] 0);
    ("high"%string, mkBucket (7 # 10) 1 [] 0) ].

(** The inner loop: the first bucket whose range holds the confidence
    takes the trade, and the loop breaks. *)
Fixpoint place (trade : Trade.t) (conf pnl : Q)
    (buckets : list (string * Bucket)) : list (string * Bucket) :=
  match buckets with
  | [] => []
  | (name, bucket) :: rest =>
      if Py.leb (bmin bucket) conf && Py.ltb conf (bmax bucket)
      then (name, mkBucket (bmin bucket) (bmax bucket)
                    (btrades bucket ++ [trade]) (bpnl bucket + pnl)) :: rest
      else (name, bucket) :: place trade conf pnl rest
  end.

Definition assign (buckets : list (string * Bucket)) (trade : Trade.t)
    : list (string * Bucket) :=
  let conf := Py.get (Trade.confidence trade) (1 # 2) in
  let pnl := Py.get (Trade.realized_pnl trade) 0 in
  place trade conf pnl buckets.

Definition is_win (t : Trade.t) : bool :=
  Py.gtb (Py.get (Trade.realized_pnl t) 0) 0.

Definition bucket_stats (bucket : Bucket) : BucketStats :=
  let count := length (btrades bucket) in
  let wins := length (List.filter is_win (btrades bucket)) in
  mkBucketStats count wins
    (if (0 <? count)%nat
     then Py.round (Py.of_nat wins / Py.of_nat count * 100) 1 else 0)
    (Py.round (bpnl bucket) 2)
    (if (0 <? count)%nat
     then Py.round (bpnl bucket / Py.of_nat count) 4 else 0).

Definition zero_stats : BucketStats := mkBucketStats 0 0 0 0 0.

(** [result[name]], for the three names the report holds *)
Fixpoint item (result : list (string * BucketStats)) (name : string)
    : BucketStats :=
  match result with
  | [] => zero_stats
  | (n, s) :: rest => if String.eqb n name then s else item rest name
  end.

Definition analyze_by_confidence (trades : list Trade.t) : Report :=
  let buckets := fold_left assign trades buckets0 in
  let result := map (fun nb => (fst nb, bucket_stats (snd nb))) buckets in
  let is_confidence_valid :=
    Py.leb (win_rate (item result "medium")) (win_rate (item result "high"))
    && Py.leb (win_rate (item result "low")) (win_rate (item result "medium")) in
  mkReport result is_confidence_valid
    (if is_confidence_valid
     then "Confidence scoring is effective"
     else "Consider re-calibrating confidence model").

(** *** Direction attribution *)

(** What [calc_stats] returns: the short dict of an empty list, that has
    no ["total_pnl"] key, or the full one. *)
Inductive DirectionStats : Type :=
| NoDirection
| Direction (count : nat) (dir_total_pnl dir_win_rate dir_avg_pnl : Q).

Definition calc_stats (trade_list : list TaggedTrade.t) : DirectionStats :=
  match trade_list with
  | [] => NoDirection
  | _ :: _ =>
      let count := length trade_list in
      let pnl := Py.sum (map TaggedTrade.realized_pnl trade_list) in
      let wins :=
        length (List.filter (fun t => Py.gtb (TaggedTrade.realized_pnl t) 0)
                  trade_list) in
      Direction count (Py.round pnl 2)
        (if (0 <? count)%nat
         then Py.round (Py.of_nat wins / Py.of_nat count * 100) 1 else 0)
        (if (0 <? count)%nat then Py.round (pnl / Py.of_nat count) 4 else 0)
  end.

(** [stats["total_pnl"]]: [None] is the KeyError of the short dict. *)
Definition total_pnl_of (stats : DirectionStats) : option Q :=
  match stats with
  | NoDirection => None
  | Direction _ total _ _ => Some total
  end.

Record DirectionReport : Type := mkDirectionReport {
  long : DirectionStats;
  short : DirectionStats;
  market_bias : string
}.

Section Direction.

(** [str.upper] *)
Variable upper : string -> string.

Definition side_in (names : list string) (t : TaggedTrade.t) : bool :=
  existsb (String.eqb (upper (Py.get (TaggedTrade.side t) ""))) names.

Definition long_trades_of (trades : list TaggedTrade.t) : list TaggedTrade.t :=
  List.filter (side_in ["BUY"; "LONG"]%string) trades.

Definition short_trades_of (trades : list TaggedTrade.t) : list TaggedTrade.t :=
  List.filter (side_in ["SELL"; "SHORT"]%string) trades.

Definition analyze_by_direction (trades : list TaggedTrade.t)
    : option DirectionReport :=
  let long_stats := calc_stats (long_trades_of trades) in
  let short_stats := calc_stats (short_trades_of trades) in
  long_total ← total_pnl_of long_stats;
  short_total ← total_pnl_of short_stats;
  let market_bias :=
    if Py.gtb long_total (short_total * (15 # 10)) then "BULLISH"
    else if Py.gtb short_total (long_total * (15 # 10)) then "BEARISH"
    else "NEUTRAL" in
  Some (mkDirectionReport long_stats short_stats market_bias).

End Direction.

(** *** Exit reason and signal source attribution *)

Record GroupStats : Type := mkGroupStats {
  g_count : nat;
  g_pnl : Q;
  g_wins : nat
}.

(** One turn of the loops: the counters of [key] take the trade of pnl
    [pnl]; a new key starts from the default value and goes last. *)
Fixpoint tally (stats : list (string * GroupStats)) (key : string) (pnl : Q)
    : list (string * GroupStats) :=
  match stats with
  | [] => [(key, mkGroupStats 1 (0 + pnl) (if Py.gtb pnl 0 then 1 else 0))]
  | (k, g) :: rest =>
      if String.eqb k key
      then (k, mkGroupStats (S (g_count g)) (g_pnl g + pnl)
                 (if Py.gtb pnl 0 then S (g_wins g) else g_wins g)) :: rest
      else (k, g) :: tally rest key pnl
  end.

Record ExitEntry : Type := mkExitEntry {
  exit_count : nat;
  exit_total_pnl : Q;
  exit_avg_pnl : Q;
  exit_win_rate : Q;
  pct_of_total : Q
}.

Definition exit_reason_of (t : TaggedTrade.t) : string :=
  Py.get (TaggedTrade.exit_reason t) "UNKNOWN"%string.

Definition analyze_by_exit_reason (trades : list TaggedTrade.t)
    : list (string * ExitEntry) :=
  let exit_stats :=
    fold_left (fun stats t => tally stats (exit_reason_of t)
                                (TaggedTrade.realized_pnl t))
      trades [] in
  let result :=
    map (fun item : string * GroupStats =>
           let stats := snd item in
           let count := g_count stats in
           (fst item,
            mkExitEntry count (Py.round (g_pnl stats) 2)
              (if (0 <? count)%nat
               then Py.round (g_pnl stats / Py.of_nat count) 4 else 0)
              (if (0 <? count)%nat
               then Py.round (Py.of_nat (g_wins stats) / Py.of_nat count * 100) 1
               else 0)
              (match trades with
               | [] => 0
               | _ :: _ =>
                   Py.round (Py.of_nat count / Py.of_nat (length trades) * 100) 1
               end)))
      exit_stats in
  Py.sorted (fun item => Py.of_nat (exit_count (snd item))) true result.

Record SourceEntry : Type := mkSourceEntry {
  source_count : nat;
  source_total_pnl : Q;
  source_avg_pnl : Q;
  source_win_rate : Q
}.

(** [trade.get("strategy", trade.get("signal_source", "LIMIT_SNIPER"))] *)
Definition source_of (t : TaggedTrade.t) : string :=
  Py.get (TaggedTrade.strategy t)
    (Py.get (TaggedTrade.signal_source t) "LIMIT_SNIPER"%string).

Definition analyze_by_signal_source (trades : list TaggedTrade.t)
    : list (string * SourceEntry) :=
  let source_stats :=
    fold_left (fun stats t => tally stats (source_of t)
                                (TaggedTrade.realized_pnl t))
      trades [] in
  map (fun item : string * GroupStats =>
         let stats := snd item in
         let count := g_count stats in
         (fst item,
          mkSourceEntry count (Py.round (g_pnl stats) 2)
            (if (0 <? count)%nat
             then Py.round (g_pnl stats / Py.of_nat count) 4 else 0)
            (if (0 <? count)%nat
             then Py.round (Py.of_nat (g_wins stats) / Py.of_nat count * 100) 1
             else 0)))
    source_stats.

(** *** Signal report *)

Record SignalReport : Type := mkSignalReport {
  confidence_attribution : Report;
  direction_attribution : DirectionReport;
  exit_reason_attribution : list (string * ExitEntry);
  signal_source_attribution : list (string * SourceEntry);
  total_trades_analyzed : nat;
  generated_at : string
}.

Section SignalReport.

Variable upper : string -> string.

(** [now] is the reading of [datetime.utcnow().isoformat()]. *)
Definition generate_signal_report (now : string)
    (trades : list TaggedTrade.t) : option SignalReport :=
  let confidence := analyze_by_confidence (map TaggedTrade.trade trades) in
  direction ← analyze_by_direction upper trades;
  let exit_reasons := analyze_by_exit_reason trades in
  let sources := analyze_by_signal_source trades in
  Some (mkSignalReport confidence direction exit_reasons sources
          (length trades) now).

End SignalReport.

End SignalAnalyzer.

(** ** datetime *)

Module Datetime.

(** Seconds since the epoch of 0001-01-01T00:00:00Z and of
    10000-01-01T00:00:00Z: [datetime] holds the instants in between. *)
Definition min_seconds : Z := -62135596800.
Definition max_seconds : Z := 253402300800.

(** [datetime.fromtimestamp(secs, tz=timezone.utc).hour] and
    [datetime.utcfromtimestamp(secs).hour]; [None] is the exception raised
    for an instant outside the years 1 to 9999.  The analyzers pass
    [timestamp_ms / 1000], which has no digit below the millisecond, so the
    rounding to microseconds leaves the instant as it is. *)
Definition utc_hour (secs : Q) : option Z :=
  let s := Qfloor secs in
  if ((min_seconds <=? s) && (s <? max_seconds))%Z
  then Some ((s / 3600) mod 24)%Z
  else None.

(** The epoch milliseconds that name an instant [datetime] holds. *)
Definition representable (timestamp_ms : Z) : Prop :=
  (min_seconds * 1000 <= timestamp_ms < max_seconds * 1000)%Z.

End Datetime.

(** ** time_analyzer.py *)

Module TimeAnalyzer.

Definition VN_OFFSET : Z := 7.

Record HourStats : Type := mkHourStats {
  pnl : Q;
  trades : nat;
  wins : nat
}.

Record HourEntry : Type := mkHourEntry {
  hour : Z;
  total_pnl : Q;
  trade_count : nat;
  win_count : nat;
  win_rate : Q
}.

(** [defaultdict(lambda: {"pnl": 0.0, "trades": 0, "wins": 0})] read at
    a key. *)
Definition stats_at (hourly_stats : gmap Z HourStats) (h : Z) : HourStats :=
  default (mkHourStats 0 0 0) (hourly_stats !! h).

Definition is_realized_pnl (record : Income.t) : bool :=
  match Income.income_type record with
  | Some ty => String.eqb ty "REALIZED_PNL"
  | None => false
  end.

(** The Vietnam hour of a timestamp in milliseconds. *)
Definition vn_hour (timestamp_ms : Z) : option Z :=
  match Datetime.utc_hour (inject_Z timestamp_ms / 1000) with
  | Some utc => Some ((utc + VN_OFFSET) mod 24)%Z
  | None => None
  end.

(** One turn of the loop over the income records. *)
Definition accumulate (hourly_stats : gmap Z HourStats) (record : Income.t)
    : option (gmap Z HourStats) :=
  if negb (is_realized_pnl record) then Some hourly_stats
  else
    let timestamp_ms := Py.get (Income.timestamp record) 0%Z in
    match vn_hour timestamp_ms with
    | None => None
    | Some h =>
        let p := Py.get (Income.income record) 0 in
        let st := stats_at hourly_stats h in
        Some (<[h := mkHourStats (pnl st + p) (S (trades st))
                       (if Py.gtb p 0 then S (wins st) else wins st)]>
                hourly_stats)
    end.

Definition hour_entry (hourly_stats : gmap Z HourStats) (h : Z) : HourEntry :=
  let stats := stats_at hourly_stats h in
  let n := trades stats in
  mkHourEntry h (Py.round (pnl stats) 2) n (wins stats)
    (if (0 <? n)%nat
     then Py.round (Py.of_nat (wins stats) / Py.of_nat n * 100) 1 else 0).

Definition analyze_by_hour (income_records : list Income.t)
    : option (list HourEntry) :=
  match Py.for_each accumulate income_records ∅ with
  | Some hourly_stats => Some (map (hour_entry hourly_stats) (seqZ 0 24))
  | None => None
  end.

Record BestWorst : Type := mkBestWorst {
  best_hours : list HourEntry;
  worst_hours : list HourEntry
}.

Definition identify_best_worst_hours (hourly_stats : list HourEntry)
    (top_n : Z) : BestWorst :=
  let sorted_by_pnl := Py.sorted total_pnl true hourly_stats in
  mkBestWorst (Py.slice_to sorted_by_pnl top_n)
    (Py.slice_from sorted_by_pnl (- top_n)).

End TimeAnalyzer.

(** ** execution_analyzer.py *)

Module ExecutionAnalyzer.

Definition VN_OFFSET : Z := 7.

Record HourStats : Type := mkHourStats {
  volume : Q;
  commission : Q;
  trade_count : nat
}.

Record HourEntry : Type := mkHourEntry {
  hour : Z;
  e_trade_count : nat;
  e_volume : Q;
  e_commission : Q;
  effective_fee_pct : Q
}.

Definition stats_at (hourly_stats : gmap Z HourStats) (h : Z) : HourStats :=
  default (mkHourStats 0 0 0) (hourly_stats !! h).

Definition vn_hour (timestamp_ms : Z) : option Z :=
  match Datetime.utc_hour (inject_Z timestamp_ms / 1000) with
  | Some utc => Some ((utc + VN_OFFSET) mod 24)%Z
  | None => None
  end.

(** One turn of the loop over the trades; a falsy timestamp takes the
    [continue]. *)
Definition accumulate (hourly_stats : gmap Z HourStats) (trade : Trade.t)
    : option (gmap Z HourStats) :=
  let timestamp_ms := Py.get (Trade.timestamp trade) 0%Z in
  if (timestamp_ms =? 0)%Z then Some hourly_stats
  else
    match vn_hour timestamp_ms with
    | None => None
    | Some h =>
        let vol := Qabs (Py.get (Trade.quantity trade) 0
                         * Py.get (Trade.price trade) 0) in
        let com := Qabs (Py.get (Trade.commission trade) 0) in
        let st := stats_at hourly_stats h in
        Some (<[h := mkHourStats (volume st + vol) (commission st + com)
                       (S (trade_count st))]> hourly_stats)
    end.

Definition hour_entry (hourly_stats : gmap Z HourStats) (h : Z) : HourEntry :=
  let stats := stats_at hourly_stats h in
  let vol := volume stats in
  mkHourEntry h (trade_count stats) (Py.round vol 2)
    (Py.round (commission stats) 4)
    (if Py.gtb vol 0
     then Py.round (commission stats / vol * 100) 4 else 0).

Definition analyze_execution_by_hour (trades : list Trade.t)
    : option (list HourEntry) :=
  match Py.for_each accumulate trades ∅ with
  | Some hourly_stats => Some (map (hour_entry hourly_stats) (seqZ 0 24))
  | None => None
  end.

(** *** Slippage *)

(** The report: [{}] for no trades. *)
Inductive SlippageReport : Type :=
| NoSlippage
| Slippage (total_volume total_commission effective_fee_rate_pct
            expected_taker_fee_pct slippage_bps : Q) (trades_analyzed : nat).

Definition analyze_slippage (trades : list Trade.t) : SlippageReport :=
  match trades with
  | [] => NoSlippage
  | _ :: _ =>
      let total_volume :=
        Py.sum (map (fun t => Qabs (Py.get (Trade.quantity t) 0
                                    * Py.get (Trade.price t) 0)) trades) in
      let total_commission :=
        Py.sum (map (fun t => Qabs (Py.get (Trade.commission t) 0)) trades) in
      let effective_fee_rate :=
        if Py.gtb total_volume 0 then total_commission / total_volume else 0 in
      let expected_taker_fee := 5 # 10000 in
      let slippage_from_expected :=
        (effective_fee_rate - expected_taker_fee) * 100 in
      Slippage (Py.round total_volume 2) (Py.round total_commission 4)
        (Py.round (effective_fee_rate * 100) 4) (expected_taker_fee * 100)
        (Py.round (slippage_from_expected * 100) 2) (length trades)
  end.

(** *** Time to fill *)

Inductive FillTiming : Type :=
| NoTiming (message : string)
| Timing (total_orders filled_orders canceled_orders : nat)
    (fill_rate_pct avg_fill_time_seconds instant_fills_pct : Q).

Definition has_status (name : string) (o : Order.t) : bool :=
  match Order.status o with
  | Some s => String.eqb s name
  | None => false
  end.

(** The loop over the filled orders: the seconds from creation to the last
    update, for the orders that have both times. *)
Definition fill_duration (o : Order.t) : option Q :=
  let order_time := Py.get (Order.create_time o) 0%Z in
  let fill_time := Py.get (Order.update_time o) order_time in
  if negb (order_time =? 0)%Z && negb (fill_time =? 0)%Z
  then Some (inject_Z (fill_time - order_time) / 1000)
  else None.

Fixpoint fill_times_of (filled : list Order.t) : list Q :=
  match filled with
  | [] => []
  | o :: rest =>
      match fill_duration o with
      | Some d => d :: fill_times_of rest
      | None => fill_times_of rest
      end
  end.

Definition analyze_fill_timing (orders : list Order.t) (trades : list Trade.t)
    : FillTiming :=
  match orders, trades with
  | [], _ | _, [] =>
      NoTiming "Insufficient order/trade data for timing analysis"
  | _ :: _, _ :: _ =>
      let filled := List.filter (has_status "FILLED") orders in
      let canceled := List.filter (has_status "CANCELED") orders in
      let fill_rate :=
        Py.of_nat (length filled) / Py.of_nat (length orders) * 100 in
      let fill_times := fill_times_of filled in
      let avg_fill_time :=
        match fill_times with
        | [] => 0
        | _ :: _ => Py.sum fill_times / Py.of_nat (length fill_times)
        end in
      Timing (length orders) (length filled) (length canceled)
        (Py.round fill_rate 1) (Py.round avg_fill_time 2)
        (match fill_times with
         | [] => 0
         | _ :: _ =>
             Py.round
               (Py.of_nat (length (List.filter (fun t => Py.ltb t 1) fill_times))
                / Py.of_nat (length fill_times) * 100) 1
         end)
  end.

End ExecutionAnalyzer.

(** ** risk_analyzer.py *)

Module RiskAnalyzer.

(** *** Sortino ratio *)

Section WithSqrt.

(** [math.sqrt] on the non-negative numbers. *)
Variable sqrt : Q -> Q.

(** [math.sqrt(x)]: [None] is the ValueError of a negative argument. *)
Definition math_sqrt (x : Q) : option Q :=
  if Py.ltb x 0 then None else Some (sqrt x).

Definition excess_return (daily_returns : list Q) (risk_free_rate : Q)
    (annualization_factor : Z) : option Q :=
  avg_return ← Py.div (Py.sum daily_returns)
                      (Py.of_nat (length daily_returns));
  rf ← Py.div risk_free_rate (inject_Z annualization_factor);
  Some (avg_return - rf).

Definition negative_returns (daily_returns : list Q) : list Q :=
  List.filter (fun r => Py.ltb r 0) daily_returns.

Definition calculate_sortino_ratio (daily_returns : list Q)
    (risk_free_rate : Q) (annualization_factor : Z) : option Py.float :=
  if (length daily_returns <? 2)%nat then Some (Py.Fin 0)
  else
    excess ← excess_return daily_returns risk_free_rate annualization_factor;
    let negatives := negative_returns daily_returns in
    match negatives with
    | [] => Some (if Py.gtb excess 0 then Py.Inf else Py.Fin 0)
    | _ :: _ =>
        downside_variance ← Py.div (Py.sum (map (fun r => r * r) negatives))
                                   (Py.of_nat (length negatives));
        downside_dev ← math_sqrt downside_variance;
        if Qeq_bool downside_dev 0 then Some (Py.Fin 0)
        else
          ratio ← Py.div excess downside_dev;
          root ← math_sqrt (inject_Z annualization_factor);
          Some (Py.Fin (Py.round (ratio * root) 2))
    end.

End WithSqrt.

(** *** Maximum drawdown *)

Record DrawdownState : Type := mkDrawdownState {
  peak : Q;
  max_dd_pct : Q;
  max_dd_usd : Q;
  dd_start : option Z;
  current_dd_start : option Z
}.

(** The report; [peak_before_dd] is absent from the report of a curve of
    fewer than two points. *)
Record DrawdownReport : Type := mkDrawdownReport {
  max_drawdown_pct : Q;
  max_drawdown_usd : Q;
  peak_before_dd : option Q
}.

(** One turn of the loop over the equity points. *)
Definition drawdown_step (st : DrawdownState) (point : EquityPoint.t)
    : option DrawdownState :=
  let balance := Py.get (EquityPoint.balance point) 0 in
  if Py.gtb balance (peak st) then
    Some (mkDrawdownState balance (max_dd_pct st) (max_dd_usd st)
            (dd_start st) None)
  else
    let current := match current_dd_start st with
                   | None => EquityPoint.time point
                   | Some t => Some t
                   end in
    drawdown_pct ← (if Py.gtb (peak st) 0
                    then q ← Py.div (peak st - balance) (peak st); Some (q * 100)
                    else Some 0);
    let drawdown_usd := peak st - balance in
    if Py.gtb drawdown_pct (max_dd_pct st) then
      Some (mkDrawdownState (peak st) drawdown_pct drawdown_usd current current)
    else
      Some (mkDrawdownState (peak st) (max_dd_pct st) (max_dd_usd st)
              (dd_start st) current).

Definition calculate_max_drawdown (equity_curve : list EquityPoint.t)
    : option DrawdownReport :=
  match equity_curve with
  | [] | [_] => Some (mkDrawdownReport 0 0 None)
  | first :: _ =>
      let st0 := mkDrawdownState (Py.get (EquityPoint.balance first) 0)
                   0 0 None None in
      st ← Py.for_each drawdown_step equity_curve st0;
      Some (mkDrawdownReport (Py.round (max_dd_pct st) 2)
              (Py.round (max_dd_usd st) 2) (Some (Py.round (peak st) 2)))
  end.

(** *** Streaks *)

Record StreakState : Type := mkStreakState {
  s_max_win_streak : nat;
  s_max_loss_streak : nat;
  current_win_streak : nat;
  current_loss_streak : nat
}.

Record Streaks : Type := mkStreaks {
  max_win_streak : nat;
  max_loss_streak : nat;
  current_streak : Z
}.

(** One turn of the loop over the pnl values. *)
Definition streak_step (st : StreakState) (pnl : Q) : StreakState :=
  if Py.gtb pnl 0 then
    let w := S (current_win_streak st) in
    mkStreakState (Nat.max (s_max_win_streak st) w) (s_max_loss_streak st) w 0
  else if Py.ltb pnl 0 then
    let l := S (current_loss_streak st) in
    mkStreakState (s_max_win_streak st) (Nat.max (s_max_loss_streak st) l) 0 l
  else st.

Definition streak_loop (pnl_list : list Q) : StreakState :=
  fold_left streak_step pnl_list (mkStreakState 0 0 0 0).

Definition _calculate_streaks (pnl_list : list Q) : Streaks :=
  match pnl_list with
  | [] => mkStreaks 0 0 0
  | _ :: _ =>
      let st := streak_loop pnl_list in
      mkStreaks (s_max_win_streak st) (s_max_loss_streak st)
        (if (0 <? current_win_streak st)%nat
         then Z.of_nat (current_win_streak st)
         else (- Z.of_nat (current_loss_streak st))%Z)
  end.

(** *** Trade statistics *)

Record TradeStats : Type := mkTradeStats {
  total_trades : nat;
  winning_trades : nat;
  losing_trades : nat;
  win_rate : Q;
  gross_profit : Q;
  gross_loss : Q;
  net_profit : Q;
  avg_win : Q;
  avg_loss : Q;
  profit_factor : Q;
  risk_reward_ratio : Q;
  expectancy_per_trade : Q;
  largest_win : Q;
  largest_loss : Q;
  streaks : Streaks
}.

(** The report: [{}] for no trades. *)
Inductive TradeReport : Type :=
| NoTrades
| Stats (s : TradeStats).

(** [max(xs)] and [min(xs)] of a list with head [x]. *)
Definition list_max (x : Q) (xs : list Q) : Q :=
  fold_left (fun m y => if Py.gtb y m then y else m) xs x.
Definition list_min (x : Q) (xs : list Q) : Q :=
  fold_left (fun m y => if Py.ltb y m then y else m) xs x.

Definition winners_of (pnl_list : list Q) : list Q :=
  List.filter (fun p => Py.gtb p 0) pnl_list.
Definition losers_of (pnl_list : list Q) : list Q :=
  List.filter (fun p => Py.ltb p 0) pnl_list.

(** [sum(xs) if xs else 0] and [abs(sum(xs)) if xs else 0] *)
Definition gross_profit_of (winners : list Q) : Q :=
  match winners with [] => 0 | _ :: _ => Py.sum winners end.
Definition gross_loss_of (losers : list Q) : Q :=
  match losers with [] => 0 | _ :: _ => Qabs (Py.sum losers) end.

(** [total / len(xs) if xs else 0] *)
Definition average_of (total : Q) (xs : list Q) : option Q :=
  match xs with
  | [] => Some 0
  | _ :: _ => Py.div total (Py.of_nat (length xs))
  end.

(** [num / den if den > 0 else float('inf')] *)
Definition ratio_or_inf (num den : Q) : option Py.float :=
  if Py.gtb den 0 then q ← Py.div num den; Some (Py.Fin q)
  else Some Py.Inf.

Definition calculate_trade_stats (trades : list Trade.t) : option TradeReport :=
  match trades with
  | [] => Some NoTrades
  | _ :: _ =>
      let pnl_list := map (fun t => Py.get (Trade.realized_pnl t) 0) trades in
      let winners := winners_of pnl_list in
      let losers := losers_of pnl_list in
      let gross_profit := gross_profit_of winners in
      let gross_loss := gross_loss_of losers in
      let net_profit := gross_profit - gross_loss in
      win_rate ← match pnl_list with
                 | [] => Some 0
                 | _ :: _ => q ← Py.div (Py.of_nat (length winners))
                                        (Py.of_nat (length pnl_list));
                             Some (q * 100)
                 end;
      avg_win ← average_of gross_profit winners;
      avg_loss ← average_of gross_loss losers;
      profit_factor ← ratio_or_inf gross_profit gross_loss;
      risk_reward ← ratio_or_inf avg_win avg_loss;
      let loss_rate := 100 - win_rate in
      let expectancy := (win_rate / 100 * avg_win) - (loss_rate / 100 * avg_loss) in
      let streaks := _calculate_streaks pnl_list in
      Some (Stats (mkTradeStats
        (length pnl_list) (length winners) (length losers)
        (Py.round win_rate 1)
        (Py.round gross_profit 2) (Py.round gross_loss 2)
        (Py.round net_profit 2)
        (Py.round avg_win 4) (Py.round avg_loss 4)
        (Py.round (Py.min_fin profit_factor (9999 # 100)) 2)
        (Py.round (Py.min_fin risk_reward (9999 # 100)) 2)
        (Py.round expectancy 4)
        (Py.round (match winners with [] => 0 | w :: ws => list_max w ws end) 2)
        (Py.round (match losers with [] => 0 | l :: ls => list_min l ls end) 2)
        streaks))
  end.

(** *** Sharpe ratio *)

Section Sharpe.

Variable sqrt : Q -> Q.

Definition calculate_sharpe_ratio (daily_returns : list Q)
    (risk_free_rate : Q) (annualization_factor : Z) : option Q :=
  if (length daily_returns <? 2)%nat then Some 0
  else
    avg_return ← Py.div (Py.sum daily_returns)
                        (Py.of_nat (length daily_returns));
    rf ← Py.div risk_free_rate (inject_Z annualization_factor);
    let excess_return := avg_return - rf in
    variance ← Py.div
                 (Py.sum (map (fun r => (r - avg_return) * (r - avg_return))
                            daily_returns))
                 (Py.of_nat (length daily_returns - 1));
    std_dev ← math_sqrt sqrt variance;
    if Qeq_bool std_dev 0 then Some 0
    else
      ratio ← Py.div excess_return std_dev;
      root ← math_sqrt sqrt (inject_Z annualization_factor);
      Some (Py.round (ratio * root) 2).

End Sharpe.

(** *** Risk report *)

Record RiskMetrics : Type := mkRiskMetrics {
  sharpe_ratio : Q;
  sortino_ratio : Py.float;
  drawdown : option DrawdownReport
}.

Record RiskReport : Type := mkRiskReport {
  trade_statistics : TradeReport;
  risk_metrics : RiskMetrics;
  period_days : nat;
  generated_at : string
}.

Section Report.

Variable sqrt : Q -> Q.

(** [[r / max(abs(avg_daily), 1) for r in daily_returns]]: the divisor is
    at least 1. *)
Definition normalize (avg_daily : Q) (daily_returns : list Q) : list Q :=
  let divisor := if Py.gtb 1 (Qabs avg_daily) then 1 else Qabs avg_daily in
  map (fun r => r / divisor) daily_returns.

(** [now] is the reading of [datetime.utcnow().isoformat()];
    [equity_curve] is [None] when the argument is left out. *)
Definition generate_risk_report (now : string) (trades : list Trade.t)
    (daily_pnl : list DailyPnL.t) (equity_curve : option (list EquityPoint.t))
    : option RiskReport :=
  trade_stats ← calculate_trade_stats trades;
  let daily_returns := map (fun day => Py.get (DailyPnL.net_pnl day) 0) daily_pnl in
  ratios ← (if (1 <? length daily_returns)%nat
            then
              avg_daily ← Py.div (Py.sum daily_returns)
                                 (Py.of_nat (length daily_returns));
              let normalized_returns := normalize avg_daily daily_returns in
              sharpe ← calculate_sharpe_ratio sqrt normalized_returns 0 365;
              sortino ← calculate_sortino_ratio sqrt normalized_returns 0 365;
              Some (sharpe, sortino)
            else Some (0, Py.Fin 0));
  drawdown_stats ← match equity_curve with
                   | Some (point :: rest) =>
                       stats ← calculate_max_drawdown (point :: rest);
                       Some (Some stats)
                   | _ => Some None
                   end;
  Some (mkRiskReport trade_stats
          (mkRiskMetrics (fst ratios) (snd ratios) drawdown_stats)
          (length daily_pnl) now).

End Report.

End RiskAnalyzer.

(** ** regime_analyzer.py *)

Module RegimeAnalyzer.

(** The report: the short form of fewer than five days, or the full one. *)
Inductive VolatilityReport : Type :=
| Insufficient (volatility : Q)
| Classified (regime : string) (volatility_pct std_dev_usd : Q)
    (description : string) (days_analyzed : nat).

(** The ["regime"] key of a report. *)
Definition regime_of (r : VolatilityReport) : string :=
  match r with
  | Insufficient _ => "INSUFFICIENT_DATA"
  | Classified regime _ _ _ _ => regime
  end.

Definition base_capital : Q := 100.

Section WithSqrt.

Variable sqrt : Q -> Q.

Definition detect_volatility_regime (daily_pnl : list DailyPnL.t)
    : option VolatilityReport :=
  if (length daily_pnl <? 5)%nat then Some (Insufficient 0)
  else
    let pnl_values := map (fun d => Py.get (DailyPnL.net_pnl d) 0) daily_pnl in
    mean_pnl ← Py.div (Py.sum pnl_values) (Py.of_nat (length pnl_values));
    variance ← Py.div
                 (Py.sum (map (fun p => (p - mean_pnl) * (p - mean_pnl)) pnl_values))
                 (Py.of_nat (length pnl_values - 1));
    std_dev ← RiskAnalyzer.math_sqrt sqrt variance;
    let volatility_pct :=
      if Py.gtb base_capital 0 then (std_dev / base_capital) * 100 else 0 in
    let '(regime, description) :=
      if Py.ltb volatility_pct 1
      then ("LOW_VOLATILITY", "Calm market, smaller moves")
      else if Py.ltb volatility_pct 3
      then ("NORMAL_VOLATILITY", "Standard market conditions")
      else ("HIGH_VOLATILITY", "Elevated volatility, larger moves") in
    Some (Classified regime (Py.round volatility_pct 2) (Py.round std_dev 2)
            description (length pnl_values)).

End WithSqrt.

(** *** Trend regime *)

(** The report: the short forms of fewer than five days and of days that
    are all flat, or the full one. *)
Inductive TrendReport : Type :=
| TrendInsufficient
| TrendFlat
| Trend (regime direction trend_direction : string) (consistency_pct : Q)
    (positive_days negative_days : nat) (cumulative_pnl : Q).

(** The ["regime"] key of a report. *)
Definition trend_regime_of (r : TrendReport) : string :=
  match r with
  | TrendInsufficient => "INSUFFICIENT_DATA"
  | TrendFlat => "FLAT"
  | Trend regime _ _ _ _ _ _ => regime
  end.

Definition detect_trend_regime (daily_pnl : list DailyPnL.t)
    : option TrendReport :=
  if (length daily_pnl <? 5)%nat then Some TrendInsufficient
  else
    let pnl_values := map (fun d => Py.get (DailyPnL.net_pnl d) 0) daily_pnl in
    let positive_days := length (List.filter (fun p => Py.gtb p 0) pnl_values) in
    let negative_days := length (List.filter (fun p => Py.ltb p 0) pnl_values) in
    let total_directional := (positive_days + negative_days)%nat in
    if (total_directional =? 0)%nat then Some TrendFlat
    else
      let dominant_direction :=
        if (negative_days <? positive_days)%nat then "BULLISH" else "BEARISH" in
      q ← Py.div (Py.of_nat (Nat.max positive_days negative_days))
                 (Py.of_nat total_directional);
      let consistency := q * 100 in
      let regime :=
        if Py.leb 70 consistency then "STRONG_TREND"
        else if Py.leb 55 consistency then "WEAK_TREND"
        else "RANGING" in
      let cumulative_pnl := Py.sum pnl_values in
      let trend_direction :=
        if Py.gtb cumulative_pnl 0 then "UP"
        else if Py.ltb cumulative_pnl 0 then "DOWN"
        else "FLAT" in
      Some (Trend regime dominant_direction trend_direction
              (Py.round consistency 1) positive_days negative_days
              (Py.round cumulative_pnl 2)).

(** *** Win rate regime *)

Inductive PerformanceReport : Type :=
| PerformanceInsufficient
| Performance (regime : string)
    (historical_win_rate recent_win_rate deviation_pct : Q)
    (window_size : Z) (recommended_action : string).

Definition performance_regime_of (r : PerformanceReport) : string :=
  match r with
  | PerformanceInsufficient => "INSUFFICIENT_DATA"
  | Performance regime _ _ _ _ _ => regime
  end.

Definition is_win (t : Trade.t) : bool :=
  Py.gtb (Py.get (Trade.realized_pnl t) 0) 0.

Definition detect_performance_regime (trades : list Trade.t) (window : Z)
    : option PerformanceReport :=
  if (Z.of_nat (length trades) <? window)%Z then Some PerformanceInsufficient
  else
    let all_wins := length (List.filter is_win trades) in
    h ← Py.div (Py.of_nat all_wins) (Py.of_nat (length trades));
    let historical_wr := h * 100 in
    let recent_trades := Py.slice_from trades (- window) in
    let recent_wins := length (List.filter is_win recent_trades) in
    r ← Py.div (Py.of_nat recent_wins) (Py.of_nat (length recent_trades));
    let recent_wr := r * 100 in
    let deviation := recent_wr - historical_wr in
    let '(regime, action) :=
      if Py.gtb deviation 15
      then ("HOT_STREAK",
            "Consider reducing position size (reversion expected)")
      else if Py.ltb deviation (-15)
      then ("COLD_STREAK", "Review strategy or wait for normalization")
      else ("NORMAL", "Continue standard operation") in
    Some (Performance regime (Py.round historical_wr 1)
            (Py.round recent_wr 1) (Py.round deviation 1) window action).

(** *** Regime report *)

Record RegimeReport : Type := mkRegimeReport {
  volatility_regime : VolatilityReport;
  trend_regime : TrendReport;
  performance_regime : PerformanceReport;
  risk_level : string;
  overall_action : string;
  generated_at : string
}.

Section Report.

Variable sqrt : Q -> Q.

(** [now] is the reading of [datetime.utcnow().isoformat()]. *)
Definition generate_regime_report (now : string)
    (daily_pnl : list DailyPnL.t) (trades : list Trade.t)
    : option RegimeReport :=
  volatility ← detect_volatility_regime sqrt daily_pnl;
  trend ← detect_trend_regime daily_pnl;
  performance ← detect_performance_regime trades 20;
  let regimes := [regime_of volatility; trend_regime_of trend;
                  performance_regime_of performance] in
  let among (tag : string) := existsb (String.eqb tag) regimes in
  let '(overall_risk, action) :=
    if among "HIGH_VOLATILITY" || among "COLD_STREAK"
    then ("ELEVATED", "Consider reducing exposure")
    else if among "LOW_VOLATILITY" && among "HOT_STREAK"
    then ("LOW", "Favorable conditions")
    else ("NORMAL", "Standard operation") in
  Some (mkRegimeReport volatility trend performance overall_risk action now).

End Report.

End RegimeAnalyzer.

(** ** symbol_analyzer.py *)

Module SymbolAnalyzer.

Record SymbolStats : Type := mkSymbolStats {
  pnl : Q;
  commission : Q;
  trades : nat;
  wins : nat;
  losses : nat
}.

Record SymbolEntry : Type := mkSymbolEntry {
  symbol : string;
  gross_pnl : Q;
  e_commission : Q;
  net_pnl : Q;
  trade_count : nat;
  win_count : nat;
  loss_count : nat;
  win_rate : Q;
  avg_pnl_per_trade : Q
}.

Definition zero_stats : SymbolStats := mkSymbolStats 0 0 0 0 0.

(** [symbol_stats[symbol]] changed by [f]: the dict keeps its keys in the
    order of their first use, a new key starts from the default value. *)
Fixpoint update (symbol_stats : list (string * SymbolStats)) (key : string)
    (f : SymbolStats -> SymbolStats) : list (string * SymbolStats) :=
  match symbol_stats with
  | [] => [(key, f zero_stats)]
  | (k, v) :: rest =>
      if String.eqb k key then (k, f v) :: rest
      else (k, v) :: update rest key f
  end.

Definition type_is (record : Income.t) (ty : string) : bool :=
  match Income.income_type record with
  | Some t => String.eqb t ty
  | None => false
  end.

Definition add_realized (income : Q) (st : SymbolStats) : SymbolStats :=
  if Py.gtb income 0
  then mkSymbolStats (pnl st + income) (commission st) (S (trades st))
         (S (wins st)) (losses st)
  else mkSymbolStats (pnl st + income) (commission st) (S (trades st))
         (wins st) (S (losses st)).

Definition add_commission (income : Q) (st : SymbolStats) : SymbolStats :=
  mkSymbolStats (pnl st) (commission st + Qabs income) (trades st)
    (wins st) (losses st).

(** One turn of the loop over the income records. *)
Definition accumulate (symbol_stats : list (string * SymbolStats))
    (record : Income.t) : list (string * SymbolStats) :=
  let sym := Py.get (Income.symbol record) "UNKNOWN"%string in
  if String.eqb sym "" then symbol_stats
  else
    let income := Py.get (Income.income record) 0 in
    if type_is record "REALIZED_PNL" then
      update symbol_stats sym (add_realized income)
    else if type_is record "COMMISSION" then
      update symbol_stats sym (add_commission income)
    else symbol_stats.

Definition symbol_entry (item : string * SymbolStats) : SymbolEntry :=
  let '(sym, stats) := item in
  let n := trades stats in
  mkSymbolEntry sym (Py.round (pnl stats) 2) (Py.round (commission stats) 2)
    (Py.round (pnl stats - commission stats) 2)
    n (wins stats) (losses stats)
    (if (0 <? n)%nat
     then Py.round (Py.of_nat (wins stats) / Py.of_nat n * 100) 1 else 0)
    (if (0 <? n)%nat then Py.round (pnl stats / Py.of_nat n) 4 else 0).

(** [result.sort(key=net_pnl, reverse=True)]: descending and stable. *)
Fixpoint insert_desc (e : SymbolEntry) (sorted : list SymbolEntry)
    : list SymbolEntry :=
  match sorted with
  | [] => [e]
  | x :: rest =>
      if Py.gtb (net_pnl x) (net_pnl e) then x :: insert_desc e rest
      else e :: x :: rest
  end.

Definition sort_desc (entries : list SymbolEntry) : list SymbolEntry :=
  fold_right insert_desc [] entries.

Definition analyze_by_symbol (income_records : list Income.t)
    : list SymbolEntry :=
  let symbol_stats := fold_left accumulate income_records [] in
  sort_desc (map symbol_entry symbol_stats).

Record TopPerformers : Type := mkTopPerformers {
  top_profitable : list SymbolEntry;
  top_losing : list SymbolEntry
}.

Definition get_top_performers (symbol_stats : list SymbolEntry) (n : Z)
    : TopPerformers :=
  mkTopPerformers
    (Py.slice_to symbol_stats n)
    (if (n <=? Z.of_nat (length symbol_stats))%Z
     then rev (Py.slice_from symbol_stats (- n))
     else rev symbol_stats).

Definition get_most_traded (symbol_stats : list SymbolEntry) (n : Z)
    : list SymbolEntry :=
  let sorted_by_trades :=
    Py.sorted (fun x => Py.of_nat (trade_count x)) true symbol_stats in
  Py.slice_to sorted_by_trades n.

End SymbolAnalyzer.

(** ** The square root

    [math.sqrt] is a parameter of the analyzers that call it.  What the
    properties below use of it: it is monotone, and exact on the squares of
    the integers. *)

Module Sqrt.

Definition monotone (sqrt : Q -> Q) : Prop :=
  forall x y, 0 <= x -> x <= y -> sqrt x <= sqrt y.

Definition exact_on_squares (sqrt : Q -> Q) : Prop :=
  forall n : Z, (0 <= n)%Z -> sqrt (inject_Z (n * n)) == inject_Z n.

(** A square root with both properties: the integer square root of the
    integer part. *)
Definition isqrt (x : Q) : Q := inject_Z (Z.sqrt (Qfloor x)).

End Sqrt.

(** * The vocabulary of the properties *)

Module SignalSpec.
Import SignalAnalyzer.

(** The three buckets with their bounds, whatever they hold. *)
Definition three (t1 t2 t3 : list Trade.t) (p1 p2 p3 : Q)
    : list (string * Bucket) :=
  [ ("low"%string, mkBucket 0 (4 # 10) t1 p1);
    ("medium"%string, mkBucket (4 # 10) (7 # 10) t2 p2);
    ("high"%string, mkBucket (7 # 10) 1 t3 p3) ].

Definition held (buckets : list (string * Bucket)) : nat :=
  list_sum (map (fun nb => length (btrades (snd nb))) buckets).

Definition confidence_of (t : Trade.t) : Q :=
  Py.get (Trade.confidence t) (1 # 2).

(** The total of the three per-bucket trade counts of a report. *)
Definition bucketed (r : Report) : nat :=
  (trade_count (item (by_confidence r) "low")
   + trade_count (item (by_confidence r) "medium")
   + trade_count (item (by_confidence r) "high"))%nat.

End SignalSpec.

Module HourSpec.

Definition income_timestamp (r : Income.t) : Z :=
  Py.get (Income.timestamp r) 0%Z.

(** The record is counted in hour [h]. *)
Definition lands (r : Income.t) (h : Z) : Prop :=
  TimeAnalyzer.is_realized_pnl r = true
  /\ TimeAnalyzer.vn_hour (income_timestamp r) = Some h.

Definition trade_timestamp (t : Trade.t) : Z :=
  Py.get (Trade.timestamp t) 0%Z.

(** The trade is counted in hour [h]. *)
Definition fills (t : Trade.t) (h : Z) : Prop :=
  trade_timestamp t <> 0%Z
  /\ ExecutionAnalyzer.vn_hour (trade_timestamp t) = Some h.

Definition pnl_at (timestamp_ms : Z) (income : Q) : Income.t :=
  Income.mk (Some "BTCUSDT"%string) (Some "REALIZED_PNL"%string)
    (Some income) (Some timestamp_ms).

(** A realized pnl of 1 whose record has no ["timestamp"] key. *)
Definition undated : Income.t :=
  Income.mk (Some "BTCUSDT"%string) (Some "REALIZED_PNL"%string) (Some 1) None.

(** The same record with a timestamp of 0. *)
Definition dated_zero : Income.t :=
  Income.mk (Some "BTCUSDT"%string) (Some "REALIZED_PNL"%string) (Some 1)
    (Some 0%Z).

(** The timestamps that the loops convert to an hour name instants that
    [datetime] holds: [analyze_by_hour] converts the timestamp of each
    REALIZED_PNL record, [analyze_execution_by_hour] the timestamp of each
    trade that has one other than 0. *)
Definition convertible (income_records : list Income.t) : Prop :=
  Forall (fun r => TimeAnalyzer.is_realized_pnl r = true ->
                   Datetime.representable (income_timestamp r))
    income_records.

Definition convertible_trades (trades : list Trade.t) : Prop :=
  Forall (fun t => trade_timestamp t <> 0%Z ->
                   Datetime.representable (trade_timestamp t))
    trades.

(** 10000-01-01T00:00:00Z in epoch milliseconds, the first instant after
    the last one that [datetime] holds. *)
Definition year_10000 : Z := 253402300800000.

(** A trade of quantity 1 at price 1 with a timestamp. *)
Definition fill_at (timestamp_ms : Z) : Trade.t :=
  Trade.mk (Some 1) (Some 1) None None (Some timestamp_ms) None.

End HourSpec.

Module RiskSpec.
Import RiskAnalyzer.

Definition pnl_list_of (trades : list Trade.t) : list Q :=
  map (fun t => Py.get (Trade.realized_pnl t) 0) trades.

Definition cap : Q := 9999 # 100.

Definition balance_of (point : EquityPoint.t) : Q :=
  Py.get (EquityPoint.balance point) 0.

Definition curve_of (balances : list Q) : list EquityPoint.t :=
  map (fun b => EquityPoint.mk None (Some b)) balances.

(** The reading of the spec: the running peak from which the retained
    maximum drawdown was measured, that is, the peak in force at the point
    whose drawdown percentage was retained as the maximum. *)
Record Measured : Type := mkMeasured {
  running_peak : Q;
  retained_pct : Q;
  peak_of_retained : Q
}.

Definition measure_step (m : Measured) (point : EquityPoint.t) : Measured :=
  let balance := balance_of point in
  if Py.gtb balance (running_peak m)
  then mkMeasured balance (retained_pct m) (peak_of_retained m)
  else
    let pct := if Py.gtb (running_peak m) 0
               then (running_peak m - balance) / running_peak m * 100
               else 0 in
    if Py.gtb pct (retained_pct m)
    then mkMeasured (running_peak m) pct (running_peak m)
    else m.

Definition peak_of_max_drawdown (equity_curve : list EquityPoint.t) : Q :=
  match equity_curve with
  | [] => 0
  | first :: _ =>
      peak_of_retained
        (fold_left measure_step equity_curve
           (mkMeasured (balance_of first) 0 (balance_of first)))
  end.

(** The running peak at the end of the curve: the largest balance. *)
Definition last_peak (equity_curve : list EquityPoint.t) : Q :=
  match equity_curve with
  | [] => 0
  | first :: _ =>
      fold_left (fun pk point =>
                   if Py.gtb (balance_of point) pk then balance_of point else pk)
        equity_curve (balance_of first)
  end.

End RiskSpec.

Module RegimeSpec.

Definition days_of (pnl : list Q) : list DailyPnL.t :=
  map (fun p => DailyPnL.mk (Some p)) pnl.

Definition week : list Q := [5; -3; 4; -2; 6; -1; 3].

End RegimeSpec.

Module SymbolSpec.
Import SymbolAnalyzer.

Definition count {A : Type} (P : A -> bool) (l : list A) : nat :=
  length (List.filter P l).

Definition key_of (r : Income.t) : string :=
  Py.get (Income.symbol r) "UNKNOWN"%string.

Definition income_of (r : Income.t) : Q := Py.get (Income.income r) 0.

(** The record is a realized pnl of the symbol. *)
Definition realized_for (sym : string) (r : Income.t) : bool :=
  String.eqb (key_of r) sym && type_is r "REALIZED_PNL".

(** The counters of a bucket are the numbers of the realized pnl records
    of its symbol: all of them, those of positive income, and the others. *)
Definition counts (st : SymbolStats) (sym : string) (seen : list Income.t)
    : Prop :=
  trades st = count (realized_for sym) seen
  /\ wins st
     = count (fun r => realized_for sym r && Py.gtb (income_of r) 0) seen
  /\ losses st
     = count (fun r => realized_for sym r && Py.leb (income_of r) 0) seen
  /\ (wins st + losses st = trades st)%nat.

(** [symbol_stats.get(key)] *)
Fixpoint find (symbol_stats : list (string * SymbolStats)) (key : string)
    : option SymbolStats :=
  match symbol_stats with
  | [] => None
  | (k, v) :: rest => if String.eqb k key then Some v else find rest key
  end.

(** What the loop keeps true of the dict, [seen] being the records read
    so far. *)
Definition consistent (l : list (string * SymbolStats))
    (seen : list Income.t) : Prop :=
  List.NoDup (map fst l)
  /\ find l "" = None
  /\ forall k, k <> ""%string -> counts (default zero_stats (find l k)) k seen.

(** A realized pnl of 0. *)
Definition break_even : Income.t :=
  Income.mk (Some "BTCUSDT"%string) (Some "REALIZED_PNL"%string) (Some 0) None.

End SymbolSpec.

Module Sortedness.

(** The list is in descending order of [key]. *)
Definition descending {A : Type} (key : A -> Q) (l : list A) : Prop :=
  StronglySorted (fun a b => key b <= key a) l.

(** The list is in ascending order of [key]. *)
Definition ascending {A : Type} (key : A -> Q) (l : list A) : Prop :=
  StronglySorted (fun a b => key a <= key b) l.

End Sortedness.

Module SymbolReportSpec.
Import SymbolAnalyzer SymbolSpec.

(** The record opens or changes a bucket. *)
Definition bucketed_record (r : Income.t) : bool :=
  negb (String.eqb (key_of r) "")
  && (type_is r "REALIZED_PNL" || type_is r "COMMISSION").

End SymbolReportSpec.

Module HourCountSpec.
Import HourSpec.

(** The boolean forms of [lands] and [fills]. *)
Definition lands_in (h : Z) (r : Income.t) : bool :=
  TimeAnalyzer.is_realized_pnl r
  && match TimeAnalyzer.vn_hour (income_timestamp r) with
     | Some h' => (h' =? h)%Z
     | None => false
     end.

Definition fills_in (h : Z) (t : Trade.t) : bool :=
  negb (trade_timestamp t =? 0)%Z
  && match ExecutionAnalyzer.vn_hour (trade_timestamp t) with
     | Some h' => (h' =? h)%Z
     | None => false
     end.

Definition is_winning (r : Income.t) : bool :=
  Py.gtb (Py.get (Income.income r) 0) 0.

Definition dated (t : Trade.t) : bool := negb (trade_timestamp t =? 0)%Z.

End HourCountSpec.

Module StreakSpec.
Import RiskAnalyzer SymbolSpec.

Definition is_win (p : Q) : bool := Py.gtb p 0.
Definition is_loss (p : Q) : bool := Py.ltb p 0.

(** What the loop keeps true of its counters. *)
Definition bounded (st : StreakState) (pnl_list : list Q) : Prop :=
  (s_max_win_streak st <= count is_win pnl_list)%nat
  /\ (s_max_loss_streak st <= count is_loss pnl_list)%nat
  /\ (current_win_streak st <= s_max_win_streak st)%nat
  /\ (current_loss_streak st <= s_max_loss_streak st)%nat
  /\ (current_win_streak st = 0 \/ current_loss_streak st = 0)%nat.

End StreakSpec.

Module TradeStatsSpec.
Import RiskAnalyzer RiskSpec.

(** [total / len(xs) if xs else 0], when the division is known to have a
    result. *)
Definition mean_or_zero (total : Q) (xs : list Q) : Q :=
  match xs with
  | [] => 0
  | _ :: _ => total / Py.of_nat (length xs)
  end.

(** No trade of the list has a pnl of 0. *)
Definition no_break_even (pnl_list : list Q) : Prop :=
  Forall (fun p => ~ p == 0) pnl_list.

End TradeStatsSpec.

Module SharpeSpec.

(** The mean of the returns less the daily risk-free rate. *)
Definition excess_of (daily_returns : list Q) (risk_free_rate : Q)
    (annualization_factor : Z) : Q :=
  Py.sum daily_returns / Py.of_nat (length daily_returns)
  - risk_free_rate / inject_Z annualization_factor.

End SharpeSpec.

Module TrendSpec.

Definition pnl_values_of (daily_pnl : list DailyPnL.t) : list Q :=
  map (fun d => Py.get (DailyPnL.net_pnl d) 0) daily_pnl.

(** The numbers of days above and below 0. *)
Definition up_days (daily_pnl : list DailyPnL.t) : nat :=
  length (List.filter (fun p => Py.gtb p 0) (pnl_values_of daily_pnl)).

Definition down_days (daily_pnl : list DailyPnL.t) : nat :=
  length (List.filter (fun p => Py.ltb p 0) (pnl_values_of daily_pnl)).

(** The share of the larger side among the days that are not flat, in
    percent. *)
Definition consistency_of (daily_pnl : list DailyPnL.t) : Q :=
  Py.of_nat (Nat.max (up_days daily_pnl) (down_days daily_pnl))
  / Py.of_nat (up_days daily_pnl + down_days daily_pnl) * 100.

End TrendSpec.

Module PerformanceSpec.
Import RegimeAnalyzer.

(** The share of winning trades, in percent. *)
Definition win_rate_of (trades : list Trade.t) : Q :=
  Py.of_nat (length (List.filter is_win trades))
  / Py.of_nat (length trades) * 100.

(** The last [window] trades, for [1 <= window <= len]. *)
Definition last_trades (trades : list Trade.t) (window : Z) : list Trade.t :=
  skipn (length trades - Z.to_nat window) trades.

End PerformanceSpec.

Module AttributionSpec.
Import SignalAnalyzer.

(** The counter of [key] in the dict of the groups, 0 for a key it has
    not. *)
Fixpoint count_at (stats : list (string * GroupStats)) (key : string) : nat :=
  match stats with
  | [] => 0
  | (k, g) :: rest => if String.eqb k key then g_count g else count_at rest key
  end.

(** The number of trades of a group. *)
Definition group_size (group_of : TaggedTrade.t -> string) (key : string)
    (trades : list TaggedTrade.t) : nat :=
  length (List.filter (fun t => String.eqb (group_of t) key) trades).

(** The two totals that the market bias compares. *)
Definition side_total (trade_list : list TaggedTrade.t) : Q :=
  Py.round (Py.sum (map TaggedTrade.realized_pnl trade_list)) 2.

(** A trade with a side, a pnl and an exit reason. *)
Definition tagged (side : string) (pnl : Q) (reason : option string)
    : TaggedTrade.t :=
  TaggedTrade.mk (Trade.signal pnl None) (Some side) reason None None.

(** An upper case for the letters a to z, other characters kept. *)
Definition ascii_upper (c : Ascii.ascii) : Ascii.ascii :=
  let n := Ascii.nat_of_ascii c in
  if ((97 <=? n) && (n <=? 122))%nat then Ascii.ascii_of_nat (n - 32) else c.

Fixpoint ascii_upper_string (s : string) : string :=
  match s with
  | EmptyString => EmptyString
  | String c rest => String (ascii_upper c) (ascii_upper_string rest)
  end.

End AttributionSpec.

Module ExecutionSpec.

(** The notional volume and the commission of the trades. *)
Definition volume_of (trades : list Trade.t) : Q :=
  Py.sum (map (fun t => Qabs (Py.get (Trade.quantity t) 0
                              * Py.get (Trade.price t) 0)) trades).

Definition commission_of (trades : list Trade.t) : Q :=
  Py.sum (map (fun t => Qabs (Py.get (Trade.commission t) 0)) trades).

End ExecutionSpec.

(** * Properties *)

(** ** Facts about the Python primitives *)

Module PyFacts.

Lemma ltb_lt (x y : Q) : Py.ltb x y = true <-> x < y.
Proof.
  unfold Py.ltb. rewrite negb_true_iff, <- not_true_iff_false, Qle_bool_iff.
  split; [apply Qnot_le_lt | apply Qlt_not_le].
Qed.

Lemma ltb_ge (x y : Q) : Py.ltb x y = false <-> y <= x.
Proof.
  unfold Py.ltb. rewrite negb_false_iff. apply Qle_bool_iff.
Qed.

Lemma leb_le (x y : Q) : Py.leb x y = true <-> x <= y.
Proof. apply Qle_bool_iff. Qed.

Lemma leb_gt (x y : Q) : Py.leb x y = false <-> y < x.
Proof.
  unfold Py.leb. rewrite <- not_true_iff_false, Qle_bool_iff.
  split; [apply Qnot_le_lt | apply Qlt_not_le].
Qed.

Lemma gtb_gt (x y : Q) : Py.gtb x y = true <-> y < x.
Proof. apply ltb_lt. Qed.

Lemma gtb_le (x y : Q) : Py.gtb x y = false <-> x <= y.
Proof. apply ltb_ge. Qed.

(** Rounding to an integer stays on the same side of every integer. *)
Lemma round_half_even_le (q : Q) (k : Z) :
  q <= inject_Z k -> (Py.round_half_even q <= k)%Z.
Proof.
  intros Hq. unfold Py.round_half_even.
  pose proof (Qfloor_le q) as Hfl.
  assert (Hfk : (Qfloor q <= k)%Z).
  { rewrite Zle_Qle. lra. }
  destruct (Z.eq_dec (Qfloor q) k) as [Heq | Hne].
  - rewrite Heq in *.
    destruct (Qcompare _ _) eqn:E.
    + apply Qeq_alt in E. lra.
    + lia.
    + apply Qgt_alt in E. lra.
  - destruct (Qcompare _ _); [destruct (Z.even _) | |]; lia.
Qed.

Lemma round_half_even_ge (q : Q) (k : Z) :
  inject_Z k <= q -> (k <= Py.round_half_even q)%Z.
Proof.
  intros Hq. unfold Py.round_half_even.
  assert (Hfk : (k <= Qfloor q)%Z).
  { rewrite <- (Qfloor_Z k). apply Qfloor_resp_le, Hq. }
  destruct (Qcompare _ _); [destruct (Z.even _) | |]; lia.
Qed.

Lemma scale_pos (n : nat) : 0 < inject_Z (10 ^ Z.of_nat n).
Proof.
  replace 0 with (inject_Z 0) by reflexivity. rewrite <- Zlt_Qlt.
  apply Z.pow_pos_nonneg; lia.
Qed.

(** [round(q, n)] stays on the same side of every number of [n] decimals. *)
Lemma round_le (q : Q) (n : nat) (k : Z) :
  q <= inject_Z k / inject_Z (10 ^ Z.of_nat n) ->
  Py.round q n <= inject_Z k / inject_Z (10 ^ Z.of_nat n).
Proof.
  intros Hq. unfold Py.round. cbv zeta.
  pose proof (scale_pos n) as Hs.
  set (scale := inject_Z (10 ^ Z.of_nat n)) in *.
  apply Qle_shift_div_l; [exact Hs |].
  assert (Hk : q * scale <= inject_Z k).
  { apply (Qmult_le_r _ _ scale Hs) in Hq.
    assert (E : inject_Z k / scale * scale == inject_Z k) by (field; lra).
    rewrite E in Hq. exact Hq. }
  apply round_half_even_le in Hk. rewrite Zle_Qle in Hk.
  assert (E : inject_Z (Py.round_half_even (q * scale)) / scale * scale
              == inject_Z (Py.round_half_even (q * scale))) by (field; lra).
  rewrite E. exact Hk.
Qed.

Lemma round_ge (q : Q) (n : nat) (k : Z) :
  inject_Z k / inject_Z (10 ^ Z.of_nat n) <= q ->
  inject_Z k / inject_Z (10 ^ Z.of_nat n) <= Py.round q n.
Proof.
  intros Hq. unfold Py.round. cbv zeta.
  pose proof (scale_pos n) as Hs.
  set (scale := inject_Z (10 ^ Z.of_nat n)) in *.
  apply Qle_shift_div_r; [exact Hs |].
  assert (Hk : inject_Z k <= q * scale).
  { apply (Qmult_le_r _ _ scale Hs) in Hq.
    assert (E : inject_Z k / scale * scale == inject_Z k) by (field; lra).
    rewrite E in Hq. exact Hq. }
  apply round_half_even_ge in Hk. rewrite Zle_Qle in Hk.
  assert (E : inject_Z (Py.round_half_even (q * scale)) / scale * scale
              == inject_Z (Py.round_half_even (q * scale))) by (field; lra).
  rewrite E. exact Hk.
Qed.

(** A number of [n] decimals rounds to itself. *)
Lemma round_exact (q : Q) (n : nat) (k : Z) :
  q == inject_Z k / inject_Z (10 ^ Z.of_nat n) -> Py.round q n == q.
Proof.
  intros Hq. apply Qle_antisym.
  - rewrite Hq at 2. apply round_le. rewrite Hq. apply Qle_refl.
  - rewrite Hq at 1. apply round_ge. rewrite Hq. apply Qle_refl.
Qed.

Lemma round_zero (n : nat) : Py.round 0 n == 0.
Proof. apply (round_exact 0 n 0). unfold Qdiv. ring. Qed.

(** Rounding respects the equality of rationals. *)
Lemma round_half_even_compat (p q : Q) :
  p == q -> Py.round_half_even p = Py.round_half_even q.
Proof.
  intros E. unfold Py.round_half_even.
  assert (Ef : Qfloor p = Qfloor q) by (rewrite E; reflexivity).
  rewrite Ef.
  assert (Ec : Qcompare (p - inject_Z (Qfloor q)) (1 # 2)
               = Qcompare (q - inject_Z (Qfloor q)) (1 # 2)).
  { rewrite E. reflexivity. }
  rewrite Ec. reflexivity.
Qed.

Lemma round_compat (p q : Q) (n : nat) : p == q -> Py.round p n == Py.round q n.
Proof.
  intros E. unfold Py.round. cbv zeta.
  rewrite (round_half_even_compat (p * _) (q * inject_Z (10 ^ Z.of_nat n))).
  - reflexivity.
  - rewrite E. reflexivity.
Qed.

(** [for_each] over a body that never raises is a fold. *)
Lemma for_each_total {A S : Type} (body : S -> A -> option S)
    (step : S -> A -> S) (items : list A) (s : S) :
  (forall s x, body s x = Some (step s x)) ->
  Py.for_each body items s = Some (fold_left step items s).
Proof.
  intros Hb. revert s. induction items as [| x rest IH]; intros s; simpl.
  - reflexivity.
  - rewrite Hb. apply IH.
Qed.

End PyFacts.

(** ** Confidence attribution *)

Module SignalFacts.
Import SignalAnalyzer SignalSpec.

(** A trade whose confidence is in [0, 1) goes to exactly one bucket. *)
Lemma assign_below_one (t : Trade.t) t1 t2 t3 p1 p2 p3 :
  0 <= confidence_of t < 1 ->
  exists t1' t2' t3' p1' p2' p3',
    assign (three t1 t2 t3 p1 p2 p3) t = three t1' t2' t3' p1' p2' p3'
    /\ held (three t1' t2' t3' p1' p2' p3')
       = S (held (three t1 t2 t3 p1 p2 p3)).
Proof.
  unfold confidence_of. intros [Hlo Hhi].
  unfold assign, three, held. simpl.
  set (c := Py.get (Trade.confidence t) (1 # 2)) in *.
  set (p := Py.get (Trade.realized_pnl t) 0).
  destruct (Py.leb 0 c && Py.ltb c (4 # 10)) eqn:E1; simpl.
  { do 6 eexists. split; [reflexivity |]. simpl.
    rewrite !length_app. simpl. lia. }
  destruct (Py.leb (4 # 10) c && Py.ltb c (7 # 10)) eqn:E2; simpl.
  { do 6 eexists. split; [reflexivity |]. simpl.
    rewrite !length_app. simpl. lia. }
  destruct (Py.leb (7 # 10) c && Py.ltb c 1) eqn:E3; simpl.
  { do 6 eexists. split; [reflexivity |]. simpl.
    rewrite !length_app. simpl. lia. }
  exfalso.
  apply andb_false_iff in E1, E2, E3.
  rewrite !PyFacts.leb_gt, !PyFacts.ltb_ge in *. lra.
Qed.

Lemma fold_assign_below_one (trades : list Trade.t) :
  Forall (fun t => 0 <= confidence_of t < 1) trades ->
  forall t1 t2 t3 p1 p2 p3,
  exists t1' t2' t3' p1' p2' p3',
    fold_left assign trades (three t1 t2 t3 p1 p2 p3)
    = three t1' t2' t3' p1' p2' p3'
    /\ held (three t1' t2' t3' p1' p2' p3')
       = (length trades + held (three t1 t2 t3 p1 p2 p3))%nat.
Proof.
  induction 1 as [| t rest Ht _ IH]; intros t1 t2 t3 p1 p2 p3; simpl.
  - do 6 eexists. split; reflexivity.
  - destruct (assign_below_one t t1 t2 t3 p1 p2 p3 Ht)
      as (a1 & a2 & a3 & q1 & q2 & q3 & Ha & Hh).
    rewrite Ha.
    destruct (IH a1 a2 a3 q1 q2 q3) as (b1 & b2 & b3 & r1 & r2 & r3 & Hb & Hh').
    exists b1, b2, b3, r1, r2, r3. split; [exact Hb |].
    rewrite Hh', Hh. lia.
Qed.

(** Below confidence 1 the buckets partition the trades. *)
Lemma counts_partition_below_one (trades : list Trade.t) :
  Forall (fun t => 0 <= confidence_of t < 1) trades ->
  bucketed (analyze_by_confidence trades) = length trades.
Proof.
  intros H.
  destruct (fold_assign_below_one trades H [] [] [] 0 0 0)
    as (b1 & b2 & b3 & r1 & r2 & r3 & Hb & Hh).
  unfold bucketed, analyze_by_confidence. cbv zeta.
  change buckets0 with (three [] [] [] 0 0 0). rewrite Hb.
  unfold held, three in Hh. simpl in *. lia.
Qed.

(** From confidence 1 on, no bucket takes the trade. *)
Lemma assign_from_one (t : Trade.t) t1 t2 t3 p1 p2 p3 :
  1 <= confidence_of t ->
  assign (three t1 t2 t3 p1 p2 p3) t = three t1 t2 t3 p1 p2 p3.
Proof.
  unfold confidence_of, assign, three. intros Hc. simpl.
  set (c := Py.get (Trade.confidence t) (1 # 2)) in *.
  assert (E1 : Py.ltb c (4 # 10) = false) by (apply PyFacts.ltb_ge; lra).
  assert (E2 : Py.ltb c (7 # 10) = false) by (apply PyFacts.ltb_ge; lra).
  assert (E3 : Py.ltb c 1 = false) by (apply PyFacts.ltb_ge; lra).
  rewrite E1, E2, E3, !andb_false_r. reflexivity.
Qed.

(** C1 (at the input where it fails): a single trade of confidence 1.0, a
    value of the documented range [0,1], is taken by none of the three
    buckets: the bucket counts add up to 0 while one trade was given. *)
Theorem confidence_one_is_in_no_bucket :
  let trades := [Trade.signal 5 (Some 1)] in
  Forall (fun t => 0 <= confidence_of t <= 1) trades
  /\ length trades = 1%nat
  /\ bucketed (analyze_by_confidence trades) = 0%nat.
Proof.
  cbv zeta. split; [| split].
  - constructor; [| constructor]. unfold confidence_of. simpl. lra.
  - reflexivity.
  - vm_compute. reflexivity.
Qed.

End SignalFacts.

(** ** Streaks *)

Module StreakFacts.
Import RiskAnalyzer.

Lemma streak_loop_snoc (pnl_list : list Q) (pnl : Q) :
  streak_loop (pnl_list ++ [pnl]) = streak_step (streak_loop pnl_list) pnl.
Proof. unfold streak_loop. rewrite fold_left_app. reflexivity. Qed.

Lemma step_win (st : StreakState) (pnl : Q) :
  0 < pnl ->
  streak_step st pnl
  = mkStreakState (Nat.max (s_max_win_streak st) (S (current_win_streak st)))
      (s_max_loss_streak st) (S (current_win_streak st)) 0.
Proof.
  intros H. unfold streak_step.
  apply PyFacts.gtb_gt in H. rewrite H. reflexivity.
Qed.

Lemma step_loss (st : StreakState) (pnl : Q) :
  pnl < 0 ->
  streak_step st pnl
  = mkStreakState (s_max_win_streak st)
      (Nat.max (s_max_loss_streak st) (S (current_loss_streak st)))
      0 (S (current_loss_streak st)).
Proof.
  intros H. unfold streak_step.
  assert (Hg : Py.gtb pnl 0 = false) by (apply PyFacts.gtb_le; lra).
  apply PyFacts.ltb_lt in H. rewrite Hg, H. reflexivity.
Qed.

Lemma step_zero (st : StreakState) (pnl : Q) :
  pnl == 0 -> streak_step st pnl = st.
Proof.
  intros H. unfold streak_step.
  assert (Hg : Py.gtb pnl 0 = false) by (apply PyFacts.gtb_le; lra).
  assert (Hl : Py.ltb pnl 0 = false) by (apply PyFacts.ltb_ge; lra).
  rewrite Hg, Hl. reflexivity.
Qed.

(** The report of a list is read off the state of its loop, also when
    the list is empty. *)
Lemma report_of_loop (pnl_list : list Q) :
  _calculate_streaks pnl_list
  = let st := streak_loop pnl_list in
    mkStreaks (s_max_win_streak st) (s_max_loss_streak st)
      (if (0 <? current_win_streak st)%nat
       then Z.of_nat (current_win_streak st)
       else (- Z.of_nat (current_loss_streak st))%Z).
Proof. destruct pnl_list; reflexivity. Qed.

(** Of the two running streaks one at least is 0. *)
Lemma one_streak_runs (pnl_list : list Q) :
  current_win_streak (streak_loop pnl_list) = 0%nat
  \/ current_loss_streak (streak_loop pnl_list) = 0%nat.
Proof.
  induction pnl_list as [| pnl rest IH] using rev_ind; [left; reflexivity |].
  rewrite streak_loop_snoc. unfold streak_step.
  destruct (Py.gtb pnl 0); [right; reflexivity |].
  destruct (Py.ltb pnl 0); [left; reflexivity | exact IH].
Qed.

(** C6: for every list of pnl values, the report of [_calculate_streaks]
    is read off the counters of its loop, current_streak being the running
    win streak less the running loss streak, of which one is 0; the report
    of no value is 0, 0, 0.  One more value [pnl] changes the counters and
    the report as follows.  A win ([pnl > 0]) adds one to the win streak and
    sets the loss streak to 0: current_streak becomes one more than it was,
    or 1 after a loss streak, and max_win_streak follows it.  A loss
    ([pnl < 0]) does the reverse: current_streak becomes one less than it
    was, or -1 after a win streak, and max_loss_streak follows it.
    [pnl = 0] leaves every counter, and the report, as it was.  The list
    [+1,+2,-1,-1,-1,+1] gives max_win_streak 2, max_loss_streak 3 and
    current_streak 1. *)
Theorem streaks_extend_and_reset (pnl_list : list Q) (pnl : Q) :
  let before := streak_loop pnl_list in
  let after := streak_loop (pnl_list ++ [pnl]) in
  let report := _calculate_streaks pnl_list in
  let report' := _calculate_streaks (pnl_list ++ [pnl]) in
  report
  = mkStreaks (s_max_win_streak before) (s_max_loss_streak before)
      (Z.of_nat (current_win_streak before)
       - Z.of_nat (current_loss_streak before))
  /\ (0 < pnl ->
     current_win_streak after = S (current_win_streak before)
     /\ current_loss_streak after = 0%nat
     /\ s_max_win_streak after
        = Nat.max (s_max_win_streak before) (current_win_streak after)
     /\ s_max_loss_streak after = s_max_loss_streak before
     /\ current_streak report' = (Z.max (current_streak report) 0 + 1)%Z
     /\ max_win_streak report'
        = Nat.max (max_win_streak report) (Z.to_nat (current_streak report'))
     /\ max_loss_streak report' = max_loss_streak report)
  /\ (pnl < 0 ->
     current_loss_streak after = S (current_loss_streak before)
     /\ current_win_streak after = 0%nat
     /\ s_max_loss_streak after
        = Nat.max (s_max_loss_streak before) (current_loss_streak after)
     /\ s_max_win_streak after = s_max_win_streak before
     /\ current_streak report' = (Z.min (current_streak report) 0 - 1)%Z
     /\ max_loss_streak report'
        = Nat.max (max_loss_streak report)
            (Z.to_nat (- current_streak report'))
     /\ max_win_streak report' = max_win_streak report)
  /\ (pnl == 0 -> after = before /\ report' = report)
  /\ _calculate_streaks [] = mkStreaks 0 0 0
  /\ _calculate_streaks [1; 2; -1; -1; -1; 1] = mkStreaks 2 3 1.
Proof.
  cbv zeta. rewrite !report_of_loop. cbv zeta. rewrite streak_loop_snoc.
  pose proof (one_streak_runs pnl_list) as Hone.
  destruct (streak_loop pnl_list) as [mw ml w l]. simpl in Hone |- *.
  split; [| split; [| split; [| split; [| split]]]].
  - f_equal. destruct (Nat.ltb_spec 0 w); lia.
  - intros H. rewrite (step_win _ _ H). simpl.
    repeat split; try reflexivity.
    + destruct (Nat.ltb_spec 0 w); lia.
    + destruct (Nat.ltb_spec 0 w); lia.
  - intros H. rewrite (step_loss _ _ H). simpl.
    repeat split; try reflexivity.
    + destruct (Nat.ltb_spec 0 w); lia.
    + destruct (Nat.ltb_spec 0 w); lia.
  - intros H. rewrite (step_zero _ _ H). split; reflexivity.
  - reflexivity.
  - vm_compute. reflexivity.
Qed.

(** After a win and a loss, a win: the report goes from -1 to 1. *)
Lemma streaks_extend_and_reset_witness :
  current_streak (_calculate_streaks [1; -1]) = (-1)%Z
  /\ current_streak (_calculate_streaks ([1; -1] ++ [2])) = 1%Z
  /\ max_win_streak (_calculate_streaks ([1; -1] ++ [2])) = 1%nat
  /\ max_loss_streak (_calculate_streaks ([1; -1] ++ [2])) = 1%nat.
Proof.
  destruct (streaks_extend_and_reset [1; -1] 2) as (_ & Hwin & _).
  destruct Hwin as (_ & _ & _ & _ & Hc & Hw & Hl).
  - reflexivity.
  - split; [reflexivity |].
    split; [rewrite Hc; reflexivity |].
    split; [rewrite Hw, Hc; reflexivity | rewrite Hl; reflexivity].
Defined.

End StreakFacts.

(** ** Hourly aggregation *)

Module HourFacts.
Import HourSpec.

Lemma floor_of_millis (timestamp_ms : Z) :
  Qfloor (inject_Z timestamp_ms / 1000) = (timestamp_ms / 1000)%Z.
Proof.
  unfold Qdiv, Qmult, Qinv, inject_Z, Qfloor. simpl.
  rewrite Z.mul_1_r. reflexivity.
Qed.

(** A representable instant has an hour. *)
Lemma utc_hour_representable (timestamp_ms : Z) :
  Datetime.representable timestamp_ms ->
  Datetime.utc_hour (inject_Z timestamp_ms / 1000)
  = Some ((timestamp_ms / 1000 / 3600) mod 24)%Z.
Proof.
  unfold Datetime.representable, Datetime.utc_hour. intros [Hlo Hhi].
  cbv zeta. rewrite floor_of_millis.
  assert (Hl : (Datetime.min_seconds <= timestamp_ms / 1000)%Z).
  { apply Z.div_le_lower_bound; lia. }
  assert (Hh : (timestamp_ms / 1000 < Datetime.max_seconds)%Z).
  { apply Z.div_lt_upper_bound; lia. }
  apply Z.leb_le in Hl. apply Z.ltb_lt in Hh. rewrite Hl, Hh. reflexivity.
Qed.

(** Records and trades all of whose timestamps are representable. *)
Lemma representable_convertible (records : list Income.t) :
  Forall (fun r => Datetime.representable (income_timestamp r)) records ->
  convertible records.
Proof.
  intros H. unfold convertible. eapply Forall_impl; [exact H | auto].
Qed.

Lemma representable_convertible_trades (trades : list Trade.t) :
  Forall (fun t => Datetime.representable (trade_timestamp t)) trades ->
  convertible_trades trades.
Proof.
  intros H. unfold convertible_trades. eapply Forall_impl; [exact H | auto].
Qed.

Lemma hours_of_entries {E : Type} (hour : E -> Z) (entry : Z -> E) (hs : list Z) :
  (forall h, hour (entry h) = h) -> map hour (map entry hs) = hs.
Proof.
  intros H. induction hs as [| h rest IH]; simpl; [| rewrite H, IH]; reflexivity.
Qed.

Section Time.
Import TimeAnalyzer.

Lemma accumulate_runs (records : list Income.t) :
  convertible records ->
  forall m : gmap Z HourStats,
  exists m' : gmap Z HourStats,
    Py.for_each accumulate records m = Some m'
    /\ forall h, (forall r, In r records -> ~ lands r h) -> m' !! h = m !! h.
Proof.
  unfold convertible. induction 1 as [| r rest Hr _ IH]; intros m; simpl.
  - exists m. split; [reflexivity | auto].
  - unfold accumulate at 1. fold (income_timestamp r).
    destruct (is_realized_pnl r) eqn:Ety; simpl.
    + specialize (Hr eq_refl).
      unfold vn_hour at 1. rewrite (utc_hour_representable _ Hr).
      match goal with
      | |- context [ @insert _ _ _ _ ?k ?v m ] =>
          destruct (IH (<[k := v]> m)) as (m' & Hrun & Hsame);
          exists m'; split; [exact Hrun |];
          intros h Hno; rewrite Hsame by (intros r' Hin; apply Hno; right; exact Hin);
          apply lookup_insert_ne; intros <-;
          apply (Hno r (or_introl eq_refl)); split; [exact Ety |];
          unfold vn_hour; rewrite (utc_hour_representable _ Hr); reflexivity
      end.
    + destruct (IH m) as (m' & Hrun & Hsame).
      exists m'. split; [exact Hrun |].
      intros h Hno. apply Hsame. intros r' Hin. apply Hno. right. exact Hin.
Qed.

Lemma analyze_by_hour_shape (records : list Income.t) :
  convertible records ->
  exists result,
    analyze_by_hour records = Some result
    /\ length result = 24%nat
    /\ map hour result = seqZ 0 24
    /\ forall e, In e result ->
         (forall r, In r records -> ~ lands r (hour e)) ->
         trade_count e = 0%nat /\ win_count e = 0%nat
         /\ total_pnl e == 0 /\ win_rate e == 0.
Proof.
  intros Hrep.
  destruct (accumulate_runs records Hrep ∅) as (m & Hrun & Hsame).
  unfold analyze_by_hour. rewrite Hrun.
  eexists. split; [reflexivity |]. split; [| split].
  - rewrite length_map, length_seqZ. reflexivity.
  - apply hours_of_entries. reflexivity.
  - intros e Hin Hno. apply in_map_iff in Hin as (h & <- & _).
    simpl in Hno. unfold hour_entry, stats_at.
    rewrite (Hsame h Hno), lookup_empty. simpl.
    repeat split; reflexivity.
Qed.

End Time.

Section Execution.
Import ExecutionAnalyzer.

Lemma exec_accumulate_runs (trades : list Trade.t) :
  convertible_trades trades ->
  forall m : gmap Z HourStats,
  exists m' : gmap Z HourStats,
    Py.for_each accumulate trades m = Some m'
    /\ forall h, (forall t, In t trades -> ~ fills t h) -> m' !! h = m !! h.
Proof.
  unfold convertible_trades. induction 1 as [| t rest Ht _ IH]; intros m; simpl.
  - exists m. split; [reflexivity | auto].
  - unfold accumulate at 1. fold (trade_timestamp t). cbv zeta.
    destruct (Z.eqb_spec (trade_timestamp t) 0) as [Ez | Enz].
    + destruct (IH m) as (m' & Hrun & Hsame).
      exists m'. split; [exact Hrun |].
      intros h Hno. apply Hsame. intros t' Hin. apply Hno. right. exact Hin.
    + specialize (Ht Enz).
      unfold vn_hour at 1. rewrite (utc_hour_representable _ Ht).
      match goal with
      | |- context [ @insert _ _ _ _ ?k ?v m ] =>
          destruct (IH (<[k := v]> m)) as (m' & Hrun & Hsame);
          exists m'; split; [exact Hrun |];
          intros h Hno; rewrite Hsame by (intros t' Hin; apply Hno; right; exact Hin);
          apply lookup_insert_ne; intros <-;
          apply (Hno t (or_introl eq_refl)); split; [exact Enz |];
          unfold vn_hour; rewrite (utc_hour_representable _ Ht); reflexivity
      end.
Qed.

Lemma analyze_execution_by_hour_shape (trades : list Trade.t) :
  convertible_trades trades ->
  exists result,
    analyze_execution_by_hour trades = Some result
    /\ length result = 24%nat
    /\ map hour result = seqZ 0 24
    /\ forall e, In e result ->
         (forall t, In t trades -> ~ fills t (hour e)) ->
         e_trade_count e = 0%nat /\ e_volume e == 0
         /\ e_commission e == 0 /\ effective_fee_pct e == 0.
Proof.
  intros Hrep.
  destruct (exec_accumulate_runs trades Hrep ∅) as (m & Hrun & Hsame).
  unfold analyze_execution_by_hour. rewrite Hrun.
  eexists. split; [reflexivity |]. split; [| split].
  - rewrite length_map, length_seqZ. reflexivity.
  - apply hours_of_entries. reflexivity.
  - intros e Hin Hno. apply in_map_iff in Hin as (h & <- & _).
    simpl in Hno. unfold hour_entry, stats_at.
    rewrite (Hsame h Hno), lookup_empty. simpl.
    repeat split; reflexivity.
Qed.

End Execution.

(** C2 (amended): for every list of income records and every list of
    trades (the empty lists too) in which the timestamps that are converted
    to an hour name instants that [datetime] holds (the years 1 to 9999),
    [TimeAnalyzer.analyze_by_hour] and
    [ExecutionAnalyzer.analyze_execution_by_hour] return a list of exactly
    24 entries whose hour fields are 0, 1, ..., 23 in this order, and the
    entry of an hour in which no record was counted has every statistic
    equal to zero.  Nothing is asked of the records that the loops skip. *)
Theorem hourly_reports_have_24_entries
    (records : list Income.t) (trades : list Trade.t) :
  convertible records ->
  convertible_trades trades ->
  (exists result,
     TimeAnalyzer.analyze_by_hour records = Some result
     /\ length result = 24%nat
     /\ map TimeAnalyzer.hour result
        = [0; 1; 2; 3; 4; 5; 6; 7; 8; 9; 10; 11; 12; 13; 14; 15; 16; 17;
           18; 19; 20; 21; 22; 23]%Z
     /\ forall e, In e result ->
          (forall r, In r records -> ~ lands r (TimeAnalyzer.hour e)) ->
          TimeAnalyzer.trade_count e = 0%nat
          /\ TimeAnalyzer.win_count e = 0%nat
          /\ TimeAnalyzer.total_pnl e == 0
          /\ TimeAnalyzer.win_rate e == 0)
  /\ (exists result,
     ExecutionAnalyzer.analyze_execution_by_hour trades = Some result
     /\ length result = 24%nat
     /\ map ExecutionAnalyzer.hour result
        = [0; 1; 2; 3; 4; 5; 6; 7; 8; 9; 10; 11; 12; 13; 14; 15; 16; 17;
           18; 19; 20; 21; 22; 23]%Z
     /\ forall e, In e result ->
          (forall t, In t trades -> ~ fills t (ExecutionAnalyzer.hour e)) ->
          ExecutionAnalyzer.e_trade_count e = 0%nat
          /\ ExecutionAnalyzer.e_volume e == 0
          /\ ExecutionAnalyzer.e_commission e == 0
          /\ ExecutionAnalyzer.effective_fee_pct e == 0).
Proof.
  intros Hr Ht. split.
  - destruct (analyze_by_hour_shape records Hr) as (res & H1 & H2 & H3 & H4).
    exists res. repeat split; try assumption; apply H4; assumption.
  - destruct (analyze_execution_by_hour_shape trades Ht)
      as (res & H1 & H2 & H3 & H4).
    exists res. repeat split; try assumption; apply H4; assumption.
Qed.

(** A funding fee of the year 10000 is skipped, the realized pnl beside it
    is counted, and the trade without a timestamp is skipped. *)
Lemma hourly_reports_have_24_entries_witness :
  (exists result,
     TimeAnalyzer.analyze_by_hour
       [pnl_at 1700000000000 5;
        Income.mk None (Some "FUNDING_FEE"%string) None (Some year_10000)]
     = Some result
     /\ length result = 24%nat)
  /\ (exists result,
     ExecutionAnalyzer.analyze_execution_by_hour
       [fill_at 1700000000000; Trade.signal 1 None] = Some result
     /\ length result = 24%nat).
Proof.
  assert (Hr : convertible
                 [pnl_at 1700000000000 5;
                  Income.mk None (Some "FUNDING_FEE"%string) None
                    (Some year_10000)]).
  { constructor; [| constructor; [| constructor]].
    - intros _. unfold Datetime.representable, income_timestamp,
        Datetime.min_seconds, Datetime.max_seconds.
      simpl. lia.
    - intros H. simpl in H. discriminate H. }
  assert (Ht : convertible_trades [fill_at 1700000000000; Trade.signal 1 None]).
  { constructor; [| constructor; [| constructor]].
    - intros _. unfold Datetime.representable, trade_timestamp,
        Datetime.min_seconds, Datetime.max_seconds.
      simpl. lia.
    - intros H. exfalso. apply H. reflexivity. }
  destruct (hourly_reports_have_24_entries _ _ Hr Ht)
    as [(res & H1 & H2 & _) (res' & H1' & H2' & _)].
  split; [exists res | exists res']; split; assumption.
Defined.

(** C2 (as stated, refuted): the first millisecond of the year 10000 is a
    timestamp for which [datetime.fromtimestamp] and
    [datetime.utcfromtimestamp] raise ValueError: with one such realized
    pnl record, and with one such trade, the two functions return no list
    at all, so not every input list gives 24 entries. *)
Lemma year_10000_gives_no_report :
  TimeAnalyzer.vn_hour year_10000 = None
  /\ TimeAnalyzer.analyze_by_hour [pnl_at year_10000 1] = None
  /\ ExecutionAnalyzer.analyze_execution_by_hour [fill_at year_10000] = None
  /\ ~ (forall records : list Income.t,
          exists result,
            TimeAnalyzer.analyze_by_hour records = Some result
            /\ length result = 24%nat)
  /\ ~ (forall trades : list Trade.t,
          exists result,
            ExecutionAnalyzer.analyze_execution_by_hour trades = Some result
            /\ length result = 24%nat).
Proof.
  assert (H1 : TimeAnalyzer.analyze_by_hour [pnl_at year_10000 1] = None)
    by (vm_compute; reflexivity).
  assert (H2 : ExecutionAnalyzer.analyze_execution_by_hour [fill_at year_10000]
               = None)
    by (vm_compute; reflexivity).
  split; [vm_compute; reflexivity |].
  split; [exact H1 |]. split; [exact H2 |]. split.
  - intros H. destruct (H [pnl_at year_10000 1]) as (res & Hres & _).
    rewrite H1 in Hres. discriminate Hres.
  - intros H. destruct (H [fill_at year_10000]) as (res & Hres & _).
    rewrite H2 in Hres. discriminate Hres.
Qed.

(** *** Falsy timestamps *)

Lemma for_each_app {A S : Type} (body : S -> A -> option S)
    (xs ys : list A) (s : S) :
  Py.for_each body (xs ++ ys) s
  = match Py.for_each body xs s with
    | Some s' => Py.for_each body ys s'
    | None => None
    end.
Proof.
  revert s. induction xs as [| x rest IH]; intros s; simpl.
  - reflexivity.
  - destruct (body s x); [apply IH | reflexivity].
Qed.

(** The execution analyzer skips a trade whose timestamp is absent or 0:
    the report is the one of the other trades. *)
Lemma execution_skips_falsy_timestamp (before after : list Trade.t)
    (t : Trade.t) :
  trade_timestamp t = 0%Z ->
  ExecutionAnalyzer.analyze_execution_by_hour (before ++ t :: after)
  = ExecutionAnalyzer.analyze_execution_by_hour (before ++ after).
Proof.
  intros Hz. unfold ExecutionAnalyzer.analyze_execution_by_hour.
  rewrite !for_each_app.
  destruct (Py.for_each ExecutionAnalyzer.accumulate before ∅) as [m |];
    [| reflexivity].
  simpl. unfold ExecutionAnalyzer.accumulate at 1.
  fold (trade_timestamp t). rewrite Hz. reflexivity.
Qed.

(** The time analyzer counts a realized pnl whose timestamp is absent or 0
    in hour 7. *)
Lemma falsy_timestamp_lands_at_7 (r : Income.t) :
  TimeAnalyzer.is_realized_pnl r = true -> income_timestamp r = 0%Z ->
  lands r 7.
Proof.
  intros Hty Hz. split; [exact Hty |]. rewrite Hz. reflexivity.
Qed.

(** C4 (at the input where it fails): [TimeAnalyzer.analyze_by_hour] does
    not skip a record whose timestamp is absent or 0: it reads the
    timestamp as 0, the epoch, and counts the record in hour 7, the
    Vietnam hour of 00:00 UTC. *)
Theorem time_analyzer_counts_falsy_timestamp :
  option_map (map TimeAnalyzer.trade_count)
    (TimeAnalyzer.analyze_by_hour [undated])
  = Some [0; 0; 0; 0; 0; 0; 0; 1; 0; 0; 0; 0; 0; 0; 0; 0; 0; 0; 0; 0; 0; 0;
          0; 0]%nat
  /\ option_map (map TimeAnalyzer.trade_count)
       (TimeAnalyzer.analyze_by_hour [dated_zero])
     = Some [0; 0; 0; 0; 0; 0; 0; 1; 0; 0; 0; 0; 0; 0; 0; 0; 0; 0; 0; 0; 0;
             0; 0; 0]%nat.
Proof. split; vm_compute; reflexivity. Qed.

End HourFacts.

(** ** Risk metrics *)

Module RiskFacts.
Import RiskAnalyzer RiskSpec.

Lemma div_some (a b : Q) : ~ b == 0 -> Py.div a b = Some (a / b).
Proof.
  intros H. unfold Py.div.
  destruct (Qeq_bool b 0) eqn:E; [| reflexivity].
  apply Qeq_bool_iff in E. contradiction.
Qed.

Lemma of_nat_pos (n : nat) : (0 < n)%nat -> 0 < Py.of_nat n.
Proof.
  intros H. unfold Py.of_nat.
  replace 0 with (inject_Z 0) by reflexivity. rewrite <- Zlt_Qlt. lia.
Qed.

Lemma div_by_length (a : Q) (n : nat) :
  (0 < n)%nat -> Py.div a (Py.of_nat n) = Some (a / Py.of_nat n).
Proof.
  intros H. apply div_some. pose proof (of_nat_pos n H). lra.
Qed.

(** *** Sortino ratio *)

Lemma negative_returns_nil (daily_returns : list Q) :
  negative_returns daily_returns = [] <-> Forall (fun r => 0 <= r) daily_returns.
Proof.
  unfold negative_returns.
  induction daily_returns as [| r rest IH]; simpl.
  - split; [constructor | reflexivity].
  - destruct (Py.ltb r 0) eqn:E.
    + split; [discriminate |].
      intros H. inversion H as [| ? ? Hr _]; subst.
      apply PyFacts.ltb_lt in E. lra.
    + rewrite IH. apply PyFacts.ltb_ge in E.
      split; [intros H; constructor; assumption |].
      intros H. inversion H; assumption.
Qed.

Lemma excess_return_defined (daily_returns : list Q) (risk_free_rate : Q)
    (annualization_factor : Z) :
  (0 < length daily_returns)%nat -> annualization_factor <> 0%Z ->
  excess_return daily_returns risk_free_rate annualization_factor
  = Some (Py.sum daily_returns / Py.of_nat (length daily_returns)
          - risk_free_rate / inject_Z annualization_factor).
Proof.
  intros Hlen Haf. unfold excess_return.
  rewrite (div_by_length _ _ Hlen). simpl.
  rewrite div_some; [reflexivity |].
  intros E. apply Haf. unfold Qeq in E. simpl in E. lia.
Qed.

(** With a negative return in the list the ratio, when there is one, is
    finite. *)
Lemma downside_is_finite (sqrt : Q -> Q) (excess : Q) (negatives : list Q)
    (annualization_factor : Z) (r : Py.float) :
  (downside_variance ← Py.div (Py.sum (map (fun r => r * r) negatives))
                              (Py.of_nat (length negatives));
   downside_dev ← math_sqrt sqrt downside_variance;
   if Qeq_bool downside_dev 0 then Some (Py.Fin 0)
   else
     ratio ← Py.div excess downside_dev;
     root ← math_sqrt sqrt (inject_Z annualization_factor);
     Some (Py.Fin (Py.round (ratio * root) 2))) = Some r ->
  r <> Py.Inf.
Proof.
  destruct (Py.div _ _) as [v |]; simpl; [| discriminate].
  destruct (math_sqrt sqrt v) as [d |]; simpl; [| discriminate].
  destruct (Qeq_bool d 0); [intros [= <-]; discriminate |].
  destruct (Py.div excess d) as [q |]; simpl; [| discriminate].
  destruct (math_sqrt sqrt _) as [root |]; simpl; [| discriminate].
  intros [= <-]. discriminate.
Qed.

(** C3 (amended): for every list of at least two daily returns and
    every annualization factor other than 0, the excess return (mean minus
    risk-free rate divided by annualization factor) is defined, and
    [calculate_sortino_ratio] returns the positive-infinity sentinel
    exactly when the list has no strictly negative return and the excess
    return is positive; it returns 0 when the list has no strictly negative
    return and the excess return is at most 0.  A list of fewer than two
    returns gives 0. *)
Theorem sortino_sentinel (sqrt : Q -> Q) (daily_returns : list Q)
    (risk_free_rate : Q) (annualization_factor : Z) :
  ((length daily_returns < 2)%nat ->
     calculate_sortino_ratio sqrt daily_returns risk_free_rate
       annualization_factor = Some (Py.Fin 0))
  /\ ((2 <= length daily_returns)%nat -> annualization_factor <> 0%Z ->
      exists excess,
        excess_return daily_returns risk_free_rate annualization_factor
        = Some excess
        /\ (calculate_sortino_ratio sqrt daily_returns risk_free_rate
              annualization_factor = Some Py.Inf
            <-> Forall (fun r => 0 <= r) daily_returns /\ 0 < excess)
        /\ (Forall (fun r => 0 <= r) daily_returns -> excess <= 0 ->
            calculate_sortino_ratio sqrt daily_returns risk_free_rate
              annualization_factor = Some (Py.Fin 0))).
Proof.
  split.
  - intros Hlen. unfold calculate_sortino_ratio.
    apply Nat.ltb_lt in Hlen. rewrite Hlen. reflexivity.
  - intros Hlen Haf. eexists. split.
    { apply excess_return_defined; [lia | exact Haf]. }
    set (excess := _ - _).
    unfold calculate_sortino_ratio.
    assert (Hge : (length daily_returns <? 2)%nat = false)
      by (apply Nat.ltb_ge; exact Hlen).
    rewrite Hge, excess_return_defined by (lia || exact Haf).
    fold excess. simpl.
    rewrite <- negative_returns_nil.
    destruct (negative_returns daily_returns) as [| n ns] eqn:En.
    + destruct (Py.gtb excess 0) eqn:Eg.
      * apply PyFacts.gtb_gt in Eg. split; [tauto |]. intros _ Hle. lra.
      * apply PyFacts.gtb_le in Eg. split.
        -- split; [discriminate | intros [_ Hpos]; lra].
        -- reflexivity.
    + split; [split |].
      * intros H. exfalso.
        exact (downside_is_finite sqrt excess (n :: ns) _ _ H eq_refl).
      * intros [Hnil _]. discriminate.
      * intros Hnil. discriminate.
Qed.

Lemma sortino_sentinel_witness :
  calculate_sortino_ratio Sqrt.isqrt [1; 2] 0 365 = Some Py.Inf.
Proof.
  destruct (sortino_sentinel Sqrt.isqrt [1; 2] 0 365) as [_ H].
  destruct H as (excess & Hex & Hinf & _).
  - simpl. lia.
  - discriminate.
  - apply Hinf. injection Hex as <-. split.
    + repeat constructor; discriminate.
    + reflexivity.
Defined.

(** C3 (as stated, refuted): the list [[1]] has no negative return and
    the excess return 1 (risk-free rate 0, annualization factor 365),
    and the ratio returned is 0, not the sentinel. *)
Lemma sortino_single_return :
  Forall (fun r => 0 <= r) [1]
  /\ (exists excess, excess_return [1] 0 365 = Some excess /\ 0 < excess)
  /\ calculate_sortino_ratio Sqrt.isqrt [1] 0 365 = Some (Py.Fin 0)
  /\ calculate_sortino_ratio Sqrt.isqrt [1] 0 365 <> Some Py.Inf.
Proof.
  split; [| split; [| split]].
  - repeat constructor. discriminate.
  - eexists. split; [reflexivity | reflexivity].
  - reflexivity.
  - discriminate.
Qed.

(** *** Trade statistics *)

Lemma min_fin_le (x : Py.float) (bound : Q) : Py.min_fin x bound <= bound.
Proof.
  destruct x as [q |]; simpl; [| apply Qle_refl].
  destruct (Py.ltb bound q) eqn:E; [apply Qle_refl |].
  apply PyFacts.ltb_ge in E. exact E.
Qed.

Lemma round_capped (q : Q) : q <= cap -> Py.round q 2 <= cap.
Proof.
  intros H.
  assert (E : cap == inject_Z 9999 / inject_Z (10 ^ Z.of_nat 2)) by reflexivity.
  rewrite E in *. apply PyFacts.round_le. exact H.
Qed.

Lemma round_cap : Py.round cap 2 == cap.
Proof. reflexivity. Qed.

Lemma average_defined (total : Q) (xs : list Q) :
  exists a, average_of total xs = Some a.
Proof.
  destruct xs as [| x rest]; simpl; [eexists; reflexivity |].
  rewrite (div_by_length total (S (length rest))) by lia.
  eexists; reflexivity.
Qed.

Lemma ratio_defined (num den : Q) :
  exists r, ratio_or_inf num den = Some r /\ (den <= 0 -> r = Py.Inf).
Proof.
  unfold ratio_or_inf. destruct (Py.gtb den 0) eqn:E.
  - apply PyFacts.gtb_gt in E.
    rewrite div_some by lra. simpl.
    eexists. split; [reflexivity | intros; lra].
  - eexists. split; [reflexivity | reflexivity].
Qed.

(** Every division of [calculate_trade_stats] has a result, and the report
    of a non-empty list is built from the results. *)
Lemma calculate_trade_stats_runs (trades : list Trade.t) :
  trades <> [] ->
  let pnl_list := pnl_list_of trades in
  let winners := winners_of pnl_list in
  let losers := losers_of pnl_list in
  exists s avg_win avg_loss profit_factor risk_reward,
    calculate_trade_stats trades = Some (Stats s)
    /\ average_of (gross_profit_of winners) winners = Some avg_win
    /\ average_of (gross_loss_of losers) losers = Some avg_loss
    /\ ratio_or_inf (gross_profit_of winners) (gross_loss_of losers)
       = Some profit_factor
    /\ ratio_or_inf avg_win avg_loss = Some risk_reward
    /\ total_trades s = length pnl_list
    /\ winning_trades s = length winners
    /\ losing_trades s = length losers
    /\ RiskAnalyzer.profit_factor s = Py.round (Py.min_fin profit_factor cap) 2
    /\ risk_reward_ratio s = Py.round (Py.min_fin risk_reward cap) 2.
Proof.
  intros Hne. destruct trades as [| t rest]; [contradiction |].
  cbv zeta. unfold calculate_trade_stats. cbv zeta.
  fold (pnl_list_of (t :: rest)).
  set (pnl_list := pnl_list_of (t :: rest)).
  set (winners := winners_of pnl_list).
  set (losers := losers_of pnl_list).
  destruct (average_defined (gross_profit_of winners) winners) as [aw Haw].
  destruct (average_defined (gross_loss_of losers) losers) as [al Hal].
  destruct (ratio_defined (gross_profit_of winners) (gross_loss_of losers))
    as (pf & Hpf & _).
  destruct (ratio_defined aw al) as (rr & Hrr & _).
  assert (Hwr : exists q,
             Py.div (Py.of_nat (length winners)) (Py.of_nat (length pnl_list))
             = Some q).
  { eexists. apply div_by_length. subst pnl_list. simpl. lia. }
  destruct Hwr as [q Hq].
  assert (Hwr : match pnl_list with
                | [] => Some 0
                | _ :: _ =>
                    q ← Py.div (Py.of_nat (length winners))
                               (Py.of_nat (length pnl_list));
                    Some (q * 100)
                end = Some (q * 100)).
  { rewrite Hq. subst pnl_list. reflexivity. }
  eexists _, aw, al, pf, rr. split.
  { rewrite Hwr, Haw, Hal, Hpf. simpl. rewrite Hrr. reflexivity. }
  repeat split; try reflexivity; assumption.
Qed.

(** C5: for every non-empty list of trades [calculate_trade_stats]
    returns a report (no division of it fails) whose profit_factor and
    risk_reward_ratio are at most 99.99; when the gross loss is 0, as it is
    when there is no losing trade, profit_factor is 99.99, and when the
    average loss is 0, risk_reward_ratio is 99.99. *)
Theorem ratios_are_capped (trades : list Trade.t) :
  trades <> [] ->
  let losers := losers_of (pnl_list_of trades) in
  exists s,
    calculate_trade_stats trades = Some (Stats s)
    /\ RiskAnalyzer.profit_factor s <= 9999 # 100
    /\ risk_reward_ratio s <= 9999 # 100
    /\ (gross_loss_of losers == 0 -> RiskAnalyzer.profit_factor s == 9999 # 100)
    /\ (forall avg_loss,
          average_of (gross_loss_of losers) losers = Some avg_loss ->
          avg_loss == 0 -> risk_reward_ratio s == 9999 # 100)
    /\ (losing_trades s = 0%nat ->
          gross_loss_of losers == 0
          /\ average_of (gross_loss_of losers) losers = Some 0
          /\ RiskAnalyzer.profit_factor s == 9999 # 100
          /\ risk_reward_ratio s == 9999 # 100).
Proof.
  intros Hne. cbv zeta.
  destruct (calculate_trade_stats_runs trades Hne)
    as (s & aw & al & pf & rr & Hs & Haw & Hal & Hpf & Hrr & _ & _ & Hl & Epf & Err).
  exists s. split; [exact Hs |].
  assert (Hzero_pf : gross_loss_of (losers_of (pnl_list_of trades)) == 0 ->
                     RiskAnalyzer.profit_factor s == 9999 # 100).
  { intros Hz. rewrite Epf.
    unfold ratio_or_inf in Hpf.
    assert (Hg : Py.gtb (gross_loss_of (losers_of (pnl_list_of trades))) 0 = false)
      by (apply PyFacts.gtb_le; lra).
    rewrite Hg in Hpf. injection Hpf as <-. reflexivity. }
  assert (Hzero_rr : al == 0 -> risk_reward_ratio s == 9999 # 100).
  { intros Hz. rewrite Err.
    unfold ratio_or_inf in Hrr.
    assert (Hg : Py.gtb al 0 = false) by (apply PyFacts.gtb_le; lra).
    rewrite Hg in Hrr. injection Hrr as <-. reflexivity. }
  split; [| split; [| split; [| split]]].
  - rewrite Epf. apply round_capped, min_fin_le.
  - rewrite Err. apply round_capped, min_fin_le.
  - exact Hzero_pf.
  - intros al' Hal' Hz. rewrite Hal in Hal'. injection Hal' as <-.
    apply Hzero_rr, Hz.
  - intros Hnone. rewrite Hl in Hnone.
    destruct (losers_of (pnl_list_of trades)) as [| l ls] eqn:El;
      [| discriminate].
    simpl in *. injection Hal as <-.
    split; [reflexivity |]. split; [reflexivity |]. split.
    + apply Hzero_pf. reflexivity.
    + apply Hzero_rr. reflexivity.
Qed.

Lemma ratios_are_capped_witness :
  exists s,
    calculate_trade_stats [Trade.signal 10 None; Trade.signal 10 None]
    = Some (Stats s)
    /\ RiskAnalyzer.profit_factor s <= 9999 # 100.
Proof.
  destruct (ratios_are_capped [Trade.signal 10 None; Trade.signal 10 None])
    as (s & Hs & Hpf & _).
  - discriminate.
  - exists s. split; [exact Hs | exact Hpf].
Defined.

(** *** Maximum drawdown *)

Lemma pct_in_range (peak balance : Q) :
  0 < peak -> 0 <= balance -> balance <= peak ->
  0 <= (peak - balance) / peak * 100 <= 100.
Proof.
  intros Hp Hb Hle.
  assert (H0 : 0 <= (peak - balance) / peak).
  { apply Qle_shift_div_l; [exact Hp | lra]. }
  assert (H1 : (peak - balance) / peak <= 1).
  { apply Qle_shift_div_r; [exact Hp | lra]. }
  lra.
Qed.

(** A step over a point of non-negative balance has a result, and keeps
    the retained drawdown percentage between 0 and 100. *)
Lemma drawdown_step_in_range (st : DrawdownState) (point : EquityPoint.t) :
  0 <= balance_of point ->
  0 <= max_dd_pct st <= 100 ->
  exists st', drawdown_step st point = Some st'
              /\ 0 <= max_dd_pct st' <= 100.
Proof.
  intros Hb Hm. unfold drawdown_step. fold (balance_of point). cbv zeta.
  destruct (Py.gtb (balance_of point) (peak st)) eqn:Enew.
  - eexists. split; [reflexivity | exact Hm].
  - apply PyFacts.gtb_le in Enew.
    destruct (Py.gtb (peak st) 0) eqn:Epos.
    + apply PyFacts.gtb_gt in Epos.
      rewrite div_some by lra. simpl.
      destruct (Py.gtb _ (max_dd_pct st)).
      * eexists. split; [reflexivity |]. simpl.
        apply pct_in_range; assumption.
      * eexists. split; [reflexivity | exact Hm].
    + simpl. destruct (Py.gtb 0 (max_dd_pct st)).
      * eexists. split; [reflexivity |]. simpl. lra.
      * eexists. split; [reflexivity | exact Hm].
Qed.

Lemma drawdown_loop_in_range (curve : list EquityPoint.t) :
  Forall (fun p => 0 <= balance_of p) curve ->
  forall st, 0 <= max_dd_pct st <= 100 ->
  exists st', Py.for_each drawdown_step curve st = Some st'
              /\ 0 <= max_dd_pct st' <= 100.
Proof.
  induction 1 as [| point rest Hp _ IH]; intros st Hst; simpl.
  - exists st. split; [reflexivity | exact Hst].
  - destruct (drawdown_step_in_range st point Hp Hst) as (st1 & E1 & H1).
    rewrite E1. apply IH, H1.
Qed.

Lemma round_pct_in_range (q : Q) : 0 <= q <= 100 -> 0 <= Py.round q 2 <= 100.
Proof.
  intros [Hlo Hhi].
  pose proof (PyFacts.round_ge q 2 0) as Hge.
  pose proof (PyFacts.round_le q 2 10000) as Hle.
  assert (E0 : inject_Z 0 / inject_Z (10 ^ Z.of_nat 2) == 0) by reflexivity.
  assert (E1 : inject_Z 10000 / inject_Z (10 ^ Z.of_nat 2) == 100) by reflexivity.
  rewrite E0 in Hge. rewrite E1 in Hle.
  split; [apply Hge | apply Hle]; assumption.
Qed.

(** C7: for every equity curve in which every balance is non-negative,
    [calculate_max_drawdown] returns a report, and its max_drawdown_pct is
    at least 0 and at most 100. *)
Theorem max_drawdown_pct_in_range (equity_curve : list EquityPoint.t) :
  Forall (fun p => 0 <= balance_of p) equity_curve ->
  exists report,
    calculate_max_drawdown equity_curve = Some report
    /\ 0 <= max_drawdown_pct report <= 100.
Proof.
  intros Hcurve. unfold calculate_max_drawdown.
  destruct equity_curve as [| first [| second rest]].
  - eexists. split; [reflexivity |]. simpl. lra.
  - eexists. split; [reflexivity |]. simpl. lra.
  - set (st0 := mkDrawdownState _ 0 0 None None).
    destruct (drawdown_loop_in_range (first :: second :: rest) Hcurve st0)
      as (st & Erun & Hst).
    { simpl. lra. }
    rewrite Erun. simpl.
    eexists. split; [reflexivity |]. simpl.
    apply round_pct_in_range, Hst.
Qed.

Lemma max_drawdown_pct_in_range_witness :
  exists report,
    calculate_max_drawdown (curve_of [100; 50; 200]) = Some report
    /\ 0 <= max_drawdown_pct report <= 100.
Proof.
  apply (max_drawdown_pct_in_range (curve_of [100; 50; 200])).
  repeat constructor; discriminate.
Defined.

(** No step of the loop raises, and the peak it keeps is the largest
    balance so far. *)
Lemma drawdown_step_peak (st : DrawdownState) (point : EquityPoint.t) :
  exists st', drawdown_step st point = Some st'
              /\ peak st' = if Py.gtb (balance_of point) (peak st)
                            then balance_of point else peak st.
Proof.
  unfold drawdown_step. fold (balance_of point). cbv zeta.
  destruct (Py.gtb (balance_of point) (peak st)).
  - eexists. split; reflexivity.
  - destruct (Py.gtb (peak st) 0) eqn:Epos.
    + apply PyFacts.gtb_gt in Epos. rewrite div_some by lra. simpl.
      destruct (Py.gtb _ (max_dd_pct st)); eexists; split; reflexivity.
    + simpl. destruct (Py.gtb 0 (max_dd_pct st)); eexists; split; reflexivity.
Qed.

Lemma drawdown_loop_peak (curve : list EquityPoint.t) :
  forall st,
  exists st', Py.for_each drawdown_step curve st = Some st'
              /\ peak st'
                 = fold_left (fun pk point =>
                                if Py.gtb (balance_of point) pk
                                then balance_of point else pk)
                     curve (peak st).
Proof.
  induction curve as [| point rest IH]; intros st; simpl.
  - exists st. split; reflexivity.
  - destruct (drawdown_step_peak st point) as (st1 & E1 & Hp).
    rewrite E1, <- Hp. apply IH.
Qed.

(** The peak_before_dd of every report of a curve of at least two points is
    the largest balance of the curve, rounded. *)
Lemma peak_before_dd_is_last_peak (equity_curve : list EquityPoint.t) :
  (2 <= length equity_curve)%nat ->
  exists report,
    calculate_max_drawdown equity_curve = Some report
    /\ peak_before_dd report = Some (Py.round (last_peak equity_curve) 2).
Proof.
  intros Hlen. destruct equity_curve as [| first [| second rest]];
    [simpl in Hlen; lia | simpl in Hlen; lia |].
  unfold calculate_max_drawdown, last_peak.
  set (st0 := mkDrawdownState _ 0 0 None None).
  destruct (drawdown_loop_peak (first :: second :: rest) st0)
    as (st & Erun & Hpeak).
  rewrite Erun. simpl. eexists. split; [reflexivity |]. simpl.
  rewrite Hpeak. reflexivity.
Qed.

(** C9 (at the input where it fails): on the curve 100, 50, 200 the
    maximum drawdown is the 50 % (50 dollars) measured from the peak 100,
    and the peak_before_dd of the report is 200, the running peak at the
    end of the curve. *)
Theorem peak_before_dd_is_the_last_peak :
  exists report,
    calculate_max_drawdown (curve_of [100; 50; 200]) = Some report
    /\ max_drawdown_pct report == 50
    /\ max_drawdown_usd report == 50
    /\ (exists p, peak_before_dd report = Some p /\ p == 200)
    /\ peak_of_max_drawdown (curve_of [100; 50; 200]) == 100.
Proof.
  eexists. split; [vm_compute; reflexivity |].
  repeat split.
  eexists. split; reflexivity.
Qed.

End RiskFacts.

(** ** Volatility regime *)

Module RegimeFacts.
Import RegimeAnalyzer RegimeSpec.

Lemma isqrt_monotone : Sqrt.monotone Sqrt.isqrt.
Proof.
  intros x y _ Hxy. unfold Sqrt.isqrt. rewrite <- Zle_Qle.
  apply Z.sqrt_le_mono, Qfloor_resp_le, Hxy.
Qed.

Lemma isqrt_exact : Sqrt.exact_on_squares Sqrt.isqrt.
Proof.
  intros n Hn. unfold Sqrt.isqrt.
  rewrite Qfloor_Z, Z.sqrt_square by exact Hn. reflexivity.
Qed.

(** C8: with a square root that is monotone and exact on the squares of
    the integers, [detect_volatility_regime] returns the INSUFFICIENT_DATA
    tag for every input of fewer than 5 daily observations, and for the
    daily net pnl 5, -3, 4, -2, 6, -1, 3, with the reference capital of 100
    of the code, it returns HIGH_VOLATILITY over 7 days, with a volatility
    (standard deviation with the n-1 denominator, over the capital, in
    percent) of at least 3. *)
Theorem volatility_regime_of_week (sqrt : Q -> Q) :
  Sqrt.monotone sqrt -> Sqrt.exact_on_squares sqrt ->
  (forall daily_pnl, (length daily_pnl < 5)%nat ->
     exists report,
       detect_volatility_regime sqrt daily_pnl = Some report
       /\ regime_of report = "INSUFFICIENT_DATA"%string)
  /\ base_capital == 100
  /\ (exists volatility_pct std_dev_usd description,
        detect_volatility_regime sqrt (days_of [5; -3; 4; -2; 6; -1; 3])
        = Some (Classified "HIGH_VOLATILITY" volatility_pct std_dev_usd
                  description 7)
        /\ 3 <= volatility_pct).
Proof.
  intros Hmono Hexact. split; [| split].
  - intros daily_pnl Hlen. unfold detect_volatility_regime.
    apply Nat.ltb_lt in Hlen. rewrite Hlen.
    eexists. split; reflexivity.
  - reflexivity.
  - unfold detect_volatility_regime.
    fold week.
    assert (Hlen : (length (days_of week) <? 5)%nat = false) by reflexivity.
    rewrite Hlen. cbv zeta.
    set (pnl_values := map _ (days_of _)).
    change (length pnl_values) with 7%nat.
    rewrite (RiskFacts.div_by_length _ 7) by lia.
    cbn [mbind option_bind].
    rewrite (RiskFacts.div_by_length _ (7 - 1)) by (simpl; lia).
    cbn [mbind option_bind].
    set (variance := _ / Py.of_nat (7 - 1)).
    assert (Hv : 9 <= variance) by (vm_compute; discriminate).
    clearbody variance.
    unfold RiskAnalyzer.math_sqrt.
    assert (Hpos : Py.ltb variance 0 = false)
      by (apply PyFacts.ltb_ge; lra).
    rewrite Hpos. cbn [mbind option_bind].
    assert (Hs : 3 <= sqrt variance).
    { specialize (Hexact 3%Z). specialize (Hmono 9 variance).
      change (inject_Z (3 * 3)) with 9 in Hexact.
      change (inject_Z 3) with 3 in Hexact.
      rewrite <- Hexact by lia. apply Hmono; [lra | exact Hv]. }
    change (Py.gtb base_capital 0) with true. cbv iota.
    set (vol := sqrt variance / base_capital * 100).
    assert (Hvol : 3 <= vol).
    { assert (E : vol == sqrt variance)
        by (subst vol; unfold base_capital; field).
      rewrite E. exact Hs. }
    assert (H1 : Py.ltb vol 1 = false) by (apply PyFacts.ltb_ge; lra).
    assert (H3 : Py.ltb vol 3 = false) by (apply PyFacts.ltb_ge; lra).
    rewrite H1, H3.
    do 3 eexists. split; [reflexivity |].
    pose proof (PyFacts.round_ge vol 2 300) as Hr.
    assert (E : inject_Z 300 / inject_Z (10 ^ Z.of_nat 2) == 3) by reflexivity.
    rewrite E in Hr. apply Hr, Hvol.
Qed.

Lemma volatility_regime_of_week_witness :
  exists volatility_pct std_dev_usd description,
    detect_volatility_regime Sqrt.isqrt (days_of [5; -3; 4; -2; 6; -1; 3])
    = Some (Classified "HIGH_VOLATILITY" volatility_pct std_dev_usd
              description 7)
    /\ 3 <= volatility_pct.
Proof.
  exact (proj2 (proj2 (volatility_regime_of_week Sqrt.isqrt
                         isqrt_monotone isqrt_exact))).
Defined.

End RegimeFacts.

(** ** Symbol buckets *)

Module SymbolFacts.
Import SymbolAnalyzer SymbolSpec.

Lemma count_snoc {A : Type} (P : A -> bool) (l : list A) (x : A) :
  count P (l ++ [x]) = (count P l + if P x then 1 else 0)%nat.
Proof.
  unfold count. rewrite List.filter_app, length_app. simpl.
  destruct (P x); reflexivity.
Qed.

Lemma not_gtb_leb (x : Q) : negb (Py.gtb x 0) = Py.leb x 0.
Proof. unfold Py.gtb, Py.ltb, Py.leb. apply negb_involutive. Qed.

Lemma find_update (l : list (string * SymbolStats)) (key k : string)
    (f : SymbolStats -> SymbolStats) :
  find (update l key f) k
  = if String.eqb key k
    then Some (f (default zero_stats (find l key)))
    else find l k.
Proof.
  induction l as [| [k0 v0] rest IH]; simpl.
  - reflexivity.
  - destruct (String.eqb_spec k0 key) as [-> | Hne]; simpl.
    + destruct (String.eqb key k); reflexivity.
    + rewrite IH.
      destruct (String.eqb_spec key k) as [<- | Hnk].
      * apply String.eqb_neq in Hne. rewrite Hne. reflexivity.
      * reflexivity.
Qed.

Lemma find_none (l : list (string * SymbolStats)) (k : string) :
  find l k = None <-> ~ In k (map fst l).
Proof.
  induction l as [| [k0 v0] rest IH]; simpl.
  - tauto.
  - destruct (String.eqb_spec k0 k) as [-> | Hne].
    + split; [discriminate | intros H; exfalso; apply H; left; reflexivity].
    + rewrite IH. tauto.
Qed.

Lemma update_keys (l : list (string * SymbolStats)) (key : string)
    (f : SymbolStats -> SymbolStats) :
  map fst (update l key f)
  = match find l key with
    | Some _ => map fst l
    | None => map fst l ++ [key]
    end.
Proof.
  induction l as [| [k0 v0] rest IH]; simpl.
  - reflexivity.
  - destruct (String.eqb k0 key); simpl; [reflexivity |].
    rewrite IH. destruct (find rest key); reflexivity.
Qed.

Lemma update_nodup (l : list (string * SymbolStats)) (key : string)
    (f : SymbolStats -> SymbolStats) :
  List.NoDup (map fst l) -> List.NoDup (map fst (update l key f)).
Proof.
  intros Hnd. rewrite update_keys.
  destruct (find l key) eqn:E; [exact Hnd |].
  apply find_none in E.
  apply List.NoDup_rev in Hnd. rewrite <- rev_involutive.
  apply List.NoDup_rev. rewrite rev_app_distr. simpl.
  constructor; [| exact Hnd].
  rewrite <- in_rev. exact E.
Qed.

Lemma in_find (l : list (string * SymbolStats)) (k : string) (st : SymbolStats) :
  List.NoDup (map fst l) -> In (k, st) l -> find l k = Some st.
Proof.
  induction l as [| [k0 v0] rest IH]; simpl; intros Hnd Hin; [contradiction |].
  inversion Hnd as [| ? ? Hnotin Hnd']; subst.
  destruct Hin as [[= -> ->] | Hin].
  - rewrite String.eqb_refl. reflexivity.
  - destruct (String.eqb_spec k0 k) as [-> | Hne]; [| apply IH; assumption].
    exfalso. apply Hnotin. apply in_map_iff. exists (k, st). split; auto.
Qed.

Lemma counts_snoc_other (st : SymbolStats) (k : string)
    (seen : list Income.t) (r : Income.t) :
  realized_for k r = false -> counts st k seen -> counts st k (seen ++ [r]).
Proof.
  unfold counts. intros Hr (Ht & Hw & Hl & Hsum).
  rewrite !count_snoc, Hr. simpl. repeat split; lia.
Qed.

Lemma counts_snoc_realized (st : SymbolStats) (k : string)
    (seen : list Income.t) (r : Income.t) :
  realized_for k r = true -> counts st k seen ->
  counts (add_realized (income_of r) st) k (seen ++ [r]).
Proof.
  unfold counts, add_realized. intros Hr (Ht & Hw & Hl & Hsum).
  rewrite !count_snoc, Hr, <- not_gtb_leb.
  destruct (Py.gtb (income_of r) 0); simpl; repeat split; lia.
Qed.

Lemma counts_commission (st : SymbolStats) (k : string)
    (seen : list Income.t) (x : Q) :
  counts st k seen -> counts (add_commission x st) k seen.
Proof. unfold counts, add_commission. simpl. tauto. Qed.

Lemma accumulate_consistent (l : list (string * SymbolStats))
    (seen : list Income.t) (r : Income.t) :
  consistent l seen -> consistent (accumulate l r) (seen ++ [r]).
Proof.
  intros (Hnd & Hempty & Hcounts). unfold accumulate.
  fold (key_of r). fold (income_of r). cbv zeta.
  destruct (String.eqb_spec (key_of r) "") as [Hkey | Hkey].
  { split; [exact Hnd |]. split; [exact Hempty |].
    intros k Hk. apply counts_snoc_other; [| apply Hcounts, Hk].
    unfold realized_for. rewrite Hkey.
    assert (E : String.eqb "" k = false)
      by (apply String.eqb_neq; congruence).
    rewrite E. reflexivity. }
  assert (Hkey' : String.eqb (key_of r) "" = false)
    by (apply String.eqb_neq; exact Hkey).
  destruct (type_is r "REALIZED_PNL") eqn:Ereal.
  { split; [apply update_nodup, Hnd |].
    split; [rewrite find_update, Hkey'; exact Hempty |].
    intros k Hk. rewrite find_update.
    destruct (String.eqb_spec (key_of r) k) as [<- | Hne]; simpl.
    - apply counts_snoc_realized; [| apply Hcounts, Hk].
      unfold realized_for. rewrite String.eqb_refl, Ereal. reflexivity.
    - apply counts_snoc_other; [| apply Hcounts, Hk].
      unfold realized_for.
      apply String.eqb_neq in Hne. rewrite Hne. reflexivity. }
  assert (Hother : forall k, realized_for k r = false).
  { intros k. unfold realized_for. rewrite Ereal. apply andb_false_r. }
  destruct (type_is r "COMMISSION").
  { split; [apply update_nodup, Hnd |].
    split; [rewrite find_update, Hkey'; exact Hempty |].
    intros k Hk. rewrite find_update.
    apply counts_snoc_other; [apply Hother |].
    destruct (String.eqb_spec (key_of r) k) as [<- | Hne]; simpl.
    - apply counts_commission, Hcounts, Hk.
    - apply Hcounts, Hk. }
  split; [exact Hnd |]. split; [exact Hempty |].
  intros k Hk. apply counts_snoc_other; [apply Hother | apply Hcounts, Hk].
Qed.

Lemma loop_consistent (records : list Income.t) :
  forall l seen, consistent l seen ->
  consistent (fold_left accumulate records l) (seen ++ records).
Proof.
  induction records as [| r rest IH]; intros l seen H; simpl.
  - rewrite app_nil_r. exact H.
  - replace (seen ++ r :: rest) with ((seen ++ [r]) ++ rest)
      by (rewrite <- app_assoc; reflexivity).
    apply IH, accumulate_consistent, H.
Qed.

Lemma in_insert_desc (e x : SymbolEntry) (sorted : list SymbolEntry) :
  In e (insert_desc x sorted) <-> e = x \/ In e sorted.
Proof.
  induction sorted as [| y rest IH]; simpl.
  - intuition congruence.
  - destruct (Py.gtb (net_pnl y) (net_pnl x)); simpl;
      [rewrite IH |]; intuition congruence.
Qed.

Lemma in_sort_desc (e : SymbolEntry) (entries : list SymbolEntry) :
  In e (sort_desc entries) <-> In e entries.
Proof.
  induction entries as [| x rest IH]; simpl; [tauto |].
  rewrite in_insert_desc, IH. intuition congruence.
Qed.

(** The counters of every bucket of the report. *)
Lemma symbol_counts (records : list Income.t) (e : SymbolEntry) :
  In e (analyze_by_symbol records) ->
  trade_count e = count (realized_for (symbol e)) records
  /\ win_count e
     = count (fun r => realized_for (symbol e) r && Py.gtb (income_of r) 0)
         records
  /\ loss_count e
     = count (fun r => realized_for (symbol e) r && Py.leb (income_of r) 0)
         records
  /\ (win_count e + loss_count e = trade_count e)%nat.
Proof.
  unfold analyze_by_symbol. cbv zeta. rewrite in_sort_desc, in_map_iff.
  intros ([k st] & <- & Hin).
  destruct (loop_consistent records [] []) as (Hnd & Hempty & Hcounts).
  { split; [constructor |]. split; [reflexivity |].
    intros k' _. unfold counts, count. simpl. auto. }
  simpl in Hnd, Hempty, Hcounts.
  pose proof (in_find _ _ _ Hnd Hin) as Hfind.
  assert (Hk : k <> ""%string).
  { intros ->. rewrite Hempty in Hfind. discriminate. }
  specialize (Hcounts k Hk). rewrite Hfind in Hcounts. exact Hcounts.
Qed.

(** A pnl is a win, a loss or zero. *)
Lemma pnl_trichotomy (pnl_list : list Q) :
  (count (fun p => Py.gtb p 0) pnl_list + count (fun p => Py.ltb p 0) pnl_list
   + count (fun p => Qeq_bool p 0) pnl_list = length pnl_list)%nat.
Proof.
  unfold count. induction pnl_list as [| p rest IH]; simpl; [reflexivity |].
  destruct (Py.gtb p 0) eqn:Eg, (Py.ltb p 0) eqn:El, (Qeq_bool p 0) eqn:Ee;
    simpl; try lia; exfalso.
  all: try apply PyFacts.gtb_gt in Eg; try apply PyFacts.gtb_le in Eg.
  all: try apply PyFacts.ltb_lt in El; try apply PyFacts.ltb_ge in El.
  all: try apply Qeq_bool_iff in Ee; try apply Qeq_bool_neq in Ee.
  all: lra.
Qed.

(** C10: in every bucket of [analyze_by_symbol] the loss count is the
    number of the symbol's REALIZED_PNL records whose income is at most 0,
    those of income 0 included, the win count is the number of those of
    positive income, and win_count + loss_count = trade_count; one record
    of income 0 gives a bucket of one trade and one loss.  In the trade
    statistics of the risk analyzer the winners are the pnl above 0 and
    the losers those below 0, so that a trade of pnl 0 is in neither
    count. *)
Theorem zero_income_counts_as_loss
    (records : list Income.t) (trades : list Trade.t) :
  List.Forall
    (fun e =>
       (win_count e + loss_count e = trade_count e)%nat
       /\ trade_count e = count (realized_for (symbol e)) records
       /\ win_count e
          = count (fun r => realized_for (symbol e) r
                            && Py.gtb (income_of r) 0) records
       /\ loss_count e
          = count (fun r => realized_for (symbol e) r
                            && Py.leb (income_of r) 0) records)
    (analyze_by_symbol records)
  /\ map (fun e => (trade_count e, win_count e, loss_count e))
       (analyze_by_symbol [break_even]) = [(1, 0, 1)%nat]
  /\ (trades <> [] ->
      let pnl_list := RiskSpec.pnl_list_of trades in
      exists s,
        RiskAnalyzer.calculate_trade_stats trades = Some (RiskAnalyzer.Stats s)
        /\ RiskAnalyzer.winning_trades s = count (fun p => Py.gtb p 0) pnl_list
        /\ RiskAnalyzer.losing_trades s = count (fun p => Py.ltb p 0) pnl_list
        /\ (RiskAnalyzer.winning_trades s + RiskAnalyzer.losing_trades s
            + count (fun p => Qeq_bool p 0) pnl_list
            = RiskAnalyzer.total_trades s)%nat).
Proof.
  split; [| split].
  - apply List.Forall_forall. intros e Hin.
    destruct (symbol_counts records e Hin) as (Ht & Hw & Hl & Hsum).
    repeat split; assumption.
  - vm_compute. reflexivity.
  - intros Hne. cbv zeta.
    destruct (RiskFacts.calculate_trade_stats_runs trades Hne)
      as (s & _ & _ & _ & _ & Hs & _ & _ & _ & _ & Htot & Hwin & Hlos & _).
    exists s. split; [exact Hs |].
    rewrite Htot, Hwin, Hlos. repeat split.
    apply pnl_trichotomy.
Qed.

Lemma zero_income_counts_as_loss_witness :
  exists s,
    RiskAnalyzer.calculate_trade_stats [Trade.signal 0 None]
    = Some (RiskAnalyzer.Stats s)
    /\ RiskAnalyzer.winning_trades s = 0%nat
    /\ RiskAnalyzer.losing_trades s = 0%nat
    /\ RiskAnalyzer.total_trades s = 1%nat.
Proof.
  destruct (zero_income_counts_as_loss [] [Trade.signal 0 None])
    as (_ & _ & H).
  destruct H as (s & Hs & Hw & Hl & Ht); [discriminate |].
  exists s. split; [exact Hs |]. split; [exact Hw |]. split; [exact Hl |].
  rewrite <- Ht, Hw, Hl. reflexivity.
Defined.

End SymbolFacts.

(** ** The order and the buckets of the symbol report *)

Module SymbolReportFacts.
Import SymbolAnalyzer SymbolSpec SymbolReportSpec SymbolFacts.

Lemma insert_desc_perm (e : SymbolEntry) (sorted : list SymbolEntry) :
  Permutation (insert_desc e sorted) (e :: sorted).
Proof.
  induction sorted as [| x rest IH]; simpl; [reflexivity |].
  destruct (Py.gtb (net_pnl x) (net_pnl e)); [| reflexivity].
  rewrite IH. apply perm_swap.
Qed.

Lemma sort_desc_perm (entries : list SymbolEntry) :
  Permutation (sort_desc entries) entries.
Proof.
  induction entries as [| x rest IH]; simpl; [reflexivity |].
  rewrite insert_desc_perm, IH. reflexivity.
Qed.

Lemma insert_desc_sorted (e : SymbolEntry) (sorted : list SymbolEntry) :
  Sortedness.descending net_pnl sorted ->
  Sortedness.descending net_pnl (insert_desc e sorted).
Proof.
  unfold Sortedness.descending.
  induction 1 as [| x rest Hrest IH Hx]; simpl.
  - constructor; constructor.
  - destruct (Py.gtb (net_pnl x) (net_pnl e)) eqn:E.
    + apply PyFacts.gtb_gt in E. constructor; [exact IH |].
      apply List.Forall_forall. intros y Hy.
      apply in_insert_desc in Hy as [-> | Hy]; [lra |].
      rewrite List.Forall_forall in Hx. apply Hx, Hy.
    + apply PyFacts.gtb_le in E. constructor.
      * constructor; assumption.
      * constructor; [exact E |].
        rewrite List.Forall_forall in *. intros y Hy.
        specialize (Hx y Hy). lra.
Qed.

(** X1: the report of [analyze_by_symbol] is in descending order of
    net_pnl. *)
Theorem symbol_report_is_sorted (records : list Income.t) :
  Sortedness.descending net_pnl (analyze_by_symbol records).
Proof.
  unfold analyze_by_symbol. cbv zeta.
  induction (map symbol_entry _) as [| e rest IH]; simpl.
  - constructor.
  - apply insert_desc_sorted, IH.
Qed.

Lemma update_in_keys (l : list (string * SymbolStats)) (key k : string)
    (f : SymbolStats -> SymbolStats) :
  In k (map fst (update l key f)) <-> k = key \/ In k (map fst l).
Proof.
  rewrite update_keys. destruct (find l key) eqn:E.
  - split; [tauto |]. intros [-> | H]; [| exact H].
    destruct (in_dec string_dec key (map fst l)) as [Hin | Hout]; [exact Hin |].
    apply find_none in Hout. congruence.
  - rewrite in_app_iff. simpl. intuition congruence.
Qed.

Lemma accumulate_keys (l : list (string * SymbolStats)) (r : Income.t)
    (k : string) :
  In k (map fst (accumulate l r))
  <-> (bucketed_record r = true /\ k = key_of r) \/ In k (map fst l).
Proof.
  unfold accumulate, bucketed_record. fold (key_of r). cbv zeta.
  destruct (String.eqb (key_of r) ""); simpl.
  { intuition discriminate. }
  destruct (type_is r "REALIZED_PNL"); simpl.
  { rewrite update_in_keys. tauto. }
  destruct (type_is r "COMMISSION"); simpl.
  { rewrite update_in_keys. tauto. }
  intuition discriminate.
Qed.

Lemma loop_keys (records : list Income.t) :
  forall (l : list (string * SymbolStats)) (k : string),
  In k (map fst (fold_left accumulate records l))
  <-> (exists r, In r records /\ bucketed_record r = true /\ k = key_of r)
      \/ In k (map fst l).
Proof.
  induction records as [| r rest IH]; intros l k; simpl.
  - split; [auto | intros [(r & [] & _) | H]; exact H].
  - rewrite IH, accumulate_keys. split.
    + intros [(r' & Hin & Hb & Hk) | [[Hb Hk] | H]]; eauto 7.
    + intros [(r' & [<- | Hin] & Hb & Hk) | H]; eauto 7.
Qed.

Lemma symbols_of_entries (l : list (string * SymbolStats)) :
  map symbol (map symbol_entry l) = map fst l.
Proof.
  induction l as [| [k st] rest IH]; simpl; [| rewrite IH]; reflexivity.
Qed.

(** X2: the report of [analyze_by_symbol] has one entry per symbol, and
    its symbols are those of the records that have a non-empty symbol (an
    absent one reads UNKNOWN) and the income type REALIZED_PNL or
    COMMISSION. *)
Theorem one_bucket_per_symbol (records : list Income.t) :
  List.NoDup (map symbol (analyze_by_symbol records))
  /\ forall sym,
       In sym (map symbol (analyze_by_symbol records))
       <-> exists r, In r records /\ bucketed_record r = true
                     /\ sym = key_of r.
Proof.
  assert (Hperm : Permutation (map symbol (analyze_by_symbol records))
                    (map fst (fold_left accumulate records []))).
  { unfold analyze_by_symbol. cbv zeta.
    rewrite sort_desc_perm, symbols_of_entries. reflexivity. }
  split.
  - eapply Permutation_NoDup; [symmetry; exact Hperm |].
    destruct (loop_consistent records [] []) as (Hnd & _).
    + split; [constructor |]. split; [reflexivity |].
      intros k _. unfold counts, count. simpl. auto.
    + exact Hnd.
  - intros sym. split.
    + intros Hin. apply (Permutation_in _ Hperm) in Hin.
      apply loop_keys in Hin as [H | []]. exact H.
    + intros H. apply (Permutation_in _ (Permutation_sym Hperm)).
      apply loop_keys. left. exact H.
Qed.

End SymbolReportFacts.

(** ** Sorting and slicing *)

Module SortFacts.

Section Sorted.
Context {A : Type} (key : A -> Q).

Lemma insert_by_perm (reverse : bool) (x : A) (sorted : list A) :
  Permutation (Py.insert_by key reverse x sorted) (x :: sorted).
Proof.
  induction sorted as [| y rest IH]; simpl; [reflexivity |].
  destruct (Py.goes_before reverse (key y) (key x)); [| reflexivity].
  rewrite IH. apply perm_swap.
Qed.

Lemma sorted_perm (reverse : bool) (l : list A) :
  Permutation (Py.sorted key reverse l) l.
Proof.
  induction l as [| x rest IH]; simpl; [reflexivity |].
  rewrite insert_by_perm, IH. reflexivity.
Qed.

Lemma sorted_length (reverse : bool) (l : list A) :
  length (Py.sorted key reverse l) = length l.
Proof. apply Permutation_length, sorted_perm. Qed.

Lemma insert_by_descending (x : A) (sorted : list A) :
  Sortedness.descending key sorted ->
  Sortedness.descending key (Py.insert_by key true x sorted).
Proof.
  unfold Sortedness.descending.
  induction 1 as [| y rest Hrest IH Hy]; simpl.
  - constructor; constructor.
  - destruct (Py.ltb (key x) (key y)) eqn:E.
    + apply PyFacts.ltb_lt in E. constructor; [exact IH |].
      apply List.Forall_forall. intros z Hz.
      apply (Permutation_in _ (insert_by_perm true x rest)) in Hz.
      destruct Hz as [<- | Hz]; [lra |].
      rewrite List.Forall_forall in Hy. apply Hy, Hz.
    + apply PyFacts.ltb_ge in E. constructor.
      * constructor; assumption.
      * constructor; [exact E |].
        rewrite List.Forall_forall in *. intros z Hz.
        specialize (Hy z Hz). lra.
Qed.

Lemma insert_by_ascending (x : A) (sorted : list A) :
  Sortedness.ascending key sorted ->
  Sortedness.ascending key (Py.insert_by key false x sorted).
Proof.
  unfold Sortedness.ascending.
  induction 1 as [| y rest Hrest IH Hy]; simpl.
  - constructor; constructor.
  - destruct (Py.ltb (key y) (key x)) eqn:E.
    + apply PyFacts.ltb_lt in E. constructor; [exact IH |].
      apply List.Forall_forall. intros z Hz.
      apply (Permutation_in _ (insert_by_perm false x rest)) in Hz.
      destruct Hz as [<- | Hz]; [lra |].
      rewrite List.Forall_forall in Hy. apply Hy, Hz.
    + apply PyFacts.ltb_ge in E. constructor.
      * constructor; assumption.
      * constructor; [exact E |].
        rewrite List.Forall_forall in *. intros z Hz.
        specialize (Hy z Hz). lra.
Qed.

Lemma sorted_descending (l : list A) :
  Sortedness.descending key (Py.sorted key true l).
Proof.
  induction l as [| x rest IH]; simpl;
    [constructor | apply insert_by_descending, IH].
Qed.

Lemma sorted_ascending (l : list A) :
  Sortedness.ascending key (Py.sorted key false l).
Proof.
  induction l as [| x rest IH]; simpl;
    [constructor | apply insert_by_ascending, IH].
Qed.

End Sorted.

(** The two parts of a sorted list: each is sorted, and the first goes
    before the second. *)
Lemma strongly_sorted_app {A : Type} (R : A -> A -> Prop) (l1 l2 : list A) :
  StronglySorted R (l1 ++ l2) ->
  StronglySorted R l1 /\ StronglySorted R l2
  /\ forall a b, In a l1 -> In b l2 -> R a b.
Proof.
  induction l1 as [| x rest IH]; simpl; intros H.
  - split; [constructor |]. split; [exact H |]. intros a b [].
  - inversion H as [| ? ? Hs Hx]; subst.
    destruct (IH Hs) as (H1 & H2 & H12).
    rewrite List.Forall_forall in Hx.
    split; [| split; [exact H2 |]].
    + constructor; [exact H1 |]. apply List.Forall_forall.
      intros y Hy. apply Hx, in_or_app. left. exact Hy.
    + intros a b [<- | Ha] Hb.
      * apply Hx, in_or_app. right. exact Hb.
      * apply H12; assumption.
Qed.

Lemma in_firstn {A : Type} (x : A) (n : nat) (l : list A) :
  In x (firstn n l) -> In x l.
Proof.
  intros H. rewrite <- (firstn_skipn n l). apply in_or_app. left. exact H.
Qed.

Lemma in_skipn {A : Type} (x : A) (n : nat) (l : list A) :
  In x (skipn n l) -> In x l.
Proof.
  intros H. rewrite <- (firstn_skipn n l). apply in_or_app. right. exact H.
Qed.

Lemma slice_to_nonneg {A : Type} (l : list A) (n : Z) :
  (0 <= n)%Z -> Py.slice_to l n = firstn (Z.to_nat n) l.
Proof.
  intros H. unfold Py.slice_to. apply Z.leb_le in H. rewrite H. reflexivity.
Qed.

(** [l[-n:]] for a positive [n]: the last [n] elements. *)
Lemma slice_last {A : Type} (l : list A) (n : Z) :
  (0 < n)%Z ->
  Py.slice_from l (- n) = skipn (length l - Z.to_nat n) l.
Proof.
  intros H. unfold Py.slice_from.
  assert (E : (0 <=? - n)%Z = false) by (apply Z.leb_gt; lia).
  rewrite E, Z.opp_involutive. reflexivity.
Qed.

(** [l[-0:]] is the whole list. *)
Lemma slice_last_zero {A : Type} (l : list A) : Py.slice_from l (- 0) = l.
Proof. reflexivity. Qed.

End SortFacts.

(** ** Rankings *)

Module RankingFacts.
Import SortFacts.

Lemma rev_last {A : Type} (l : list A) (n : nat) :
  rev (skipn (length l - n) l) = firstn n (rev l).
Proof. rewrite firstn_rev. reflexivity. Qed.

(** X3: for a positive [n], [get_top_performers] gives the first [n]
    entries as top_profitable and the last [n] entries, last first, as
    top_losing (all of them when there are fewer than [n]); for [n = 0]
    top_profitable is empty and top_losing is the whole list reversed. *)
Theorem top_performers_slices (symbol_stats : list SymbolAnalyzer.SymbolEntry)
    (n : Z) :
  (0 < n)%Z ->
  let top := SymbolAnalyzer.get_top_performers symbol_stats n in
  SymbolAnalyzer.top_profitable top = firstn (Z.to_nat n) symbol_stats
  /\ SymbolAnalyzer.top_losing top = firstn (Z.to_nat n) (rev symbol_stats)
  /\ SymbolAnalyzer.get_top_performers symbol_stats 0
     = SymbolAnalyzer.mkTopPerformers [] (rev symbol_stats).
Proof.
  intros Hn. cbv zeta. unfold SymbolAnalyzer.get_top_performers. simpl.
  split; [apply slice_to_nonneg; lia |]. split.
  - destruct (Z.leb_spec n (Z.of_nat (length symbol_stats))) as [Hle | Hgt].
    + rewrite slice_last by exact Hn. apply rev_last.
    + rewrite firstn_all2; [reflexivity |]. rewrite length_rev. lia.
  - assert (E : (0 <=? Z.of_nat (length symbol_stats))%Z = true)
      by (apply Z.leb_le; lia).
    rewrite E. reflexivity.
Qed.

Lemma top_performers_slices_witness :
  map SymbolAnalyzer.symbol
    (SymbolAnalyzer.top_losing
       (SymbolAnalyzer.get_top_performers
          (SymbolAnalyzer.analyze_by_symbol
             [HourSpec.pnl_at 0 3; SymbolSpec.break_even]) 1))
  = map SymbolAnalyzer.symbol
      (firstn 1 (rev (SymbolAnalyzer.analyze_by_symbol
                        [HourSpec.pnl_at 0 3; SymbolSpec.break_even]))).
Proof.
  destruct (top_performers_slices
              (SymbolAnalyzer.analyze_by_symbol
                 [HourSpec.pnl_at 0 3; SymbolSpec.break_even]) 1)
    as (_ & H & _); [lia |].
  rewrite H. reflexivity.
Defined.

Lemma firstn_sorted {A : Type} (R : A -> A -> Prop) (l : list A) (n : nat) :
  StronglySorted R l -> StronglySorted R (firstn n l).
Proof.
  intros H. rewrite <- (firstn_skipn n l) in H.
  apply strongly_sorted_app in H. tauto.
Qed.

(** X4: for [n >= 0], [get_most_traded] gives [min n len] entries in
    descending order of trade_count; together with some others they are the
    entries given, and none of the others has more trades than one of
    them. *)
Theorem most_traded_are_the_largest
    (symbol_stats : list SymbolAnalyzer.SymbolEntry) (n : Z) :
  (0 <= n)%Z ->
  let key := fun e => Py.of_nat (SymbolAnalyzer.trade_count e) in
  let chosen := SymbolAnalyzer.get_most_traded symbol_stats n in
  length chosen = Nat.min (Z.to_nat n) (length symbol_stats)
  /\ Sortedness.descending key chosen
  /\ exists others,
       Permutation (chosen ++ others) symbol_stats
       /\ forall a b, In a chosen -> In b others ->
            (SymbolAnalyzer.trade_count b <= SymbolAnalyzer.trade_count a)%nat.
Proof.
  intros Hn. cbv zeta. unfold SymbolAnalyzer.get_most_traded. cbv zeta.
  set (key := fun e => Py.of_nat (SymbolAnalyzer.trade_count e)).
  rewrite slice_to_nonneg by exact Hn.
  pose proof (sorted_descending key symbol_stats) as Hs.
  split; [| split].
  - rewrite length_firstn, sorted_length. reflexivity.
  - apply firstn_sorted, Hs.
  - exists (skipn (Z.to_nat n) (Py.sorted key true symbol_stats)). split.
    + rewrite firstn_skipn. apply sorted_perm.
    + unfold Sortedness.descending in Hs.
      rewrite <- (firstn_skipn (Z.to_nat n)) in Hs.
      apply strongly_sorted_app in Hs as (_ & _ & H).
      intros a b Ha Hb. specialize (H a b Ha Hb).
      unfold key, Py.of_nat in H. rewrite <- Zle_Qle in H. lia.
Qed.

Lemma most_traded_are_the_largest_witness :
  length (SymbolAnalyzer.get_most_traded
            (SymbolAnalyzer.analyze_by_symbol
               [HourSpec.pnl_at 0 3; SymbolSpec.break_even]) 5) = 1%nat.
Proof.
  destruct (most_traded_are_the_largest
              (SymbolAnalyzer.analyze_by_symbol
                 [HourSpec.pnl_at 0 3; SymbolSpec.break_even]) 5)
    as (H & _); [lia |].
  rewrite H. reflexivity.
Defined.

(** X5: for [top_n > 0] with [2 * top_n] at most the number of entries,
    [identify_best_worst_hours] gives [top_n] best and [top_n] worst hours,
    each list in descending order of total_pnl, all of them entries given,
    and no worst hour has a larger total_pnl than a best hour.  For
    [top_n = 0] the best hours are empty and the worst hours are all the
    entries. *)
Theorem best_and_worst_hours (hourly_stats : list TimeAnalyzer.HourEntry)
    (top_n : Z) :
  (0 < top_n)%Z -> (2 * top_n <= Z.of_nat (length hourly_stats))%Z ->
  let r := TimeAnalyzer.identify_best_worst_hours hourly_stats top_n in
  length (TimeAnalyzer.best_hours r) = Z.to_nat top_n
  /\ length (TimeAnalyzer.worst_hours r) = Z.to_nat top_n
  /\ Sortedness.descending TimeAnalyzer.total_pnl (TimeAnalyzer.best_hours r)
  /\ Sortedness.descending TimeAnalyzer.total_pnl (TimeAnalyzer.worst_hours r)
  /\ (forall e, In e (TimeAnalyzer.best_hours r) \/ In e (TimeAnalyzer.worst_hours r) ->
        In e hourly_stats)
  /\ (forall a b, In a (TimeAnalyzer.best_hours r) ->
        In b (TimeAnalyzer.worst_hours r) ->
        TimeAnalyzer.total_pnl b <= TimeAnalyzer.total_pnl a)
  /\ Permutation
       (TimeAnalyzer.worst_hours
          (TimeAnalyzer.identify_best_worst_hours hourly_stats 0))
       hourly_stats
  /\ TimeAnalyzer.best_hours
       (TimeAnalyzer.identify_best_worst_hours hourly_stats 0) = [].
Proof.
  intros Hpos Hfit. cbv zeta.
  unfold TimeAnalyzer.identify_best_worst_hours. cbv zeta. simpl.
  set (sorted := Py.sorted TimeAnalyzer.total_pnl true hourly_stats).
  pose proof (sorted_descending TimeAnalyzer.total_pnl hourly_stats) as Hs.
  pose proof (sorted_perm TimeAnalyzer.total_pnl true hourly_stats) as Hp.
  pose proof (sorted_length TimeAnalyzer.total_pnl true hourly_stats) as Hl.
  fold sorted in Hs, Hp, Hl. unfold Sortedness.descending in *.
  rewrite slice_to_nonneg by lia. rewrite slice_last by exact Hpos.
  set (k := Z.to_nat top_n). set (d := (length sorted - k)%nat).
  assert (Hk : (k <= d)%nat) by (subst k d; lia).
  assert (Hsplit : exists mid,
             sorted = firstn k sorted ++ mid ++ skipn d sorted).
  { exists (skipn k (firstn d sorted)).
    rewrite <- (firstn_skipn d sorted) at 1.
    rewrite <- (firstn_skipn k (firstn d sorted)) at 1.
    rewrite firstn_firstn, Nat.min_l by exact Hk.
    rewrite <- app_assoc. reflexivity. }
  destruct Hsplit as [mid E].
  rewrite E in Hs. apply strongly_sorted_app in Hs as (H1 & Hrest & H12).
  apply strongly_sorted_app in Hrest as (_ & H2 & _).
  repeat split.
  - rewrite length_firstn. lia.
  - rewrite length_skipn. lia.
  - exact H1.
  - exact H2.
  - intros e [He | He]; apply (Permutation_in _ Hp).
    + eapply in_firstn, He.
    + eapply in_skipn, He.
  - intros a b Ha Hb. apply H12; [exact Ha |].
    apply in_or_app. right. exact Hb.
  - exact Hp.
Qed.

Lemma best_and_worst_hours_witness :
  exists result,
    TimeAnalyzer.analyze_by_hour [HourSpec.pnl_at 1700000000000 5] = Some result
    /\ length (TimeAnalyzer.best_hours
                 (TimeAnalyzer.identify_best_worst_hours result 3)) = 3%nat.
Proof.
  eexists. split; [vm_compute; reflexivity |].
  match goal with
  | |- length (TimeAnalyzer.best_hours
                 (TimeAnalyzer.identify_best_worst_hours ?l 3)) = _ =>
      destruct (best_and_worst_hours l 3) as (H & _);
        [lia | simpl; lia | exact H]
  end.
Defined.

End RankingFacts.

(** ** The counts of the hourly reports *)

Module HourCountFacts.
Import HourSpec HourCountSpec HourFacts SymbolSpec.

Lemma vn_hour_in_day (timestamp_ms : Z) :
  Datetime.representable timestamp_ms ->
  exists h, TimeAnalyzer.vn_hour timestamp_ms = Some h
            /\ ExecutionAnalyzer.vn_hour timestamp_ms = Some h
            /\ In h (seqZ 0 24).
Proof.
  intros Hr. unfold TimeAnalyzer.vn_hour, ExecutionAnalyzer.vn_hour.
  rewrite (utc_hour_representable _ Hr).
  eexists. split; [reflexivity |]. split; [reflexivity |].
  apply list_elem_of_In, elem_of_seqZ.
  unfold TimeAnalyzer.VN_OFFSET.
  pose proof (Z.mod_pos_bound ((timestamp_ms / 1000 / 3600) mod 24 + 7) 24).
  lia.
Qed.

(** One hour of the day takes the record. *)
Lemma one_hour_of_the_day (h0 : Z) :
  In h0 (seqZ 0 24) ->
  list_sum (map (fun h => if (h0 =? h)%Z then 1%nat else 0%nat) (seqZ 0 24))
  = 1%nat.
Proof.
  intros H. vm_compute in H.
  repeat (destruct H as [<- | H]; [reflexivity |]). contradiction.
Qed.

Lemma list_sum_add {A : Type} (f g : A -> nat) (l : list A) :
  list_sum (map (fun x => (f x + g x)%nat) l)
  = (list_sum (map f l) + list_sum (map g l))%nat.
Proof. induction l as [| x rest IH]; simpl; [reflexivity | lia]. Qed.

Lemma count_cons {A : Type} (P : A -> bool) (x : A) (l : list A) :
  count P (x :: l) = ((if P x then 1 else 0) + count P l)%nat.
Proof. unfold count. simpl. destruct (P x); reflexivity. Qed.

Section Time.
Import TimeAnalyzer.

Lemma stats_at_insert (m : gmap Z HourStats) (k h : Z) (v : HourStats) :
  stats_at (<[k := v]> m) h = if (k =? h)%Z then v else stats_at m h.
Proof.
  unfold stats_at. destruct (Z.eqb_spec k h) as [-> | Hne].
  - rewrite lookup_insert_eq. reflexivity.
  - rewrite lookup_insert_ne by exact Hne. reflexivity.
Qed.

(** What the loop adds to the counters of each hour. *)
Lemma time_loop_counts (records : list Income.t) :
  forall m m' : gmap Z HourStats,
  Py.for_each accumulate records m = Some m' ->
  forall h,
    trades (stats_at m' h)
    = (trades (stats_at m h) + count (lands_in h) records)%nat
    /\ wins (stats_at m' h)
       = (wins (stats_at m h)
          + count (fun r => lands_in h r && is_winning r) records)%nat.
Proof.
  induction records as [| r rest IH]; intros m m' Hrun h; simpl in Hrun.
  - injection Hrun as <-. unfold count. simpl. lia.
  - rewrite !count_cons. unfold accumulate in Hrun at 1.
    fold (income_timestamp r) in Hrun. unfold lands_in at 1 3.
    destruct (is_realized_pnl r); simpl in Hrun |- *.
    + destruct (vn_hour (income_timestamp r)) as [h0 |]; [| discriminate].
      destruct (IH _ _ Hrun h) as (Ht & Hw). rewrite Ht, Hw.
      rewrite !stats_at_insert. unfold is_winning.
      destruct (Z.eqb_spec h0 h) as [-> | Hne]; simpl; [| lia].
      destruct (Py.gtb (Py.get (Income.income r) 0) 0); simpl; lia.
    + destruct (IH _ _ Hrun h) as (Ht & Hw). lia.
Qed.

(** X6: when the timestamps name instants [datetime] holds, each entry of
    [analyze_by_hour] has as trade_count the number of REALIZED_PNL records
    of its Vietnam hour, and as win_count the number of those of positive
    income. *)
Theorem hourly_counts (income_records : list Income.t) :
  Forall (fun r => Datetime.representable (income_timestamp r)) income_records ->
  exists result,
    analyze_by_hour income_records = Some result
    /\ forall e, In e result ->
         trade_count e = count (lands_in (hour e)) income_records
         /\ win_count e
            = count (fun r => lands_in (hour e) r && is_winning r)
                income_records.
Proof.
  intros Hrep.
  destruct (accumulate_runs income_records
              (representable_convertible _ Hrep) ∅) as (m & Hrun & _).
  unfold analyze_by_hour. rewrite Hrun.
  eexists. split; [reflexivity |].
  intros e Hin. apply in_map_iff in Hin as (h & <- & _). simpl.
  destruct (time_loop_counts _ _ _ Hrun h) as (Ht & Hw).
  rewrite Ht, Hw. unfold stats_at. rewrite lookup_empty. simpl. lia.
Qed.

Lemma hourly_counts_witness :
  exists result,
    analyze_by_hour [pnl_at 1700000000000 5] = Some result
    /\ forall e, In e result ->
         trade_count e = count (lands_in (hour e)) [pnl_at 1700000000000 5].
Proof.
  destruct (hourly_counts [pnl_at 1700000000000 5]) as (result & Hr & Hc).
  - constructor; [| constructor].
    unfold Datetime.representable, income_timestamp,
      Datetime.min_seconds, Datetime.max_seconds.
    simpl. lia.
  - exists result. split; [exact Hr |]. intros e He. apply (Hc e He).
Defined.

Lemma realized_lands_once (records : list Income.t) :
  Forall (fun r => Datetime.representable (income_timestamp r)) records ->
  list_sum (map (fun h => count (lands_in h) records) (seqZ 0 24))
  = count is_realized_pnl records.
Proof.
  induction 1 as [| r rest Hr _ IH].
  - unfold count. simpl. reflexivity.
  - rewrite count_cons.
    erewrite map_ext; [| intros h; apply count_cons].
    rewrite list_sum_add, IH. f_equal.
    unfold lands_in.
    destruct (vn_hour_in_day _ Hr) as (h0 & Eh & _ & Hin). rewrite Eh.
    destruct (is_realized_pnl r); simpl.
    + apply one_hour_of_the_day, Hin.
    + reflexivity.
Qed.

(** X7: when the timestamps name instants [datetime] holds, the trade
    counts of the 24 entries of [analyze_by_hour] add up to the number of
    REALIZED_PNL records: each is counted in one hour. *)
Theorem hourly_counts_total (income_records : list Income.t) :
  Forall (fun r => Datetime.representable (income_timestamp r)) income_records ->
  exists result,
    analyze_by_hour income_records = Some result
    /\ list_sum (map trade_count result)
       = count is_realized_pnl income_records.
Proof.
  intros Hrep.
  destruct (accumulate_runs income_records
              (representable_convertible _ Hrep) ∅) as (m & Hrun & _).
  unfold analyze_by_hour. rewrite Hrun.
  eexists. split; [reflexivity |].
  rewrite map_map, <- (realized_lands_once _ Hrep).
  f_equal. apply map_ext. intros h. simpl.
  destruct (time_loop_counts _ _ _ Hrun h) as (Ht & _).
  rewrite Ht. unfold stats_at. rewrite lookup_empty. reflexivity.
Qed.

Lemma hourly_counts_total_witness :
  exists result,
    analyze_by_hour [pnl_at 1700000000000 5; undated] = Some result
    /\ list_sum (map trade_count result) = 2%nat.
Proof.
  destruct (hourly_counts_total [pnl_at 1700000000000 5; undated])
    as (result & Hr & Hc).
  - repeat constructor; unfold income_timestamp; simpl;
      unfold Datetime.min_seconds, Datetime.max_seconds; lia.
  - exists result. split; [exact Hr | exact Hc].
Defined.

End Time.

Section Execution.
Import ExecutionAnalyzer.

Lemma exec_stats_at_insert (m : gmap Z HourStats) (k h : Z) (v : HourStats) :
  stats_at (<[k := v]> m) h = if (k =? h)%Z then v else stats_at m h.
Proof.
  unfold stats_at. destruct (Z.eqb_spec k h) as [-> | Hne].
  - rewrite lookup_insert_eq. reflexivity.
  - rewrite lookup_insert_ne by exact Hne. reflexivity.
Qed.

Lemma exec_loop_counts (trades : list Trade.t) :
  forall m m' : gmap Z HourStats,
  Py.for_each accumulate trades m = Some m' ->
  forall h,
    trade_count (stats_at m' h)
    = (trade_count (stats_at m h) + count (fills_in h) trades)%nat.
Proof.
  induction trades as [| t rest IH]; intros m m' Hrun h; simpl in Hrun.
  - injection Hrun as <-. unfold count. simpl. lia.
  - rewrite count_cons. unfold accumulate in Hrun at 1.
    fold (trade_timestamp t) in Hrun. cbv zeta in Hrun. unfold fills_in at 1.
    destruct (trade_timestamp t =? 0)%Z; simpl in Hrun |- *.
    + rewrite (IH _ _ Hrun h). lia.
    + destruct (vn_hour (trade_timestamp t)) as [h0 |]; [| discriminate].
      rewrite (IH _ _ Hrun h), exec_stats_at_insert.
      destruct (Z.eqb_spec h0 h) as [-> | Hne]; simpl; lia.
Qed.

Lemma dated_fills_once (trades : list Trade.t) :
  Forall (fun t => Datetime.representable (trade_timestamp t)) trades ->
  list_sum (map (fun h => count (fills_in h) trades) (seqZ 0 24))
  = count dated trades.
Proof.
  induction 1 as [| t rest Ht _ IH].
  - unfold count. simpl. reflexivity.
  - rewrite count_cons.
    erewrite map_ext; [| intros h; apply count_cons].
    rewrite list_sum_add, IH. f_equal.
    unfold fills_in, dated.
    destruct (vn_hour_in_day _ Ht) as (h0 & _ & Eh & Hin). rewrite Eh.
    destruct (trade_timestamp t =? 0)%Z; simpl.
    + reflexivity.
    + apply one_hour_of_the_day, Hin.
Qed.

(** X8: when the timestamps name instants [datetime] holds, each entry of
    [analyze_execution_by_hour] has as trade_count the number of trades of
    its Vietnam hour whose timestamp is not 0, and the 24 counts add up to
    the number of trades whose timestamp is not 0. *)
Theorem execution_hourly_counts (trades : list Trade.t) :
  Forall (fun t => Datetime.representable (trade_timestamp t)) trades ->
  exists result,
    analyze_execution_by_hour trades = Some result
    /\ (forall e, In e result ->
          e_trade_count e = count (fills_in (hour e)) trades)
    /\ list_sum (map e_trade_count result) = count dated trades.
Proof.
  intros Hrep.
  destruct (exec_accumulate_runs trades
              (representable_convertible_trades _ Hrep) ∅) as (m & Hrun & _).
  unfold analyze_execution_by_hour. rewrite Hrun.
  assert (Hc : forall h, trade_count (stats_at m h) = count (fills_in h) trades).
  { intros h. rewrite (exec_loop_counts _ _ _ Hrun h).
    unfold stats_at. rewrite lookup_empty. reflexivity. }
  eexists. split; [reflexivity |]. split.
  - intros e Hin. apply in_map_iff in Hin as (h & <- & _). simpl. apply Hc.
  - rewrite map_map, <- (dated_fills_once _ Hrep).
    f_equal. apply map_ext. intros h. simpl. apply Hc.
Qed.

Lemma execution_hourly_counts_witness :
  exists result,
    analyze_execution_by_hour
      [Trade.mk (Some 2) (Some 3) None None (Some 1700000000000%Z) None;
       Trade.signal 1 None] = Some result
    /\ list_sum (map e_trade_count result) = 1%nat.
Proof.
  destruct (execution_hourly_counts
              [Trade.mk (Some 2) (Some 3) None None (Some 1700000000000%Z) None;
               Trade.signal 1 None])
    as (result & Hr & _ & Hc).
  - repeat constructor; unfold trade_timestamp; simpl;
      unfold Datetime.min_seconds, Datetime.max_seconds; lia.
  - exists result. split; [exact Hr | exact Hc].
Defined.

End Execution.

End HourCountFacts.

(** ** Drawdown of a curve that never falls *)

Module DrawdownFacts.
Import RiskAnalyzer RiskSpec RiskFacts.

Lemma no_fall_step (st : DrawdownState) (point : EquityPoint.t) :
  peak st <= balance_of point ->
  max_dd_pct st = 0 -> max_dd_usd st = 0 ->
  exists st', drawdown_step st point = Some st'
              /\ peak st' == balance_of point
              /\ max_dd_pct st' = 0 /\ max_dd_usd st' = 0.
Proof.
  intros Hge Hpct Husd. unfold drawdown_step. fold (balance_of point). cbv zeta.
  destruct (Py.gtb (balance_of point) (peak st)) eqn:Enew.
  - eexists. split; [reflexivity |]. simpl. split; [reflexivity | auto].
  - apply PyFacts.gtb_le in Enew.
    assert (Heq : peak st - balance_of point == 0) by lra.
    destruct (Py.gtb (peak st) 0) eqn:Epos.
    + apply PyFacts.gtb_gt in Epos. rewrite div_some by lra. simpl.
      assert (Hz : Py.gtb ((peak st - balance_of point) / peak st * 100)
                     (max_dd_pct st) = false).
      { apply PyFacts.gtb_le. rewrite Hpct, Heq. unfold Qdiv.
        assert (E : 0 * / peak st * 100 == 0) by ring. rewrite E. lra. }
      rewrite Hz. eexists. split; [reflexivity |]. simpl.
      split; [lra | auto].
    + simpl. rewrite Hpct. change (Py.gtb 0 0) with false.
      eexists. split; [reflexivity |]. simpl. split; [lra | auto].
Qed.

Lemma no_fall_loop (curve : list EquityPoint.t) :
  Sortedness.ascending balance_of curve ->
  forall st,
  Forall (fun p => peak st <= balance_of p) curve ->
  max_dd_pct st = 0 -> max_dd_usd st = 0 ->
  exists st', Py.for_each drawdown_step curve st = Some st'
              /\ max_dd_pct st' = 0 /\ max_dd_usd st' = 0.
Proof.
  unfold Sortedness.ascending.
  induction 1 as [| point rest Hrest IH Hpoint]; intros st Hst Hpct Husd; simpl.
  - exists st. auto.
  - inversion Hst as [| ? ? Hge _]; subst.
    destruct (no_fall_step st point Hge Hpct Husd)
      as (st1 & E1 & Hpeak & Hpct1 & Husd1).
    rewrite E1. apply IH; [| exact Hpct1 | exact Husd1].
    rewrite List.Forall_forall in *. intros p Hp.
    specialize (Hpoint p Hp). simpl in Hpoint. lra.
Qed.

(** X9: for an equity curve whose balances never fall from one point to
    the next, [calculate_max_drawdown] reports a maximum drawdown of 0, in
    percent and in dollars. *)
Theorem no_fall_no_drawdown (equity_curve : list EquityPoint.t) :
  Sortedness.ascending balance_of equity_curve ->
  exists report,
    calculate_max_drawdown equity_curve = Some report
    /\ max_drawdown_pct report == 0
    /\ max_drawdown_usd report == 0.
Proof.
  intros Hasc. unfold calculate_max_drawdown.
  destruct equity_curve as [| first [| second rest]].
  - eexists. split; [reflexivity |]. split; reflexivity.
  - eexists. split; [reflexivity |]. split; reflexivity.
  - set (st0 := mkDrawdownState _ 0 0 None None).
    destruct (no_fall_loop (first :: second :: rest) Hasc st0)
      as (st & Erun & Hpct & Husd); [| reflexivity | reflexivity |].
    + unfold Sortedness.ascending in Hasc.
      inversion Hasc as [| ? ? _ Hfirst]; subst.
      constructor; [simpl; fold (balance_of first); lra |].
      rewrite List.Forall_forall in *. intros p Hp.
      specialize (Hfirst p Hp). simpl in *. exact Hfirst.
    + rewrite Erun. simpl. eexists. split; [reflexivity |]. simpl.
      rewrite Hpct, Husd. split; reflexivity.
Qed.

Lemma no_fall_no_drawdown_witness :
  exists report,
    calculate_max_drawdown (curve_of [100; 100; 150]) = Some report
    /\ max_drawdown_pct report == 0
    /\ max_drawdown_usd report == 0.
Proof.
  apply (no_fall_no_drawdown (curve_of [100; 100; 150])).
  unfold Sortedness.ascending, curve_of. simpl.
  repeat constructor; unfold balance_of; simpl; discriminate.
Defined.

End DrawdownFacts.

(** ** What the streaks never exceed *)

Module StreakBoundFacts.
Import RiskAnalyzer StreakSpec StreakFacts SymbolSpec.

Lemma loop_bounded (pnl_list : list Q) :
  bounded (streak_loop pnl_list) pnl_list.
Proof.
  induction pnl_list as [| p rest IH] using rev_ind.
  - unfold bounded, count. simpl. lia.
  - rewrite streak_loop_snoc. unfold bounded in *.
    rewrite !SymbolFacts.count_snoc. unfold is_win, is_loss in *.
    destruct IH as (H1 & H2 & H3 & H4 & H5).
    destruct (Qlt_le_dec 0 p) as [Hpos | Hle].
    + rewrite (step_win _ _ Hpos). simpl.
      assert (E1 : Py.gtb p 0 = true) by (apply PyFacts.gtb_gt; exact Hpos).
      assert (E2 : Py.ltb p 0 = false) by (apply PyFacts.ltb_ge; lra).
      rewrite E1, E2. lia.
    + destruct (Qlt_le_dec p 0) as [Hneg | Hge].
      * rewrite (step_loss _ _ Hneg). simpl.
        assert (E1 : Py.gtb p 0 = false) by (apply PyFacts.gtb_le; lra).
        assert (E2 : Py.ltb p 0 = true) by (apply PyFacts.ltb_lt; exact Hneg).
        rewrite E1, E2. lia.
      * assert (Hz : p == 0) by lra. rewrite (step_zero _ _ Hz).
        assert (E1 : Py.gtb p 0 = false) by (apply PyFacts.gtb_le; lra).
        assert (E2 : Py.ltb p 0 = false) by (apply PyFacts.ltb_ge; lra).
        rewrite E1, E2. lia.
Qed.

(** X10: in the report of [_calculate_streaks], max_win_streak is at most
    the number of wins (pnl > 0) and max_loss_streak at most the number of
    losses (pnl < 0), so that together they are at most the number of
    trades, and current_streak lies between -max_loss_streak and
    max_win_streak. *)
Theorem streaks_are_bounded (pnl_list : list Q) :
  let r := _calculate_streaks pnl_list in
  (max_win_streak r <= count is_win pnl_list)%nat
  /\ (max_loss_streak r <= count is_loss pnl_list)%nat
  /\ (max_win_streak r + max_loss_streak r <= length pnl_list)%nat
  /\ (- Z.of_nat (max_loss_streak r) <= current_streak r
      <= Z.of_nat (max_win_streak r))%Z.
Proof.
  cbv zeta. rewrite report_of_loop. cbv zeta. simpl.
  destruct (loop_bounded pnl_list) as (H1 & H2 & H3 & H4 & H5).
  pose proof (SymbolFacts.pnl_trichotomy pnl_list) as Htri.
  fold is_win is_loss in Htri.
  change (count (fun p => Py.gtb p 0) pnl_list) with (count is_win pnl_list) in Htri.
  change (count (fun p => Py.ltb p 0) pnl_list) with (count is_loss pnl_list) in Htri.
  repeat split; try lia.
  - destruct (0 <? current_win_streak _)%nat; lia.
  - destruct (0 <? current_win_streak _)%nat; lia.
Qed.

End StreakBoundFacts.

(** ** Sums and the trade statistics *)

Module TradeStatsFacts.
Import RiskAnalyzer RiskSpec RiskFacts TradeStatsSpec.

Lemma sum_acc (l : list Q) (a : Q) : fold_left Qplus l a == a + Py.sum l.
Proof.
  unfold Py.sum. revert a. induction l as [| x rest IH]; intros a; simpl.
  - ring.
  - rewrite (IH (a + x)), (IH (0 + x)). ring.
Qed.

Lemma sum_cons (x : Q) (l : list Q) : Py.sum (x :: l) == x + Py.sum l.
Proof. unfold Py.sum at 1. simpl. rewrite sum_acc. ring. Qed.

Lemma sum_nil : Py.sum [] == 0.
Proof. reflexivity. Qed.

(** The pnl of zero add nothing: the total is that of the winners and the
    losers. *)
Lemma sum_split (pnl_list : list Q) :
  Py.sum pnl_list
  == Py.sum (winners_of pnl_list) + Py.sum (losers_of pnl_list).
Proof.
  unfold winners_of, losers_of.
  induction pnl_list as [| p rest IH]; simpl; [reflexivity |].
  rewrite sum_cons, IH.
  destruct (Py.gtb p 0) eqn:Eg, (Py.ltb p 0) eqn:El; rewrite ?sum_cons.
  - apply PyFacts.gtb_gt in Eg. apply PyFacts.ltb_lt in El. lra.
  - ring.
  - ring.
  - apply PyFacts.gtb_le in Eg. apply PyFacts.ltb_ge in El.
    assert (Hz : p == 0) by lra. rewrite Hz. ring.
Qed.

Lemma sum_winners_nonneg (pnl_list : list Q) :
  0 <= Py.sum (winners_of pnl_list).
Proof.
  unfold winners_of.
  induction pnl_list as [| p rest IH]; simpl; [discriminate |].
  destruct (Py.gtb p 0) eqn:Eg; [| exact IH].
  apply PyFacts.gtb_gt in Eg. rewrite sum_cons. lra.
Qed.

Lemma sum_losers_nonpos (pnl_list : list Q) :
  Py.sum (losers_of pnl_list) <= 0.
Proof.
  unfold losers_of.
  induction pnl_list as [| p rest IH]; simpl; [discriminate |].
  destruct (Py.ltb p 0) eqn:El; [| exact IH].
  apply PyFacts.ltb_lt in El. rewrite sum_cons. lra.
Qed.

Lemma gross_profit_is_sum (pnl_list : list Q) :
  gross_profit_of (winners_of pnl_list) == Py.sum (winners_of pnl_list).
Proof. destruct (winners_of pnl_list); reflexivity. Qed.

Lemma gross_loss_is_sum (pnl_list : list Q) :
  gross_loss_of (losers_of pnl_list) == - Py.sum (losers_of pnl_list).
Proof.
  pose proof (sum_losers_nonpos pnl_list) as H.
  destruct (losers_of pnl_list) as [| l ls]; [reflexivity |].
  unfold gross_loss_of. rewrite Qabs_neg by exact H. reflexivity.
Qed.

Lemma average_of_eq (total : Q) (xs : list Q) :
  average_of total xs = Some (mean_or_zero total xs).
Proof.
  destruct xs as [| x rest]; [reflexivity |].
  unfold average_of, mean_or_zero. apply div_by_length. simpl. lia.
Qed.

(** The fields of the report that are rounded sums and rates. *)
Lemma calculate_trade_stats_fields (trades : list Trade.t) :
  trades <> [] ->
  let pnl_list := pnl_list_of trades in
  let winners := winners_of pnl_list in
  let losers := losers_of pnl_list in
  let rate := Py.of_nat (length winners) / Py.of_nat (length pnl_list) * 100 in
  let avg_w := mean_or_zero (gross_profit_of winners) winners in
  let avg_l := mean_or_zero (gross_loss_of losers) losers in
  exists s,
    calculate_trade_stats trades = Some (Stats s)
    /\ win_rate s = Py.round rate 1
    /\ gross_profit s = Py.round (gross_profit_of winners) 2
    /\ gross_loss s = Py.round (gross_loss_of losers) 2
    /\ net_profit s
       = Py.round (gross_profit_of winners - gross_loss_of losers) 2
    /\ expectancy_per_trade s
       = Py.round (rate / 100 * avg_w - (100 - rate) / 100 * avg_l) 4.
Proof.
  intros Hne. destruct trades as [| t rest]; [contradiction |].
  cbv zeta. unfold calculate_trade_stats. cbv zeta.
  fold (pnl_list_of (t :: rest)).
  set (pnl_list := pnl_list_of (t :: rest)).
  set (winners := winners_of pnl_list).
  set (losers := losers_of pnl_list).
  destruct (ratio_defined (gross_profit_of winners) (gross_loss_of losers))
    as (pf & Hpf & _).
  destruct (ratio_defined (mean_or_zero (gross_profit_of winners) winners)
              (mean_or_zero (gross_loss_of losers) losers)) as (rr & Hrr & _).
  assert (Hwr : match pnl_list with
                | [] => Some 0
                | _ :: _ =>
                    q ← Py.div (Py.of_nat (length winners))
                               (Py.of_nat (length pnl_list));
                    Some (q * 100)
                end
                = Some (Py.of_nat (length winners)
                        / Py.of_nat (length pnl_list) * 100)).
  { rewrite div_by_length by (subst pnl_list; simpl; lia).
    subst pnl_list. reflexivity. }
  eexists. split.
  { rewrite Hwr, !average_of_eq, Hpf. simpl. rewrite Hrr. reflexivity. }
  repeat split.
Qed.

(** X11: the net_profit of the report of a non-empty list of trades is
    the total of the realized pnl of the trades, rounded to 2 decimals. *)
Theorem net_profit_is_total_pnl (trades : list Trade.t) :
  trades <> [] ->
  exists s,
    calculate_trade_stats trades = Some (Stats s)
    /\ net_profit s == Py.round (Py.sum (pnl_list_of trades)) 2.
Proof.
  intros Hne.
  destruct (calculate_trade_stats_fields trades Hne)
    as (s & Hs & _ & _ & _ & Hnet & _).
  exists s. split; [exact Hs |]. rewrite Hnet.
  apply PyFacts.round_compat.
  rewrite gross_profit_is_sum, gross_loss_is_sum, (sum_split (pnl_list_of trades)).
  ring.
Qed.

Lemma net_profit_is_total_pnl_witness :
  exists s,
    calculate_trade_stats
      [Trade.signal 10 None; Trade.signal (-5) None; Trade.signal 0 None]
    = Some (Stats s)
    /\ net_profit s == 5.
Proof.
  destruct (net_profit_is_total_pnl
              [Trade.signal 10 None; Trade.signal (-5) None; Trade.signal 0 None])
    as (s & Hs & Hn); [discriminate |].
  exists s. split; [exact Hs |]. rewrite Hn. reflexivity.
Defined.

Lemma of_nat_add (a b : nat) : Py.of_nat (a + b) == Py.of_nat a + Py.of_nat b.
Proof. unfold Py.of_nat. rewrite Nat2Z.inj_add, inject_Z_plus. reflexivity. Qed.

Lemma wins_and_losses_are_all (pnl_list : list Q) :
  no_break_even pnl_list ->
  length pnl_list
  = (length (winners_of pnl_list) + length (losers_of pnl_list))%nat.
Proof.
  intros Hno. pose proof (SymbolFacts.pnl_trichotomy pnl_list) as Htri.
  unfold SymbolSpec.count in Htri. fold (winners_of pnl_list) in Htri.
  fold (losers_of pnl_list) in Htri.
  assert (Hz : List.filter (fun p => Qeq_bool p 0) pnl_list = []).
  { clear Htri. induction Hno as [| p rest Hp _ IH]; simpl; [reflexivity |].
    destruct (Qeq_bool p 0) eqn:E; [| exact IH].
    apply Qeq_bool_iff in E. contradiction. }
  rewrite Hz in Htri. simpl in Htri. lia.
Qed.

(** The expectancy formula of the code, on the numbers of winners and
    losers and their totals, when every trade is one or the other. *)
Lemma expectancy_formula (w l gp gl : Q) :
  0 <= w -> 0 <= l -> 0 < w + l ->
  (w == 0 -> gp == 0) -> (l == 0 -> gl == 0) ->
  let rate := w / (w + l) * 100 in
  let avg_w := if Qeq_bool w 0 then 0 else gp / w in
  let avg_l := if Qeq_bool l 0 then 0 else gl / l in
  rate / 100 * avg_w - (100 - rate) / 100 * avg_l == (gp - gl) / (w + l).
Proof.
  intros Hw Hl Hn Hgp Hgl. cbv zeta.
  destruct (Qeq_bool w 0) eqn:Ew, (Qeq_bool l 0) eqn:El.
  - apply Qeq_bool_iff in Ew. apply Qeq_bool_iff in El. lra.
  - apply Qeq_bool_iff in Ew. apply Qeq_bool_neq in El.
    rewrite (Hgp Ew), Ew. field. lra.
  - apply Qeq_bool_neq in Ew. apply Qeq_bool_iff in El.
    rewrite (Hgl El), El. field. lra.
  - apply Qeq_bool_neq in Ew. apply Qeq_bool_neq in El.
    field. repeat split; lra.
Qed.

Lemma mean_or_zero_by_count (total : Q) (xs : list Q) :
  mean_or_zero total xs
  = if Qeq_bool (Py.of_nat (length xs)) 0 then 0
    else total / Py.of_nat (length xs).
Proof.
  destruct xs as [| x rest]; [reflexivity |].
  unfold mean_or_zero.
  destruct (Qeq_bool (Py.of_nat (length (x :: rest))) 0) eqn:E; [| reflexivity].
  apply Qeq_bool_iff in E.
  pose proof (of_nat_pos (length (x :: rest))) as H. simpl in H.
  assert (0 < Py.of_nat (S (length rest))) by (apply H; lia).
  simpl in E. lra.
Qed.

(** X12: when no trade of a non-empty list has a pnl of 0, the
    expectancy_per_trade of the report is the mean realized pnl of the
    trades, rounded to 4 decimals. *)
Theorem expectancy_is_mean_pnl (trades : list Trade.t) :
  trades <> [] ->
  no_break_even (pnl_list_of trades) ->
  exists s,
    calculate_trade_stats trades = Some (Stats s)
    /\ expectancy_per_trade s
       == Py.round (Py.sum (pnl_list_of trades)
                    / Py.of_nat (length trades)) 4.
Proof.
  intros Hne Hno.
  destruct (calculate_trade_stats_fields trades Hne)
    as (s & Hs & _ & _ & _ & _ & Hexp).
  exists s. split; [exact Hs |]. rewrite Hexp.
  apply PyFacts.round_compat.
  set (pnl_list := pnl_list_of trades) in *.
  assert (Hlen : length trades = length pnl_list)
    by (subst pnl_list; unfold pnl_list_of; rewrite length_map; reflexivity).
  pose proof (wins_and_losses_are_all pnl_list Hno) as Hall.
  rewrite Hlen, !mean_or_zero_by_count, Hall, of_nat_add.
  rewrite (sum_split pnl_list).
  pose proof (gross_profit_is_sum pnl_list) as Hgp.
  pose proof (gross_loss_is_sum pnl_list) as Hgl.
  set (winners := winners_of pnl_list) in *.
  set (losers := losers_of pnl_list) in *.
  assert (Hpos : 0 < Py.of_nat (length winners) + Py.of_nat (length losers)).
  { rewrite <- of_nat_add, <- Hall. apply of_nat_pos.
    rewrite <- Hlen. destruct trades; [contradiction | simpl; lia]. }
  assert (Hw0 : 0 <= Py.of_nat (length winners)).
  { unfold Py.of_nat. replace 0 with (inject_Z 0) by reflexivity.
    rewrite <- Zle_Qle. lia. }
  assert (Hl0 : 0 <= Py.of_nat (length losers)).
  { unfold Py.of_nat. replace 0 with (inject_Z 0) by reflexivity.
    rewrite <- Zle_Qle. lia. }
  rewrite (expectancy_formula _ _ _ _ Hw0 Hl0 Hpos).
  - rewrite Hgp, Hgl. unfold Qdiv. ring.
  - intros Hz. destruct winners; [reflexivity |].
    exfalso. pose proof (of_nat_pos (length (q :: winners))) as H.
    simpl in H, Hz. assert (0 < Py.of_nat (S (length winners))) by (apply H; lia).
    lra.
  - intros Hz. destruct losers; [reflexivity |].
    exfalso. pose proof (of_nat_pos (length (q :: losers))) as H.
    simpl in H, Hz. assert (0 < Py.of_nat (S (length losers))) by (apply H; lia).
    lra.
Qed.

Lemma expectancy_is_mean_pnl_witness :
  exists s,
    calculate_trade_stats
      [Trade.signal 10 None; Trade.signal (-5) None; Trade.signal 10 None]
    = Some (Stats s)
    /\ expectancy_per_trade s == 5.
Proof.
  destruct (expectancy_is_mean_pnl
              [Trade.signal 10 None; Trade.signal (-5) None; Trade.signal 10 None])
    as (s & Hs & He).
  - discriminate.
  - repeat constructor; discriminate.
  - exists s. split; [exact Hs |]. rewrite He. reflexivity.
Defined.

Lemma filter_length_le {A : Type} (P : A -> bool) (l : list A) :
  (length (List.filter P l) <= length l)%nat.
Proof.
  induction l as [| x rest IH]; simpl; [lia |].
  destruct (P x); simpl; lia.
Qed.

(** X13: in the report of a non-empty list of trades the win_rate is
    between 0 and 100, and gross_profit and gross_loss are not negative. *)
Theorem trade_stats_ranges (trades : list Trade.t) :
  trades <> [] ->
  exists s,
    calculate_trade_stats trades = Some (Stats s)
    /\ 0 <= win_rate s <= 100
    /\ 0 <= gross_profit s
    /\ 0 <= gross_loss s.
Proof.
  intros Hne.
  destruct (calculate_trade_stats_fields trades Hne)
    as (s & Hs & Hwr & Hgp & Hgl & _ & _).
  exists s. split; [exact Hs |].
  set (pnl_list := pnl_list_of trades) in *.
  assert (E0 : forall n, inject_Z 0 / inject_Z (10 ^ Z.of_nat n) == 0).
  { intros n. unfold Qdiv. ring. }
  split; [| split].
  - rewrite Hwr.
    set (w := Py.of_nat (length (winners_of pnl_list))).
    set (n := Py.of_nat (length pnl_list)).
    assert (Hn : 0 < n).
    { subst n. apply of_nat_pos. subst pnl_list. unfold pnl_list_of.
      rewrite length_map. destruct trades; [contradiction | simpl; lia]. }
    assert (Hw : 0 <= w <= n).
    { subst w n. unfold Py.of_nat.
      pose proof (filter_length_le (fun p => Py.gtb p 0) pnl_list) as Hle.
      fold (winners_of pnl_list) in Hle.
      replace 0 with (inject_Z 0) by reflexivity.
      rewrite <- !Zle_Qle. lia. }
    assert (Hq0 : 0 <= w / n) by (apply Qle_shift_div_l; lra).
    assert (Hq1 : w / n <= 1) by (apply Qle_shift_div_r; lra).
    pose proof (PyFacts.round_ge (w / n * 100) 1 0) as Hge.
    pose proof (PyFacts.round_le (w / n * 100) 1 1000) as Hle.
    assert (E1 : inject_Z 1000 / inject_Z (10 ^ Z.of_nat 1) == 100) by reflexivity.
    rewrite (E0 1%nat) in Hge. rewrite E1 in Hle.
    split; [apply Hge | apply Hle]; lra.
  - rewrite Hgp.
    pose proof (PyFacts.round_ge (gross_profit_of (winners_of pnl_list)) 2 0) as Hge.
    rewrite (E0 2%nat) in Hge. apply Hge.
    rewrite gross_profit_is_sum. apply sum_winners_nonneg.
  - rewrite Hgl.
    pose proof (PyFacts.round_ge (gross_loss_of (losers_of pnl_list)) 2 0) as Hge.
    rewrite (E0 2%nat) in Hge. apply Hge.
    rewrite gross_loss_is_sum.
    pose proof (sum_losers_nonpos pnl_list). lra.
Qed.

Lemma trade_stats_ranges_witness :
  exists s,
    calculate_trade_stats [Trade.signal 10 None; Trade.signal (-5) None]
    = Some (Stats s)
    /\ 0 <= win_rate s <= 100.
Proof.
  destruct (trade_stats_ranges [Trade.signal 10 None; Trade.signal (-5) None])
    as (s & Hs & Hw & _); [discriminate |].
  exists s. split; [exact Hs | exact Hw].
Defined.

End TradeStatsFacts.

(** ** Sharpe ratio *)

Module SharpeFacts.
Import RiskAnalyzer RiskFacts SharpeSpec TradeStatsFacts.

Lemma square_nonneg (a : Q) : 0 <= a * a.
Proof.
  destruct (Qlt_le_dec a 0) as [Hneg | Hpos].
  - assert (E : a * a == (- a) * (- a)) by ring. rewrite E.
    apply Qmult_le_0_compat; lra.
  - apply Qmult_le_0_compat; exact Hpos.
Qed.

Lemma mult_nonpos_nonneg (a b : Q) : a <= 0 -> 0 <= b -> a * b <= 0.
Proof.
  intros Ha Hb. assert (H : 0 <= (- a) * b) by (apply Qmult_le_0_compat; lra).
  assert (E : (- a) * b == - (a * b)) by ring. rewrite E in H. lra.
Qed.

Lemma sum_of_squares_nonneg (c : Q) (l : list Q) :
  0 <= Py.sum (map (fun r => (r - c) * (r - c)) l).
Proof.
  induction l as [| x rest IH]; simpl; [discriminate |].
  rewrite sum_cons.
  pose proof (square_nonneg (x - c)). lra.
Qed.

Lemma of_nat_S (n : nat) : Py.of_nat (S n) == 1 + Py.of_nat n.
Proof.
  unfold Py.of_nat. rewrite Nat2Z.inj_succ. unfold Z.succ.
  rewrite inject_Z_plus. ring.
Qed.

Section WithSqrt.
Variable sqrt : Q -> Q.
Hypothesis sqrt_monotone : Sqrt.monotone sqrt.
Hypothesis sqrt_exact : Sqrt.exact_on_squares sqrt.

Lemma sqrt_zero (x : Q) : x == 0 -> sqrt x == 0.
Proof.
  intros Hx. pose proof (sqrt_exact 0%Z ltac:(lia)) as H0.
  change (inject_Z (0 * 0)) with 0 in H0. change (inject_Z 0) with 0 in H0.
  apply Qle_antisym.
  - rewrite <- H0. apply sqrt_monotone; lra.
  - rewrite <- H0 at 1. apply sqrt_monotone; lra.
Qed.

Lemma sqrt_nonneg (x : Q) : 0 <= x -> 0 <= sqrt x.
Proof.
  intros Hx. rewrite <- (sqrt_zero 0) by reflexivity.
  apply sqrt_monotone; lra.
Qed.

(** The steps of [calculate_sharpe_ratio] on at least two returns. *)
Lemma sharpe_unfolded (daily_returns : list Q) (rf : Q) (af : Z) :
  (2 <= length daily_returns)%nat -> (0 < af)%Z ->
  let avg := Py.sum daily_returns / Py.of_nat (length daily_returns) in
  let variance :=
    Py.sum (map (fun r => (r - avg) * (r - avg)) daily_returns)
    / Py.of_nat (length daily_returns - 1) in
  0 <= variance
  /\ calculate_sharpe_ratio sqrt daily_returns rf af
     = if Qeq_bool (sqrt variance) 0 then Some 0
       else Some (Py.round (excess_of daily_returns rf af / sqrt variance
                            * sqrt (inject_Z af)) 2).
Proof.
  intros Hlen Haf. cbv zeta.
  set (avg := Py.sum daily_returns / Py.of_nat (length daily_returns)).
  set (variance := _ / Py.of_nat (length daily_returns - 1)).
  assert (Hvar : 0 <= variance).
  { subst variance. apply Qle_shift_div_l.
    - apply of_nat_pos. lia.
    - rewrite Qmult_0_l. apply sum_of_squares_nonneg. }
  split; [exact Hvar |].
  unfold calculate_sharpe_ratio.
  assert (E : (length daily_returns <? 2)%nat = false)
    by (apply Nat.ltb_ge; exact Hlen).
  rewrite E, (div_by_length _ (length daily_returns)) by lia.
  cbn [mbind option_bind].
  rewrite (div_some rf (inject_Z af)).
  2:{ intros Hz. unfold Qeq in Hz. simpl in Hz. lia. }
  cbn [mbind option_bind]. fold avg.
  rewrite (div_by_length _ (length daily_returns - 1)) by lia.
  cbn [mbind option_bind]. fold variance.
  unfold math_sqrt.
  assert (Ev : Py.ltb variance 0 = false) by (apply PyFacts.ltb_ge; exact Hvar).
  rewrite Ev. cbn [mbind option_bind].
  destruct (Qeq_bool (sqrt variance) 0) eqn:Es; [reflexivity |].
  apply Qeq_bool_neq in Es. rewrite div_some by exact Es.
  cbn [mbind option_bind].
  assert (Ea : Py.ltb (inject_Z af) 0 = false).
  { apply PyFacts.ltb_ge. replace 0 with (inject_Z 0) by reflexivity.
    rewrite <- Zle_Qle. lia. }
  rewrite Ea. reflexivity.
Qed.

End WithSqrt.

(** X14: with a square root that is monotone and exact on the squares of
    the integers, for at least two returns and a positive annualization
    factor [calculate_sharpe_ratio] returns a number that is not negative
    when the excess return is not negative, and not positive when the
    excess return is not positive. *)
Theorem sharpe_sign (sqrt : Q -> Q) (daily_returns : list Q)
    (risk_free_rate : Q) (annualization_factor : Z) :
  Sqrt.monotone sqrt -> Sqrt.exact_on_squares sqrt ->
  (2 <= length daily_returns)%nat -> (0 < annualization_factor)%Z ->
  exists sharpe,
    calculate_sharpe_ratio sqrt daily_returns risk_free_rate
      annualization_factor = Some sharpe
    /\ (0 <= excess_of daily_returns risk_free_rate annualization_factor ->
        0 <= sharpe)
    /\ (excess_of daily_returns risk_free_rate annualization_factor <= 0 ->
        sharpe <= 0).
Proof.
  intros Hmono Hexact Hlen Haf.
  destruct (sharpe_unfolded sqrt daily_returns risk_free_rate
              annualization_factor Hlen Haf) as (Hvar & Heq).
  rewrite Heq. clear Heq.
  set (excess := excess_of _ _ _).
  set (variance := _ / Py.of_nat (length daily_returns - 1)) in *.
  destruct (Qeq_bool (sqrt variance) 0) eqn:Es.
  { exists 0. split; [reflexivity |]. split; intros _; apply Qle_refl. }
  apply Qeq_bool_neq in Es.
  pose proof (sqrt_nonneg sqrt Hmono Hexact variance Hvar) as Hs.
  assert (Hroot : 0 <= sqrt (inject_Z annualization_factor)).
  { apply (sqrt_nonneg sqrt Hmono Hexact).
    replace 0 with (inject_Z 0) by reflexivity. rewrite <- Zle_Qle. lia. }
  assert (Hpos : 0 < sqrt variance) by lra.
  assert (E0 : inject_Z 0 / inject_Z (10 ^ Z.of_nat 2) == 0) by reflexivity.
  eexists. split; [reflexivity |]. split; intros Hex.
  - pose proof (PyFacts.round_ge
                  (excess / sqrt variance * sqrt (inject_Z annualization_factor))
                  2 0) as Hge.
    rewrite E0 in Hge. apply Hge.
    apply Qmult_le_0_compat; [| exact Hroot].
    apply Qle_shift_div_l; [exact Hpos | lra].
  - pose proof (PyFacts.round_le
                  (excess / sqrt variance * sqrt (inject_Z annualization_factor))
                  2 0) as Hle.
    rewrite E0 in Hle. apply Hle.
    apply mult_nonpos_nonneg; [| exact Hroot].
    apply Qle_shift_div_r; [exact Hpos | lra].
Qed.

Lemma sharpe_sign_witness :
  exists sharpe,
    calculate_sharpe_ratio Sqrt.isqrt [1; 3; 5] 0 365 = Some sharpe
    /\ 0 <= sharpe.
Proof.
  destruct (sharpe_sign Sqrt.isqrt [1; 3; 5] 0 365
              RegimeFacts.isqrt_monotone RegimeFacts.isqrt_exact)
    as (x & Hx & Hpos & _).
  - simpl. lia.
  - lia.
  - exists x. split; [exact Hx |]. apply Hpos. vm_compute. discriminate.
Defined.

End SharpeFacts.

(** ** Trend regime *)

Module TrendFacts.
Import RegimeAnalyzer RegimeSpec TrendSpec RiskFacts TradeStatsFacts.

Lemma of_nat_le (a b : nat) : (a <= b)%nat -> Py.of_nat a <= Py.of_nat b.
Proof. intros H. unfold Py.of_nat. rewrite <- Zle_Qle. lia. Qed.

(** The steps of [detect_trend_regime] when some day is not flat. *)
Lemma trend_unfolded (daily_pnl : list DailyPnL.t) :
  (5 <= length daily_pnl)%nat ->
  (0 < up_days daily_pnl + down_days daily_pnl)%nat ->
  let c := consistency_of daily_pnl in
  let total := Py.sum (pnl_values_of daily_pnl) in
  detect_trend_regime daily_pnl
  = Some (Trend
            (if Py.leb 70 c then "STRONG_TREND"
             else if Py.leb 55 c then "WEAK_TREND" else "RANGING")
            (if (down_days daily_pnl <? up_days daily_pnl)%nat
             then "BULLISH" else "BEARISH")
            (if Py.gtb total 0 then "UP"
             else if Py.ltb total 0 then "DOWN" else "FLAT")
            (Py.round c 1) (up_days daily_pnl) (down_days daily_pnl)
            (Py.round total 2)).
Proof.
  intros Hlen Hdir. cbv zeta. unfold detect_trend_regime.
  assert (E5 : (length daily_pnl <? 5)%nat = false)
    by (apply Nat.ltb_ge; exact Hlen).
  rewrite E5. cbv zeta.
  fold (pnl_values_of daily_pnl). fold (up_days daily_pnl).
  fold (down_days daily_pnl).
  assert (E0 : (up_days daily_pnl + down_days daily_pnl =? 0)%nat = false)
    by (apply Nat.eqb_neq; lia).
  rewrite E0, div_by_length by exact Hdir.
  reflexivity.
Qed.

Lemma consistency_range (daily_pnl : list DailyPnL.t) :
  (0 < up_days daily_pnl + down_days daily_pnl)%nat ->
  50 <= consistency_of daily_pnl <= 100.
Proof.
  intros Hdir. unfold consistency_of.
  set (p := up_days daily_pnl) in *. set (n := down_days daily_pnl) in *.
  pose proof (of_nat_pos (p + n) Hdir) as Hpos.
  pose proof (of_nat_le (Nat.max p n) (p + n) ltac:(lia)) as Hmax.
  pose proof (of_nat_le (p + n) (Nat.max p n + Nat.max p n) ltac:(lia)) as Hhalf.
  rewrite (of_nat_add (Nat.max p n)) in Hhalf.
  assert (H1 : Py.of_nat (Nat.max p n) / Py.of_nat (p + n) <= 1)
    by (apply Qle_shift_div_r; lra).
  assert (H2 : 1 # 2 <= Py.of_nat (Nat.max p n) / Py.of_nat (p + n))
    by (apply Qle_shift_div_l; lra).
  lra.
Qed.

Lemma round1_range (q : Q) (lo hi : Z) :
  inject_Z lo <= q <= inject_Z hi ->
  inject_Z lo <= Py.round q 1 <= inject_Z hi.
Proof.
  intros [Hlo Hhi].
  pose proof (PyFacts.round_ge q 1 (lo * 10)) as Hge.
  pose proof (PyFacts.round_le q 1 (hi * 10)) as Hle.
  assert (E : forall k, inject_Z (k * 10) / inject_Z (10 ^ Z.of_nat 1)
                        == inject_Z k).
  { intros k. rewrite inject_Z_mult. change (inject_Z (10 ^ Z.of_nat 1)) with 10.
    change (inject_Z 10) with 10. field. }
  rewrite E in Hge, Hle. split; [apply Hge | apply Hle]; assumption.
Qed.

(** X16: for at least five days, [detect_trend_regime] reports FLAT when
    no day is above or below 0 (nothing is divided by the 0 directional
    days), and otherwise a full report whose consistency_pct is between 50
    and 100 and whose direction is BULLISH exactly when the days above 0
    outnumber the days below. *)
Theorem trend_consistency (daily_pnl : list DailyPnL.t) :
  (5 <= length daily_pnl)%nat ->
  ((up_days daily_pnl + down_days daily_pnl = 0)%nat ->
     detect_trend_regime daily_pnl = Some TrendFlat)
  /\ ((0 < up_days daily_pnl + down_days daily_pnl)%nat ->
      exists regime direction trend_direction consistency_pct cumulative_pnl,
        detect_trend_regime daily_pnl
        = Some (Trend regime direction trend_direction consistency_pct
                  (up_days daily_pnl) (down_days daily_pnl) cumulative_pnl)
        /\ 50 <= consistency_pct <= 100
        /\ (direction = "BULLISH"%string
            <-> (down_days daily_pnl < up_days daily_pnl)%nat)).
Proof.
  intros Hlen. split.
  - intros Hflat. unfold detect_trend_regime.
    assert (E5 : (length daily_pnl <? 5)%nat = false)
      by (apply Nat.ltb_ge; exact Hlen).
    rewrite E5. cbv zeta.
    fold (pnl_values_of daily_pnl). fold (up_days daily_pnl).
    fold (down_days daily_pnl). rewrite Hflat. reflexivity.
  - intros Hdir. rewrite (trend_unfolded daily_pnl Hlen Hdir). cbv zeta.
    do 5 eexists. split; [reflexivity |]. split.
    + apply (round1_range _ 50 100), consistency_range, Hdir.
    + destruct (Nat.ltb_spec (down_days daily_pnl) (up_days daily_pnl)).
      * tauto.
      * split; [discriminate | lia].
Qed.

Lemma trend_consistency_witness :
  detect_trend_regime (days_of [0; 0; 0; 0; 0]) = Some TrendFlat.
Proof.
  destruct (trend_consistency (days_of [0; 0; 0; 0; 0])) as [H _].
  - simpl. lia.
  - apply H. reflexivity.
Defined.

(** X17: for at least five days of which as many are above 0 as below,
    and some are, [detect_trend_regime] reports the regime RANGING with a
    consistency of 50 and the direction BEARISH. *)
Theorem trend_of_a_tie (daily_pnl : list DailyPnL.t) :
  (5 <= length daily_pnl)%nat ->
  up_days daily_pnl = down_days daily_pnl ->
  (0 < up_days daily_pnl)%nat ->
  exists trend_direction consistency_pct cumulative_pnl,
    detect_trend_regime daily_pnl
    = Some (Trend "RANGING" "BEARISH" trend_direction consistency_pct
              (up_days daily_pnl) (down_days daily_pnl) cumulative_pnl)
    /\ consistency_pct == 50.
Proof.
  intros Hlen Htie Hpos.
  rewrite (trend_unfolded daily_pnl Hlen) by lia. cbv zeta.
  assert (Hc : consistency_of daily_pnl == 50).
  { unfold consistency_of. rewrite <- Htie, Nat.max_id, of_nat_add.
    pose proof (of_nat_pos _ Hpos). field. lra. }
  assert (E70 : Py.leb 70 (consistency_of daily_pnl) = false)
    by (apply PyFacts.leb_gt; lra).
  assert (E55 : Py.leb 55 (consistency_of daily_pnl) = false)
    by (apply PyFacts.leb_gt; lra).
  rewrite E70, E55, <- Htie, Nat.ltb_irrefl.
  do 3 eexists. split; [reflexivity |].
  rewrite (PyFacts.round_compat _ 50 1 Hc). reflexivity.
Qed.

Lemma trend_of_a_tie_witness :
  exists trend_direction consistency_pct cumulative_pnl,
    detect_trend_regime (days_of [4; -1; 0; 2; -3])
    = Some (Trend "RANGING" "BEARISH" trend_direction consistency_pct
              2 2 cumulative_pnl)
    /\ consistency_pct == 50.
Proof.
  apply (trend_of_a_tie (days_of [4; -1; 0; 2; -3])).
  - simpl. lia.
  - reflexivity.
  - vm_compute. lia.
Defined.

Lemma sum_winners_pos (pnl_list : list Q) :
  RiskAnalyzer.winners_of pnl_list <> [] ->
  0 < Py.sum (RiskAnalyzer.winners_of pnl_list).
Proof.
  unfold RiskAnalyzer.winners_of.
  induction pnl_list as [| p rest IH]; simpl; [congruence |].
  destruct (Py.gtb p 0) eqn:Eg; [| exact IH].
  intros _. apply PyFacts.gtb_gt in Eg. rewrite sum_cons.
  pose proof (sum_winners_nonneg rest) as H.
  unfold RiskAnalyzer.winners_of in H. lra.
Qed.

(** X18: for at least five days none of which is below 0 and one of
    which is above, [detect_trend_regime] reports STRONG_TREND, BULLISH and
    UP with a consistency of 100. *)
Theorem trend_of_winning_days (daily_pnl : list DailyPnL.t) :
  (5 <= length daily_pnl)%nat ->
  down_days daily_pnl = 0%nat ->
  (0 < up_days daily_pnl)%nat ->
  exists consistency_pct cumulative_pnl,
    detect_trend_regime daily_pnl
    = Some (Trend "STRONG_TREND" "BULLISH" "UP" consistency_pct
              (up_days daily_pnl) 0 cumulative_pnl)
    /\ consistency_pct == 100.
Proof.
  intros Hlen Hdown Hup.
  rewrite (trend_unfolded daily_pnl Hlen) by lia. cbv zeta.
  assert (Hc : consistency_of daily_pnl == 100).
  { unfold consistency_of. rewrite Hdown, Nat.max_0_r, Nat.add_0_r.
    pose proof (of_nat_pos _ Hup). field. lra. }
  assert (E70 : Py.leb 70 (consistency_of daily_pnl) = true)
    by (apply PyFacts.leb_le; lra).
  assert (Htot : 0 < Py.sum (pnl_values_of daily_pnl)).
  { rewrite (sum_split (pnl_values_of daily_pnl)).
    assert (Hl : RiskAnalyzer.losers_of (pnl_values_of daily_pnl) = []).
    { unfold down_days in Hdown. apply length_zero_iff_nil in Hdown.
      exact Hdown. }
    rewrite Hl. change (Py.sum []) with 0.
    assert (Hw : RiskAnalyzer.winners_of (pnl_values_of daily_pnl) <> []).
    { intros E. unfold up_days in Hup.
      unfold RiskAnalyzer.winners_of in E. rewrite E in Hup.
      simpl in Hup. lia. }
    pose proof (sum_winners_pos _ Hw). lra. }
  apply PyFacts.gtb_gt in Htot.
  rewrite E70, Htot, Hdown.
  assert (Eb : (0 <? up_days daily_pnl)%nat = true) by (apply Nat.ltb_lt; lia).
  rewrite Eb.
  do 2 eexists. split; [reflexivity |].
  rewrite (PyFacts.round_compat _ 100 1 Hc). reflexivity.
Qed.

Lemma trend_of_winning_days_witness :
  exists consistency_pct cumulative_pnl,
    detect_trend_regime (days_of [1; 0; 2; 0; 3])
    = Some (Trend "STRONG_TREND" "BULLISH" "UP" consistency_pct
              3 0 cumulative_pnl)
    /\ consistency_pct == 100.
Proof.
  apply (trend_of_winning_days (days_of [1; 0; 2; 0; 3])).
  - simpl. lia.
  - reflexivity.
  - vm_compute. lia.
Defined.

End TrendFacts.

(** ** Win rate regime *)

Module PerformanceFacts.
Import RegimeAnalyzer PerformanceSpec RiskFacts TradeStatsFacts SortFacts.

(** The steps of [detect_performance_regime] when the window is at least 1
    and the trades fill it. *)
Lemma performance_unfolded (trades : list Trade.t) (window : Z) :
  (1 <= window)%Z -> (window <= Z.of_nat (length trades))%Z ->
  let historical := win_rate_of trades in
  let recent := win_rate_of (last_trades trades window) in
  let deviation := recent - historical in
  length (last_trades trades window) = Z.to_nat window
  /\ detect_performance_regime trades window
     = Some (Performance
               (if Py.gtb deviation 15 then "HOT_STREAK"
                else if Py.ltb deviation (-15) then "COLD_STREAK"
                else "NORMAL")
               (Py.round historical 1) (Py.round recent 1)
               (Py.round deviation 1) window
               (if Py.gtb deviation 15
                then "Consider reducing position size (reversion expected)"
                else if Py.ltb deviation (-15)
                then "Review strategy or wait for normalization"
                else "Continue standard operation")).
Proof.
  intros Hw Hlen. cbv zeta.
  assert (Hk : length (last_trades trades window) = Z.to_nat window).
  { unfold last_trades. rewrite length_skipn. lia. }
  split; [exact Hk |].
  unfold detect_performance_regime.
  assert (E : (Z.of_nat (length trades) <? window)%Z = false)
    by (apply Z.ltb_ge; exact Hlen).
  rewrite E. cbv zeta.
  rewrite (div_by_length _ (length trades)) by lia.
  cbn [mbind option_bind].
  rewrite slice_last by lia. fold (last_trades trades window).
  rewrite (div_by_length _ (length (last_trades trades window))) by lia.
  cbn [mbind option_bind].
  fold (win_rate_of trades). fold (win_rate_of (last_trades trades window)).
  destruct (Py.gtb _ 15); [reflexivity |].
  destruct (Py.ltb _ (-15)); reflexivity.
Qed.

Lemma win_rate_range (trades : list Trade.t) :
  trades <> [] -> 0 <= win_rate_of trades <= 100.
Proof.
  intros Hne. unfold win_rate_of.
  assert (Hn : 0 < Py.of_nat (length trades)).
  { apply of_nat_pos. destruct trades; [contradiction | simpl; lia]. }
  pose proof (TrendFacts.of_nat_le _ _ (filter_length_le is_win trades)) as Hle.
  pose proof (TrendFacts.of_nat_le 0 _ (Nat.le_0_l (length (List.filter is_win trades))))
    as H0.
  change (Py.of_nat 0) with 0 in H0.
  set (w := Py.of_nat (length (List.filter is_win trades))) in *.
  set (n := Py.of_nat (length trades)) in *.
  assert (Hq0 : 0 <= w / n) by (apply Qle_shift_div_l; lra).
  assert (Hq1 : w / n <= 1) by (apply Qle_shift_div_r; lra).
  lra.
Qed.

(** X19: for a window of at least 1 that the trades fill,
    [detect_performance_regime] returns a full report (no division fails)
    whose historical and recent win rates are between 0 and 100 and whose
    deviation is between -100 and 100; the recent win rate is that of the
    last [window] trades. *)
Theorem performance_report_ranges (trades : list Trade.t) (window : Z) :
  (1 <= window)%Z -> (window <= Z.of_nat (length trades))%Z ->
  exists regime historical recent deviation action,
    detect_performance_regime trades window
    = Some (Performance regime historical recent deviation window action)
    /\ historical = Py.round (win_rate_of trades) 1
    /\ recent = Py.round (win_rate_of (last_trades trades window)) 1
    /\ 0 <= historical <= 100
    /\ 0 <= recent <= 100
    /\ -100 <= deviation <= 100.
Proof.
  intros Hw Hlen.
  destruct (performance_unfolded trades window Hw Hlen) as (Hk & Heq).
  rewrite Heq. do 5 eexists. split; [reflexivity |].
  assert (Hne : trades <> []) by (intros ->; simpl in Hlen; lia).
  assert (Hne' : last_trades trades window <> []).
  { intros E. rewrite E in Hk. simpl in Hk. lia. }
  pose proof (win_rate_range trades Hne) as Hh.
  pose proof (win_rate_range _ Hne') as Hr.
  split; [reflexivity |]. split; [reflexivity |].
  split; [apply (TrendFacts.round1_range _ 0 100); exact Hh |].
  split; [apply (TrendFacts.round1_range _ 0 100); exact Hr |].
  apply (TrendFacts.round1_range _ (-100) 100).
  change (inject_Z (-100)) with (-100). change (inject_Z 100) with 100. lra.
Qed.

Lemma performance_report_ranges_witness :
  exists regime historical recent deviation action,
    detect_performance_regime
      [Trade.signal 1 None; Trade.signal (-1) None; Trade.signal 2 None] 2
    = Some (Performance regime historical recent deviation 2 action)
    /\ 0 <= recent <= 100.
Proof.
  destruct (performance_report_ranges
              [Trade.signal 1 None; Trade.signal (-1) None; Trade.signal 2 None] 2)
    as (g & h & r & d & a & He & _ & _ & _ & Hr & _).
  - lia.
  - simpl. lia.
  - exists g, h, r, d, a. split; [exact He | exact Hr].
Defined.

(** X20: when the window is as long as the history (and at least 1),
    [detect_performance_regime] reports NORMAL with a deviation of 0: the
    recent trades are all the trades. *)
Theorem performance_of_a_full_window (trades : list Trade.t) :
  trades <> [] ->
  exists historical recent deviation,
    detect_performance_regime trades (Z.of_nat (length trades))
    = Some (Performance "NORMAL" historical recent deviation
              (Z.of_nat (length trades)) "Continue standard operation")
    /\ recent = historical /\ deviation == 0.
Proof.
  intros Hne.
  assert (Hpos : (1 <= Z.of_nat (length trades))%Z)
    by (destruct trades; [contradiction | simpl; lia]).
  destruct (performance_unfolded trades _ Hpos (Z.le_refl _)) as (_ & Heq).
  rewrite Heq. clear Heq.
  assert (Hall : last_trades trades (Z.of_nat (length trades)) = trades).
  { unfold last_trades. rewrite Nat2Z.id, Nat.sub_diag. reflexivity. }
  rewrite Hall.
  assert (Hd : win_rate_of trades - win_rate_of trades == 0) by ring.
  assert (E1 : Py.gtb (win_rate_of trades - win_rate_of trades) 15 = false)
    by (apply PyFacts.gtb_le; lra).
  assert (E2 : Py.ltb (win_rate_of trades - win_rate_of trades) (-15) = false)
    by (apply PyFacts.ltb_ge; lra).
  rewrite E1, E2. do 3 eexists. split; [reflexivity |].
  split; [reflexivity |].
  rewrite (PyFacts.round_compat _ 0 1 Hd). reflexivity.
Qed.

Lemma performance_of_a_full_window_witness :
  exists historical recent deviation,
    detect_performance_regime [Trade.signal 1 None; Trade.signal (-1) None] 2
    = Some (Performance "NORMAL" historical recent deviation 2
              "Continue standard operation")
    /\ recent = historical /\ deviation == 0.
Proof.
  apply (performance_of_a_full_window
           [Trade.signal 1 None; Trade.signal (-1) None]).
  discriminate.
Defined.

(** The steps of [detect_performance_regime] for a window of 0 or less
    that leaves a trade: [trades[-window:]] drops the first [-window]
    trades. *)
Lemma performance_of_a_tail (trades : list Trade.t) (window : Z) :
  (window <= 0)%Z -> (- window < Z.of_nat (length trades))%Z ->
  let historical := win_rate_of trades in
  let recent := win_rate_of (skipn (Z.to_nat (- window)) trades) in
  let deviation := recent - historical in
  detect_performance_regime trades window
  = Some (Performance
            (if Py.gtb deviation 15 then "HOT_STREAK"
             else if Py.ltb deviation (-15) then "COLD_STREAK"
             else "NORMAL")
            (Py.round historical 1) (Py.round recent 1)
            (Py.round deviation 1) window
            (if Py.gtb deviation 15
             then "Consider reducing position size (reversion expected)"
             else if Py.ltb deviation (-15)
             then "Review strategy or wait for normalization"
             else "Continue standard operation")).
Proof.
  intros Hw Hlen. cbv zeta. unfold detect_performance_regime.
  assert (E : (Z.of_nat (length trades) <? window)%Z = false)
    by (apply Z.ltb_ge; lia).
  rewrite E. cbv zeta.
  rewrite (div_by_length _ (length trades)) by lia.
  cbn [mbind option_bind].
  assert (Hrecent : Py.slice_from trades (- window)
                    = skipn (Z.to_nat (- window)) trades).
  { unfold Py.slice_from.
    assert (E0 : (0 <=? - window)%Z = true) by (apply Z.leb_le; lia).
    rewrite E0. reflexivity. }
  rewrite Hrecent.
  rewrite (div_by_length _ (length (skipn (Z.to_nat (- window)) trades)))
    by (rewrite length_skipn; lia).
  cbn [mbind option_bind].
  fold (win_rate_of trades).
  fold (win_rate_of (skipn (Z.to_nat (- window)) trades)).
  destruct (Py.gtb _ 15); [reflexivity |].
  destruct (Py.ltb _ (-15)); reflexivity.
Qed.

Lemma performance_of_no_tail (trades : list Trade.t) (window : Z) :
  (window <= 0)%Z -> (Z.of_nat (length trades) <= - window)%Z ->
  detect_performance_regime trades window = None.
Proof.
  intros Hw Hlen. unfold detect_performance_regime.
  assert (E : (Z.of_nat (length trades) <? window)%Z = false)
    by (apply Z.ltb_ge; lia).
  rewrite E. cbv zeta.
  destruct trades as [| t rest].
  - reflexivity.
  - rewrite (div_by_length _ (length (t :: rest))) by (simpl; lia).
    cbn [mbind option_bind].
    assert (Hrecent : Py.slice_from (t :: rest) (- window) = []).
    { unfold Py.slice_from.
      assert (E0 : (0 <=? - window)%Z = true) by (apply Z.leb_le; lia).
      rewrite E0. apply skipn_all2. lia. }
    rewrite Hrecent. reflexivity.
Qed.

(** X21: for a window of 0 or less, and every list of trades,
    [detect_performance_regime] never gives INSUFFICIENT_DATA.  It raises
    (a division by zero) exactly when there are no more trades than the
    window is negative, no trade at all for a window of 0; otherwise it
    returns a full report whose window_size is the window given and whose
    recent win rate is that of the trades after the first [-window] ones,
    all the trades for a window of 0. *)
Theorem performance_of_an_empty_window (trades : list Trade.t) (window : Z) :
  (window <= 0)%Z ->
  detect_performance_regime trades window <> Some PerformanceInsufficient
  /\ (detect_performance_regime trades window = None
      <-> (Z.of_nat (length trades) <= - window)%Z)
  /\ ((- window < Z.of_nat (length trades))%Z ->
      exists regime historical recent deviation action,
        detect_performance_regime trades window
        = Some (Performance regime historical recent deviation window action)
        /\ historical = Py.round (win_rate_of trades) 1
        /\ recent
           = Py.round (win_rate_of (skipn (Z.to_nat (- window)) trades)) 1).
Proof.
  intros Hw.
  destruct (Z.le_gt_cases (Z.of_nat (length trades)) (- window)) as [Hfew | Hmany].
  - pose proof (performance_of_no_tail trades window Hw Hfew) as Hnone.
    rewrite Hnone. split; [discriminate |]. split; [tauto | lia].
  - pose proof (performance_of_a_tail trades window Hw Hmany) as Hsome.
    cbv zeta in Hsome. rewrite Hsome.
    split; [discriminate |]. split.
    + split; [discriminate | lia].
    + intros _. do 5 eexists. split; [reflexivity |]. split; reflexivity.
Qed.

Lemma performance_of_an_empty_window_witness :
  detect_performance_regime [] 0 = None
  /\ detect_performance_regime [Trade.signal 1 None] (-1) = None
  /\ (exists regime historical recent deviation action,
        detect_performance_regime [Trade.signal 1 None] 0
        = Some (Performance regime historical recent deviation 0 action)).
Proof.
  split; [| split].
  - apply (performance_of_an_empty_window [] 0); simpl; lia.
  - apply (performance_of_an_empty_window [Trade.signal 1 None] (-1));
      simpl; lia.
  - destruct (performance_of_an_empty_window [Trade.signal 1 None] 0)
      as (_ & _ & H); [lia |].
    destruct H as (g & h & r & d & a & He & _); [simpl; lia |].
    exists g, h, r, d, a. exact He.
Defined.

End PerformanceFacts.

(** ** Regime report *)

Module RegimeReportFacts.
Import RegimeAnalyzer PerformanceSpec PerformanceFacts.

(** X22: with fewer than five days of daily pnl, [generate_regime_report]
    returns a report whose risk level is never LOW: it is ELEVATED exactly
    when the performance regime is COLD_STREAK, and NORMAL otherwise; with
    fewer than 20 trades as well it is NORMAL, the action being "Standard
    operation". *)
Theorem regime_report_of_few_days (sqrt : Q -> Q) (now : string)
    (daily_pnl : list DailyPnL.t) (trades : list Trade.t) :
  (length daily_pnl < 5)%nat ->
  exists report,
    generate_regime_report sqrt now daily_pnl trades = Some report
    /\ generated_at report = now
    /\ risk_level report <> "LOW"%string
    /\ (risk_level report = "ELEVATED"%string
        <-> performance_regime_of (performance_regime report)
            = "COLD_STREAK"%string)
    /\ (risk_level report = "ELEVATED"%string
        \/ risk_level report = "NORMAL"%string)
    /\ ((length trades < 20)%nat ->
        risk_level report = "NORMAL"%string
        /\ overall_action report = "Standard operation"%string).
Proof.
  intros Hdays. unfold generate_regime_report.
  unfold detect_volatility_regime, detect_trend_regime.
  apply Nat.ltb_lt in Hdays. rewrite Hdays. cbn [mbind option_bind].
  destruct (Nat.lt_ge_cases (length trades) 20) as [Hfew | Hmany].
  - unfold detect_performance_regime.
    assert (E : (Z.of_nat (length trades) <? 20)%Z = true)
      by (apply Z.ltb_lt; lia).
    rewrite E. cbn [mbind option_bind]. simpl.
    eexists. split; [reflexivity |]. simpl.
    repeat split; try discriminate; auto.
  - destruct (performance_unfolded trades 20) as (_ & Heq); [lia | lia |].
    rewrite Heq. clear Heq. cbn [mbind option_bind].
    destruct (Py.gtb _ 15); [| destruct (Py.ltb _ (-15))]; simpl;
      (eexists; split; [reflexivity |]); simpl;
      repeat split; try discriminate; auto; intros; lia.
Qed.

Lemma regime_report_of_few_days_witness :
  exists report,
    generate_regime_report Sqrt.isqrt "2025-01-01T00:00:00"
      (RegimeSpec.days_of [1; 2]) [] = Some report
    /\ risk_level report = "NORMAL"%string.
Proof.
  destruct (regime_report_of_few_days Sqrt.isqrt "2025-01-01T00:00:00"
              (RegimeSpec.days_of [1; 2]) [])
    as (report & Hr & _ & _ & _ & _ & Hn).
  - simpl. lia.
  - exists report. split; [exact Hr |]. apply Hn. simpl. lia.
Defined.

End RegimeReportFacts.

(** ** Direction attribution *)

Module DirectionFacts.
Import SignalAnalyzer AttributionSpec.

Lemma calc_stats_total (trade_list : list TaggedTrade.t) :
  trade_list <> [] ->
  total_pnl_of (calc_stats trade_list) = Some (side_total trade_list).
Proof. destruct trade_list; [contradiction | reflexivity]. Qed.

Lemma direction_needs_both_sides_iff (upper : string -> string)
    (trades : list TaggedTrade.t) :
  analyze_by_direction upper trades = None
  <-> long_trades_of upper trades = [] \/ short_trades_of upper trades = [].
Proof.
  unfold analyze_by_direction. cbv zeta.
  destruct (long_trades_of upper trades) as [| l ls] eqn:El.
  - simpl. tauto.
  - rewrite (calc_stats_total (l :: ls)) by discriminate.
    cbn [mbind option_bind].
    destruct (short_trades_of upper trades) as [| h hs] eqn:Es.
    + simpl. tauto.
    + rewrite (calc_stats_total (h :: hs)) by discriminate.
      cbn [mbind option_bind].
      split; [discriminate | intros [H | H]; discriminate].
Qed.

(** X23: [analyze_by_direction] reads the ["total_pnl"] of both sides,
    a key that the statistics of an empty side have not: it raises exactly
    when no trade is long (BUY, LONG) or no trade is short (SELL, SHORT),
    the empty list of trades included. *)
Theorem direction_needs_both_sides (upper : string -> string)
    (trades : list TaggedTrade.t) :
  analyze_by_direction upper trades = None
  <-> long_trades_of upper trades = [] \/ short_trades_of upper trades = [].
Proof. apply direction_needs_both_sides_iff. Qed.

(** X24: when a trade is long and a trade is short,
    [analyze_by_direction] returns a report.  Its market bias is BULLISH
    when the long total is positive and the short total is not, and BEARISH
    when the short total is positive and the long total is not; when the two
    totals are equal, it is NEUTRAL if they are not negative and BULLISH if
    they are negative. *)
Theorem market_bias_cases (upper : string -> string)
    (trades : list TaggedTrade.t) :
  long_trades_of upper trades <> [] ->
  short_trades_of upper trades <> [] ->
  let long_total := side_total (long_trades_of upper trades) in
  let short_total := side_total (short_trades_of upper trades) in
  exists report,
    analyze_by_direction upper trades = Some report
    /\ (0 < long_total -> short_total <= 0 ->
        market_bias report = "BULLISH"%string)
    /\ (0 < short_total -> long_total <= 0 ->
        market_bias report = "BEARISH"%string)
    /\ (long_total == short_total -> 0 <= long_total ->
        market_bias report = "NEUTRAL"%string)
    /\ (long_total == short_total -> long_total < 0 ->
        market_bias report = "BULLISH"%string).
Proof.
  intros Hl Hs. cbv zeta. unfold analyze_by_direction. cbv zeta.
  rewrite !calc_stats_total by assumption. cbn [mbind option_bind].
  set (lt := side_total (long_trades_of upper trades)).
  set (st := side_total (short_trades_of upper trades)).
  eexists. split; [reflexivity |]. simpl.
  destruct (Py.gtb lt (st * (15 # 10))) eqn:E1.
  - apply PyFacts.gtb_gt in E1.
    repeat split; intros; try reflexivity; exfalso; lra.
  - apply PyFacts.gtb_le in E1.
    destruct (Py.gtb st (lt * (15 # 10))) eqn:E2.
    + apply PyFacts.gtb_gt in E2.
      repeat split; intros; try reflexivity; exfalso; lra.
    + apply PyFacts.gtb_le in E2.
      repeat split; intros; try reflexivity; exfalso; lra.
Qed.

Lemma market_bias_cases_witness :
  exists report,
    analyze_by_direction ascii_upper_string
      [tagged "buy" (-4) None; tagged "Sell" (-4) None] = Some report
    /\ market_bias report = "BULLISH"%string.
Proof.
  destruct (market_bias_cases ascii_upper_string
              [tagged "buy" (-4) None; tagged "Sell" (-4) None])
    as (report & Hr & _ & _ & _ & Hb).
  - discriminate.
  - discriminate.
  - exists report. split; [exact Hr |]. apply Hb; reflexivity.
Defined.

(** X25: [generate_signal_report] returns a report, with the number of
    trades as total_trades_analyzed, exactly when a trade is long and a
    trade is short; otherwise the direction attribution raises, and no
    report of the signals is made. *)
Theorem signal_report_needs_both_sides (upper : string -> string)
    (now : string) (trades : list TaggedTrade.t) :
  (generate_signal_report upper now trades = None
   <-> long_trades_of upper trades = [] \/ short_trades_of upper trades = [])
  /\ forall report,
       generate_signal_report upper now trades = Some report ->
       total_trades_analyzed report = length trades
       /\ generated_at report = now
       /\ analyze_by_direction upper trades
          = Some (direction_attribution report).
Proof.
  unfold generate_signal_report. cbv zeta. split.
  - rewrite <- direction_needs_both_sides_iff.
    destruct (analyze_by_direction upper trades); simpl;
      split; intros; (reflexivity || discriminate).
  - intros report.
    destruct (analyze_by_direction upper trades); simpl; [| discriminate].
    intros [= <-]. simpl. auto.
Qed.

Lemma signal_report_needs_both_sides_witness :
  exists report,
    generate_signal_report ascii_upper_string "2025-01-01T00:00:00"
      [tagged "buy" 3 None; tagged "SHORT" (-1) None] = Some report
    /\ total_trades_analyzed report = 2%nat.
Proof.
  eexists. split; [vm_compute; reflexivity |].
  match goal with
  | |- total_trades_analyzed ?r = _ =>
      destruct (signal_report_needs_both_sides ascii_upper_string
                  "2025-01-01T00:00:00"
                  [tagged "buy" 3 None; tagged "SHORT" (-1) None]) as [_ H];
      destruct (H r) as (Hn & _); [vm_compute; reflexivity | exact Hn]
  end.
Defined.

End DirectionFacts.

(** ** Exit reason and signal source attribution *)

Module GroupFacts.
Import SignalAnalyzer AttributionSpec SortFacts.

Lemma tally_keys (stats : list (string * GroupStats)) (key k : string) (pnl : Q) :
  In k (map fst (tally stats key pnl)) <-> k = key \/ In k (map fst stats).
Proof.
  induction stats as [| [k0 g] rest IH]; simpl.
  - intuition congruence.
  - destruct (String.eqb_spec k0 key) as [-> | Hne]; simpl.
    + intuition congruence.
    + rewrite IH. intuition congruence.
Qed.

Lemma tally_nodup (stats : list (string * GroupStats)) (key : string) (pnl : Q) :
  List.NoDup (map fst stats) -> List.NoDup (map fst (tally stats key pnl)).
Proof.
  induction stats as [| [k0 g] rest IH]; simpl; intros Hnd.
  - constructor; [intros [] | constructor].
  - inversion Hnd as [| ? ? Hout Hrest]; subst.
    destruct (String.eqb_spec k0 key) as [-> | Hne]; simpl.
    + constructor; assumption.
    + constructor; [| apply IH, Hrest].
      rewrite tally_keys. intros [-> | Hin]; [congruence | contradiction].
Qed.

Lemma tally_count_at (stats : list (string * GroupStats)) (key k : string)
    (pnl : Q) :
  count_at (tally stats key pnl) k
  = (count_at stats k + if String.eqb key k then 1 else 0)%nat.
Proof.
  induction stats as [| [k0 g] rest IH]; simpl.
  - destruct (String.eqb key k); reflexivity.
  - destruct (String.eqb_spec k0 key) as [-> | Hne]; simpl.
    + destruct (String.eqb key k); lia.
    + rewrite IH. destruct (String.eqb_spec k0 k) as [-> | Hnk]; [| reflexivity].
      apply String.eqb_neq in Hne. rewrite String.eqb_sym, Hne. lia.
Qed.

Lemma tally_total (stats : list (string * GroupStats)) (key : string) (pnl : Q) :
  list_sum (map (fun item => g_count (snd item)) (tally stats key pnl))
  = S (list_sum (map (fun item => g_count (snd item)) stats)).
Proof.
  induction stats as [| [k0 g] rest IH]; simpl; [reflexivity |].
  destruct (String.eqb k0 key); simpl; [reflexivity |].
  rewrite IH. lia.
Qed.

Lemma in_count_at (stats : list (string * GroupStats)) (k : string)
    (g : GroupStats) :
  List.NoDup (map fst stats) -> In (k, g) stats -> count_at stats k = g_count g.
Proof.
  induction stats as [| [k0 g0] rest IH]; simpl; intros Hnd Hin; [contradiction |].
  inversion Hnd as [| ? ? Hout Hrest]; subst.
  destruct Hin as [[= -> ->] | Hin].
  - rewrite String.eqb_refl. reflexivity.
  - destruct (String.eqb_spec k0 k) as [-> | Hne]; [| apply IH; assumption].
    exfalso. apply Hout. apply in_map_iff. exists (k, g). split; auto.
Qed.

(** What a loop of [tally] over the trades leaves in the dict, for any
    way [group_of] of naming the group of a trade. *)
Lemma tally_loop (group_of : TaggedTrade.t -> string)
    (trades : list TaggedTrade.t) :
  forall stats,
  List.NoDup (map fst stats) ->
  let final :=
    fold_left (fun stats t => tally stats (group_of t)
                                (TaggedTrade.realized_pnl t))
      trades stats in
  List.NoDup (map fst final)
  /\ list_sum (map (fun item => g_count (snd item)) final)
     = (length trades
        + list_sum (map (fun item => g_count (snd item)) stats))%nat
  /\ forall k, count_at final k
               = (count_at stats k + group_size group_of k trades)%nat.
Proof.
  unfold group_size.
  induction trades as [| t rest IH]; intros stats Hnd; cbv zeta; simpl.
  - split; [exact Hnd |]. split; [reflexivity | intros; lia].
  - destruct (IH (tally stats (group_of t) (TaggedTrade.realized_pnl t))
                (tally_nodup _ _ _ Hnd)) as (H1 & H2 & H3).
    split; [exact H1 |]. split.
    + rewrite H2, tally_total. lia.
    + intros k. rewrite H3, tally_count_at.
      destruct (String.eqb (group_of t) k); simpl; lia.
Qed.

Lemma list_sum_perm (l l' : list nat) :
  Permutation l l' -> list_sum l = list_sum l'.
Proof. induction 1; simpl; lia. Qed.

(** The keys that a loop of [tally] leaves in the dict. *)
Lemma tally_loop_keys (group_of : TaggedTrade.t -> string)
    (trades : list TaggedTrade.t) :
  forall stats k,
  In k (map fst (fold_left (fun stats t => tally stats (group_of t)
                                             (TaggedTrade.realized_pnl t))
                   trades stats))
  <-> In k (map fst stats) \/ exists t, In t trades /\ group_of t = k.
Proof.
  induction trades as [| t rest IH]; intros stats k; simpl.
  - split; [auto | intros [H | (t & [] & _)]; exact H].
  - rewrite IH, tally_keys. split.
    + intros [[-> | H] | (t' & Hin & Ht')].
      * right. exists t. auto.
      * left. exact H.
      * right. exists t'. auto.
    + intros [H | (t' & [<- | Hin] & Ht')].
      * left. right. exact H.
      * left. left. symmetry. exact Ht'.
      * right. exists t'. auto.
Qed.

(** X26: the entries of [analyze_by_exit_reason] are in descending order
    of count and no exit reason comes twice.  A reason has an entry exactly
    when a trade has this reason, the reason of a trade without one being
    UNKNOWN; the count of an entry is the number of trades of its reason,
    and the counts add up to the number of trades.  So the trades without
    an exit reason are counted under UNKNOWN, and nothing else is but the
    trades whose reason is UNKNOWN. *)
Theorem exit_reasons_partition (trades : list TaggedTrade.t) :
  let result := analyze_by_exit_reason trades in
  Sortedness.descending (fun item => Py.of_nat (exit_count (snd item))) result
  /\ List.NoDup (map fst result)
  /\ (forall reason,
        In reason (map fst result)
        <-> exists t, In t trades
                      /\ match TaggedTrade.exit_reason t with
                         | Some r => r
                         | None => "UNKNOWN"%string
                         end = reason)
  /\ (forall reason entry, In (reason, entry) result ->
        exit_count entry = group_size exit_reason_of reason trades)
  /\ (forall entry, In ("UNKNOWN"%string, entry) result ->
        exit_count entry
        = length (List.filter
                    (fun t => match TaggedTrade.exit_reason t with
                              | Some r => String.eqb r "UNKNOWN"
                              | None => true
                              end) trades))
  /\ list_sum (map (fun item => exit_count (snd item)) result) = length trades.
Proof.
  cbv zeta. unfold analyze_by_exit_reason. cbv zeta.
  destruct (tally_loop exit_reason_of trades [] (List.NoDup_nil _))
    as (Hnd & Hsum & Hat).
  pose proof (tally_loop_keys exit_reason_of trades []) as Hkeys.
  cbv zeta in Hnd, Hsum, Hat. simpl in Hsum, Hat.
  set (final := fold_left _ trades []) in *.
  set (entry := fun item : string * GroupStats => _).
  set (key := fun item : string * ExitEntry => _).
  pose proof (sorted_perm key true (map entry final)) as Hperm.
  assert (Hfst : map fst (map entry final) = map fst final)
    by (rewrite map_map; reflexivity).
  assert (Hcount : forall reason e,
             In (reason, e) (Py.sorted key true (map entry final)) ->
             exit_count e = group_size exit_reason_of reason trades).
  { intros reason e Hin.
    apply (Permutation_in _ Hperm) in Hin.
    apply in_map_iff in Hin as ([k g] & [= <- <-] & Hin).
    simpl. rewrite <- (in_count_at final k g Hnd Hin). apply Hat. }
  split; [apply sorted_descending |].
  split; [| split; [| split; [| split]]].
  - eapply Permutation_NoDup.
    + apply Permutation_map. symmetry. exact Hperm.
    + rewrite Hfst. exact Hnd.
  - intros reason. split.
    + intros Hin.
      apply (Permutation_in _ (Permutation_map fst Hperm)) in Hin.
      rewrite Hfst in Hin. apply Hkeys in Hin as [[] | Hin]. exact Hin.
    + intros Hex.
      apply (Permutation_in _ (Permutation_map fst (Permutation_sym Hperm))).
      rewrite Hfst. apply Hkeys. right. exact Hex.
  - exact Hcount.
  - intros e Hin. rewrite (Hcount _ _ Hin). unfold group_size.
    f_equal. apply filter_ext. intros t. unfold exit_reason_of, Py.get.
    destruct (TaggedTrade.exit_reason t); reflexivity.
  - rewrite (list_sum_perm _ _ (Permutation_map _ Hperm)).
    rewrite map_map. simpl. rewrite Hsum. lia.
Qed.

(** X27: in [analyze_by_signal_source] no source comes twice, the count
    of each entry is the number of trades of its source (the strategy of the
    trade, else its signal_source, else LIMIT_SNIPER), and the counts add up
    to the number of trades. *)
Theorem signal_sources_partition (trades : list TaggedTrade.t) :
  let result := analyze_by_signal_source trades in
  List.NoDup (map fst result)
  /\ (forall source entry, In (source, entry) result ->
        source_count entry = group_size source_of source trades)
  /\ list_sum (map (fun item => source_count (snd item)) result)
     = length trades.
Proof.
  cbv zeta. unfold analyze_by_signal_source. cbv zeta.
  destruct (tally_loop source_of trades [] (List.NoDup_nil _))
    as (Hnd & Hsum & Hat).
  cbv zeta in Hnd, Hsum, Hat. simpl in Hsum, Hat.
  set (final := fold_left _ trades []) in *.
  split; [| split].
  - rewrite map_map. simpl. exact Hnd.
  - intros source entry Hin. apply in_map_iff in Hin as ([k g] & [= <- <-] & Hin).
    simpl. rewrite <- (in_count_at final k g Hnd Hin). apply Hat.
  - rewrite map_map. simpl. rewrite Hsum. lia.
Qed.

End GroupFacts.


(** ** Slippage and the time to fill *)

Module ExecutionFacts.
Import ExecutionAnalyzer ExecutionSpec RiskFacts TradeStatsFacts.

Lemma sum_abs_nonneg {A : Type} (f : A -> Q) (l : list A) :
  0 <= Py.sum (map (fun x => Qabs (f x)) l).
Proof.
  induction l as [| x rest IH]; simpl; [discriminate |].
  rewrite sum_cons. pose proof (Qabs_nonneg (f x)). lra.
Qed.

Lemma round2_ge (q : Q) (k : Z) :
  inject_Z k <= q -> inject_Z k <= Py.round q 2.
Proof.
  intros H. pose proof (PyFacts.round_ge q 2 (k * 100)) as Hge.
  assert (E : inject_Z (k * 100) / inject_Z (10 ^ Z.of_nat 2) == inject_Z k).
  { rewrite inject_Z_mult. change (inject_Z (10 ^ Z.of_nat 2)) with 100.
    change (inject_Z 100) with 100. field. }
  rewrite E in Hge. apply Hge, H.
Qed.

(** X28: for a non-empty list of trades [analyze_slippage] reports the
    number of trades and a slippage of at least -5 basis points, and exactly
    -5, with an effective fee rate of 0, when the total volume is 0: the
    division by the volume is not made. *)
Theorem slippage_floor (trades : list Trade.t) :
  trades <> [] ->
  exists volume commission fee_rate_pct expected_pct slippage_bps,
    analyze_slippage trades
    = Slippage volume commission fee_rate_pct expected_pct slippage_bps
        (length trades)
    /\ -5 <= slippage_bps
    /\ (volume_of trades == 0 -> slippage_bps == -5 /\ fee_rate_pct == 0).
Proof.
  intros Hne. destruct trades as [| t rest]; [contradiction |].
  unfold analyze_slippage. cbv zeta.
  fold (volume_of (t :: rest)). fold (commission_of (t :: rest)).
  set (v := volume_of (t :: rest)). set (c := commission_of (t :: rest)).
  assert (Hv : 0 <= v) by apply sum_abs_nonneg.
  assert (Hc : 0 <= c) by apply sum_abs_nonneg.
  do 5 eexists. split; [reflexivity |]. clearbody v c. split.
  - apply (round2_ge _ (-5)). change (inject_Z (-5)) with (-5).
    destruct (Py.gtb v 0) eqn:E.
    + apply PyFacts.gtb_gt in E.
      assert (Hq : 0 <= c / v) by (apply Qle_shift_div_l; lra).
      set (q := c / v) in *. lra.
    + lra.
  - intros Hz.
    assert (E : Py.gtb v 0 = false) by (apply PyFacts.gtb_le; lra).
    rewrite E. split; reflexivity.
Qed.

Lemma slippage_floor_witness :
  exists volume commission fee_rate_pct expected_pct slippage_bps,
    analyze_slippage [Trade.signal 1 None]
    = Slippage volume commission fee_rate_pct expected_pct slippage_bps 1
    /\ -5 <= slippage_bps.
Proof.
  destruct (slippage_floor [Trade.signal 1 None])
    as (v & c & f & e & b & Heq & Hb & _); [discriminate |].
  exists v, c, f, e, b. split; [exact Heq | exact Hb].
Defined.

Lemma filled_and_canceled (orders : list Order.t) :
  (length (List.filter (has_status "FILLED") orders)
   + length (List.filter (has_status "CANCELED") orders)
   <= length orders)%nat.
Proof.
  induction orders as [| o rest IH]; simpl; [lia |].
  destruct (has_status "FILLED" o) eqn:Ef, (has_status "CANCELED" o) eqn:Ec;
    simpl; try lia.
  exfalso. unfold has_status in Ef, Ec.
  destruct (Order.status o) as [st |]; [| discriminate].
  apply String.eqb_eq in Ef, Ec. congruence.
Qed.

(** X29: with an order and a trade, [analyze_fill_timing] returns a full
    report in which filled_orders + canceled_orders is at most total_orders,
    the number of orders given, and fill_rate_pct is between 0 and 100; with
    no order or no trade it returns the message of insufficient data. *)
Theorem fill_timing_counts (orders : list Order.t) (trades : list Trade.t) :
  ((orders = [] \/ trades = []) ->
     analyze_fill_timing orders trades
     = NoTiming "Insufficient order/trade data for timing analysis")
  /\ (orders <> [] -> trades <> [] ->
      exists filled canceled fill_rate_pct avg_seconds instant_pct,
        analyze_fill_timing orders trades
        = Timing (length orders) filled canceled fill_rate_pct avg_seconds
            instant_pct
        /\ (filled + canceled <= length orders)%nat
        /\ 0 <= fill_rate_pct <= 100).
Proof.
  split.
  - intros [-> | ->]; [reflexivity |]. destruct orders; reflexivity.
  - intros Ho Ht.
    destruct orders as [| o os]; [contradiction |].
    destruct trades as [| t ts]; [contradiction |].
    unfold analyze_fill_timing. cbv zeta.
    set (orders := o :: os).
    do 5 eexists. split; [reflexivity |]. split.
    + apply filled_and_canceled.
    + apply (TrendFacts.round1_range _ 0 100).
      change (inject_Z 0) with 0. change (inject_Z 100) with 100.
      assert (Hn : 0 < Py.of_nat (length orders))
        by (apply of_nat_pos; simpl; lia).
      pose proof (TrendFacts.of_nat_le _ _
                    (filter_length_le (has_status "FILLED") orders)) as Hle.
      pose proof (TrendFacts.of_nat_le 0 _
                    (Nat.le_0_l (length (List.filter (has_status "FILLED") orders))))
        as H0.
      change (Py.of_nat 0) with 0 in H0.
      set (f := Py.of_nat (length (List.filter (has_status "FILLED") orders))) in *.
      set (n := Py.of_nat (length orders)) in *.
      assert (Hq0 : 0 <= f / n) by (apply Qle_shift_div_l; lra).
      assert (Hq1 : f / n <= 1) by (apply Qle_shift_div_r; lra).
      lra.
Qed.

Lemma fill_timing_counts_witness :
  exists filled canceled fill_rate_pct avg_seconds instant_pct,
    analyze_fill_timing
      [Order.mk (Some "FILLED"%string) (Some 1000%Z) None;
       Order.mk (Some "CANCELED"%string) None None]
      [Trade.signal 1 None]
    = Timing 2 filled canceled fill_rate_pct avg_seconds instant_pct
    /\ (filled + canceled <= 2)%nat.
Proof.
  destruct (fill_timing_counts
              [Order.mk (Some "FILLED"%string) (Some 1000%Z) None;
               Order.mk (Some "CANCELED"%string) None None]
              [Trade.signal 1 None]) as [_ H].
  destruct H as (f & c & r & a & i & Heq & Hsum & _);
    [discriminate | discriminate |].
  exists f, c, r, a, i. split; [exact Heq | exact Hsum].
Defined.

End ExecutionFacts.

(** ** Risk report *)

Module RiskReportFacts.
Import RiskAnalyzer RiskSpec RiskFacts TrendSpec TradeStatsFacts SharpeFacts.

Lemma trade_stats_total (trades : list Trade.t) :
  exists stats, calculate_trade_stats trades = Some stats.
Proof.
  destruct trades as [| t rest]; [eexists; reflexivity |].
  destruct (calculate_trade_stats_runs (t :: rest)) as (s & _ & _ & _ & _ & Hs & _);
    [discriminate |].
  eexists. exact Hs.
Qed.

Lemma max_drawdown_total (equity_curve : list EquityPoint.t) :
  exists report, calculate_max_drawdown equity_curve = Some report.
Proof.
  destruct equity_curve as [| first [| second rest]];
    [eexists; reflexivity | eexists; reflexivity |].
  destruct (peak_before_dd_is_last_peak (first :: second :: rest))
    as (report & Hr & _); [simpl; lia |].
  eexists. exact Hr.
Qed.

Lemma sharpe_total (sqrt : Q -> Q) (daily_returns : list Q) :
  (2 <= length daily_returns)%nat ->
  exists x, calculate_sharpe_ratio sqrt daily_returns 0 365 = Some x.
Proof.
  intros Hlen.
  destruct (sharpe_unfolded sqrt daily_returns 0 365 Hlen ltac:(lia))
    as (_ & Heq).
  rewrite Heq. destruct (Qeq_bool _ 0); eexists; reflexivity.
Qed.

Lemma divisor_pos (avg_daily : Q) :
  0 < (if Py.gtb 1 (Qabs avg_daily) then 1 else Qabs avg_daily).
Proof.
  destruct (Py.gtb 1 (Qabs avg_daily)) eqn:E; [reflexivity |].
  apply PyFacts.gtb_le in E. lra.
Qed.

Lemma sum_map_div (d : Q) (l : list Q) :
  ~ d == 0 -> Py.sum (map (fun r => r / d) l) == Py.sum l / d.
Proof.
  intros Hd. induction l as [| x rest IH]; simpl.
  - unfold Qdiv. change (Py.sum []) with 0. ring.
  - rewrite !sum_cons, IH. field. exact Hd.
Qed.

Lemma normalize_nonneg (avg_daily : Q) (daily_returns : list Q) :
  Forall (fun r => 0 <= r) daily_returns ->
  Forall (fun r => 0 <= r) (normalize avg_daily daily_returns).
Proof.
  intros H. unfold normalize. cbv zeta.
  pose proof (divisor_pos avg_daily) as Hd.
  induction H as [| x rest Hx _ IH]; simpl; constructor; [| exact IH].
  apply Qle_shift_div_l; [exact Hd | lra].
Qed.

(** The Sortino ratio of returns none of which is negative and whose total
    is positive. *)
Lemma sortino_of_gains (sqrt : Q -> Q) (daily_returns : list Q) :
  (2 <= length daily_returns)%nat ->
  Forall (fun r => 0 <= r) daily_returns ->
  0 < Py.sum daily_returns ->
  calculate_sortino_ratio sqrt daily_returns 0 365 = Some Py.Inf.
Proof.
  intros Hlen Hpos Hsum. unfold calculate_sortino_ratio.
  assert (E : (length daily_returns <? 2)%nat = false)
    by (apply Nat.ltb_ge; exact Hlen).
  rewrite E, excess_return_defined by lia.
  cbn [mbind option_bind].
  apply negative_returns_nil in Hpos. rewrite Hpos.
  assert (Hex : 0 < Py.sum daily_returns / Py.of_nat (length daily_returns)
                    - 0 / inject_Z 365).
  { assert (Hn : 0 < Py.of_nat (length daily_returns))
      by (apply of_nat_pos; lia).
    assert (Hq : 0 < Py.sum daily_returns / Py.of_nat (length daily_returns))
      by (apply Qlt_shift_div_l; lra).
    set (q := Py.sum daily_returns / Py.of_nat (length daily_returns)) in *.
    assert (Ez : 0 / inject_Z 365 == 0) by reflexivity.
    rewrite Ez. lra. }
  apply PyFacts.gtb_gt in Hex. rewrite Hex. reflexivity.
Qed.

Lemma squares_nonneg (l : list Q) : 0 <= Py.sum (map (fun r => r * r) l).
Proof.
  induction l as [| x rest IH]; simpl; [apply Qle_refl |].
  rewrite sum_cons. pose proof (square_nonneg x). lra.
Qed.

(** With no risk-free rate and 365 periods [calculate_sortino_ratio] raises
    nothing. *)
Lemma sortino_total (sqrt : Q -> Q) (daily_returns : list Q) :
  exists x, calculate_sortino_ratio sqrt daily_returns 0 365 = Some x.
Proof.
  unfold calculate_sortino_ratio.
  destruct (Nat.ltb_spec (length daily_returns) 2) as [Hlen | Hlen];
    [eexists; reflexivity |].
  rewrite excess_return_defined by lia.
  cbn [mbind option_bind].
  destruct (negative_returns daily_returns) as [| n ns];
    [eexists; reflexivity |].
  rewrite (div_by_length _ (length (n :: ns))) by (simpl; lia).
  cbn [mbind option_bind]. unfold math_sqrt.
  set (variance := _ / Py.of_nat (length (n :: ns))).
  assert (Hvar : Py.ltb variance 0 = false).
  { apply PyFacts.ltb_ge. subst variance. apply Qle_shift_div_l.
    - apply of_nat_pos. simpl. lia.
    - rewrite Qmult_0_l. apply squares_nonneg. }
  rewrite Hvar. cbn [mbind option_bind].
  destruct (Qeq_bool (sqrt variance) 0) eqn:Edev; [eexists; reflexivity |].
  rewrite div_some
    by (intros E; apply Qeq_bool_iff in E; rewrite E in Edev; discriminate).
  cbn [mbind option_bind].
  change (Py.ltb (inject_Z 365) 0) with false. cbn [mbind option_bind].
  eexists. reflexivity.
Qed.

(** X30: [generate_risk_report] returns a report for every input, with
    the number of days as period_days.  For fewer than two days its
    sharpe_ratio and its sortino_ratio are 0; for at least two days none of
    which has a net pnl below 0 and one of which has one above, its
    sortino_ratio is the positive-infinity sentinel. *)
Theorem risk_report_ratios (sqrt : Q -> Q) (now : string)
    (trades : list Trade.t) (daily_pnl : list DailyPnL.t)
    (equity_curve : option (list EquityPoint.t)) :
  exists report,
    generate_risk_report sqrt now trades daily_pnl equity_curve = Some report
    /\ period_days report = length daily_pnl
    /\ ((length daily_pnl < 2)%nat ->
        sharpe_ratio (risk_metrics report) = 0
        /\ sortino_ratio (risk_metrics report) = Py.Fin 0)
    /\ ((2 <= length daily_pnl)%nat -> down_days daily_pnl = 0%nat ->
        (0 < up_days daily_pnl)%nat ->
        sortino_ratio (risk_metrics report) = Py.Inf).
Proof.
  unfold generate_risk_report.
  destruct (trade_stats_total trades) as [stats Hstats]. rewrite Hstats.
  cbn [mbind option_bind]. cbv zeta.
  fold (pnl_values_of daily_pnl).
  assert (Hvals : length (pnl_values_of daily_pnl) = length daily_pnl)
    by (unfold pnl_values_of; apply length_map).
  assert (Hdd : exists dd,
             match equity_curve with
             | Some (point :: rest) =>
                 stats ← calculate_max_drawdown (point :: rest);
                 Some (Some stats)
             | _ => Some None
             end = Some dd).
  { destruct equity_curve as [[| point rest] |]; try (eexists; reflexivity).
    destruct (max_drawdown_total (point :: rest)) as [r Hr].
    rewrite Hr. eexists. reflexivity. }
  destruct Hdd as [dd Hdd]. rewrite Hdd.
  destruct (Nat.ltb_spec 1 (length (pnl_values_of daily_pnl))) as [Hmany | Hfew].
  - rewrite (div_by_length _ (length (pnl_values_of daily_pnl))) by lia.
    cbn [mbind option_bind].
    set (avg := Py.sum (pnl_values_of daily_pnl) / _).
    set (normalized := normalize avg (pnl_values_of daily_pnl)).
    assert (Hn : length normalized = length daily_pnl).
    { subst normalized. unfold normalize. cbv zeta.
      rewrite length_map. exact Hvals. }
    destruct (sharpe_total sqrt normalized) as [sh Hsh]; [lia |].
    rewrite Hsh. cbn [mbind option_bind].
    destruct (sortino_total sqrt normalized) as [so Hso].
    rewrite Hso. cbn [mbind option_bind].
    eexists. split; [reflexivity |]. cbn.
    split; [reflexivity |]. split; [intros; lia |].
    intros _ Hdown Hup.
    assert (Hgain : calculate_sortino_ratio sqrt normalized 0 365 = Some Py.Inf).
    { unfold down_days in Hdown. apply length_zero_iff_nil in Hdown.
      apply sortino_of_gains; [lia | |].
      - apply normalize_nonneg, negative_returns_nil. exact Hdown.
      - subst normalized. unfold normalize. cbv zeta.
        pose proof (divisor_pos avg) as Hd.
        rewrite sum_map_div by lra.
        apply Qlt_shift_div_l; [exact Hd |].
        rewrite Qmult_0_l, (sum_split (pnl_values_of daily_pnl)).
        assert (Hl : losers_of (pnl_values_of daily_pnl) = []) by exact Hdown.
        rewrite Hl. change (Py.sum []) with 0.
        assert (Hw : winners_of (pnl_values_of daily_pnl) <> []).
        { intros E. unfold up_days in Hup. unfold winners_of in E.
          rewrite E in Hup. simpl in Hup. lia. }
        pose proof (TrendFacts.sum_winners_pos _ Hw). lra. }
    rewrite Hgain in Hso. congruence.
  - cbn [mbind option_bind].
    eexists. split; [reflexivity |]. cbn.
    split; [reflexivity |]. split; [intros; split; reflexivity |].
    intros. lia.
Qed.

Lemma risk_report_ratios_witness :
  exists report,
    generate_risk_report Sqrt.isqrt "2024-01-03T00:00:00"
      [] [DailyPnL.mk (Some 1); DailyPnL.mk (Some 0)] None = Some report
    /\ sortino_ratio (risk_metrics report) = Py.Inf.
Proof.
  destruct (risk_report_ratios Sqrt.isqrt "2024-01-03T00:00:00" []
              [DailyPnL.mk (Some 1); DailyPnL.mk (Some 0)] None)
    as (report & Hreport & _ & _ & Hinf).
  exists report. split; [exact Hreport |].
  apply Hinf; [simpl; lia | reflexivity | vm_compute; lia].
Defined.

End RiskReportFacts.

(** ** Scenarios of the specification *)

Module Scenarios.

(** Trades of pnl 10, -5, 10: win rate 66.7, gross profit 20, gross loss 5,
    profit factor 4.0, expectancy 5.0. *)
Example trade_stats_scenario :
  exists s,
    RiskAnalyzer.calculate_trade_stats
      [Trade.signal 10 None; Trade.signal (-5) None; Trade.signal 10 None]
    = Some (RiskAnalyzer.Stats s)
    /\ RiskAnalyzer.win_rate s == 667 # 10
    /\ RiskAnalyzer.gross_profit s == 20
    /\ RiskAnalyzer.gross_loss s == 5
    /\ RiskAnalyzer.profit_factor s == 4
    /\ RiskAnalyzer.expectancy_per_trade s == 5.
Proof. eexists. split; [vm_compute; reflexivity |]. repeat split. Qed.

(** A trade without confidence is a trade of the medium bucket. *)
Example default_confidence_is_medium :
  map (fun nb => (fst nb, SignalAnalyzer.trade_count (snd nb)))
    (SignalAnalyzer.by_confidence
       (SignalAnalyzer.analyze_by_confidence
          [Trade.signal 1 None; Trade.signal (-1) (Some (9 # 10))]))
  = [("low"%string, 0%nat); ("medium"%string, 1%nat); ("high"%string, 1%nat)].
Proof. vm_compute. reflexivity. Qed.

End Scenarios.
